(** * English Flash Cards Generator: the generation session workflow

    A shallow embedding of the card generation back end:

    - [OpenAIService] (src/lib/openai.ts): text generation, moderation,
      per-scene image generation and cost accounting;
    - the generation route (app/api/cards/generate/route.ts): [POST],
      [generateCardAsync], [checkUserQuota], [updateUserUsage];
    - the status route (app/api/cards/generation/[sessionId]/route.ts): [GET];
    - [CardRepository] (lib/repositories/cardRepository.ts):
      [approveCard], [createFlashCard], [createCardScenes], [getUserCards];
    - [validateRequest] (src/lib/auth.ts) and [handleAPIError]
      (src/lib/errors.ts);
    - [retryWithBackoff], the backoff loop of the guide;
    - the card store of the client (src/stores/cardStore.ts).

    The routes are asynchronous TypeScript.  Every [await] is a bind of the
    [Async] monad below: a computation takes the current [World] (the
    Supabase tables, the clock and a log of the OpenAI requests issued) and
    yields the settled promise ([Resolved] or [Rejected]) with the world it
    leaves behind.  Effects made before an exception is thrown stay in the
    world, as they do in JavaScript.  Everything the outside decides (the
    replies of OpenAI, whether the store accepts a statement, the
    environment variables) is read from an [Env].

    Sections 1 to 7 are the embedding, 8 and 9 the vocabulary of the
    properties and the sample runs; 9b to 9e add the vocabulary of the
    further properties, the backoff loop, the rest of the repository and
    the store of the client.  Sections 10 to 14 are the proof
    tools: a program logic for [Async] (triples with a postcondition for
    the resolved and one for the rejected promise), the runs of the
    service and of the pipeline as equations, and a relational version of
    the logic for two runs side by side.  Sections 15 to 22 prove the
    properties C1 to C10 of the session workflow, sections 23 to 36 the
    further properties X1 to X30. *)

From Stdlib Require Import ZArith List String Ascii Bool Lia.
From Stdlib Require Import Floats.
From Stdlib Require Import Permutation Sorted.
From Stdlib Require DecimalString.
Import ListNotations.

Local Open Scope string_scope.
Local Open Scope Z_scope.

Set Implicit Arguments.

(* The decimal constants of the source are read as JavaScript reads them:
   the nearest binary64. *)
Set Warnings "-inexact-float".

(* ================================================================== *)
(** * 1. Data model *)
(* ================================================================== *)

(** Primary keys are UUIDs drawn by [uuid_generate_v4()]; the model draws
    them from a counter of the store. *)
Definition Uuid := Z.

(** Instants are milliseconds since the epoch, in UTC, the resolution of a
    JavaScript [Date] and of the ISO strings the routes send to the store. *)
Definition Timestamp := Z.

(** [users.subscription_tier].  The column is text under a CHECK
    constraint; the two schemas of the repository and [IUser] together
    allow these five names. *)
Inductive Tier := free | educator | premium | pro | enterprise.

Inductive SessionStatus := pending | processing | completed | failed.

Inductive CardStatus := generating | preview | approved | downloaded.

Inductive CardType := single_word | category.

Inductive GenerationType := single_word_card | category_card | regeneration.

Inductive DifficultyLevel := beginner | intermediate | advanced.
Inductive AgeGroup := preschool | elementary | middle_school.
Inductive StylePreference := cartoon | realistic | minimalist.

Record GenerationParams := mkParams {
  difficulty_level : DifficultyLevel;
  age_group : AgeGroup;
  style_preference : StylePreference;
  language : string
}.

(** The scene descriptions the language model returns. *)
Module RawScene.
Record t := mk {
  id : string;
  description : string;
  image_prompt : string
}.
End RawScene.

(** [Scene] of types/cards: a description with its image. An [image_url]
    of [""] marks a scene whose image could not be generated. *)
Module Scene.
Record t := mk {
  id : string;
  description : string;
  image_url : string;
  image_prompt : string
}.
End Scene.

Record CardLayout := mkLayout {
  format : string;
  orientation : string;
  theme : string
}.

Record CardContent := mkContent {
  primary_word : string;
  scenes : list Scene.t;
  category_words : option (list string);
  layout : CardLayout
}.

(** [ai_costs] of a session.  [text_tokens] and [total_cost_usd] are
    JavaScript numbers (binary64); [image_generations] is an array length. *)
Record Costs := mkCosts {
  text_tokens : float;
  image_generations : nat;
  total_cost_usd : float
}.

(** Row of [generation_sessions]. *)
Module Session.
Record t := mk {
  id : Uuid;
  user_id : Uuid;
  input_prompt : string;
  generation_type : GenerationType;
  status : SessionStatus;
  error_message : option string;
  ai_costs : Costs;
  retry_count : Z;
  created_at : Timestamp;
  completed_at : option Timestamp
}.
End Session.

(** Row of [flash_cards]. *)
Module FlashCard.
Record t := mk {
  id : Uuid;
  user_id : Uuid;
  session_id : option Uuid;
  title : string;
  card_type : CardType;
  content : CardContent;
  generation_params : GenerationParams;
  status : CardStatus;
  created_at : Timestamp;
  updated_at : Timestamp
}.
End FlashCard.

(** Row of [card_scenes]. *)
Module CardScene.
Record t := mk {
  id : Uuid;
  card_id : Uuid;
  scene_order : Z;
  description : string;
  image_url : string;
  image_prompt : string
}.
End CardScene.

(** Row of [users], as far as the routes read it. *)
Module User.
Record t := mk {
  id : Uuid;
  subscription_tier : option Tier
}.
End User.

(** Row of [usage_tracking]; the two period columns are dates, kept as the
    number of the UTC day. *)
Module Usage.
Record t := mk {
  user_id : Uuid;
  period_start : Z;
  period_end : Z;
  cards_generated : Z;
  total_ai_cost : float
}.
End Usage.

(** Requests sent to OpenAI, in the order they were issued. *)
Inductive ApiCall :=
| ChatCompletion (userPrompt : string)
| Moderation (input : string)
| ImageGeneration (prompt : string) (style : string).

(** The state the routes act on. [session_writes] is the journal of the
    store: every version of a [generation_sessions] row that an INSERT or
    an UPDATE produced, latest first, which is what a client polling the
    status route can observe between two steps of the pipeline. *)
Record World := mkWorld {
  users : list User.t;
  generation_sessions : list Session.t;
  flash_cards : list FlashCard.t;
  card_scenes : list CardScene.t;
  usage_tracking : list Usage.t;
  next_uuid : Uuid;
  clock : Timestamp;
  api_calls : list ApiCall;
  session_writes : list Session.t
}.

(* ================================================================== *)
(** * 2. Errors and promises *)
(* ================================================================== *)

(** The error classes of src/lib/auth.ts and src/lib/errors.ts.  [APIError]
    carries its [code] and [statusCode]; [QuotaExceededError] is the
    [APIError] built by [QuotaExceededError_new]. *)
Inductive ErrorClass :=
| Error
| ValidationError
| AuthenticationError
| APIError (code : string) (statusCode : Z)
| ZodError.

Record Exn := mkExn { class : ErrorClass; message : string }.

Definition Error_new (msg : string) : Exn := mkExn Error msg.

Definition QuotaExceededError_new (msg : option string) : Exn :=
  mkExn (APIError "QUOTA_EXCEEDED" 429)
        (match msg with Some m => m | None => "Generation quota exceeded" end).

Inductive Outcome (A : Type) :=
| Resolved (a : A)
| Rejected (e : Exn).
Arguments Resolved {A} a.
Arguments Rejected {A} e.

Definition Async (A : Type) := World -> Outcome A * World.

Definition ret {A} (a : A) : Async A := fun w => (Resolved a, w).

Definition throw {A} (e : Exn) : Async A := fun w => (Rejected e, w).

Definition bind {A B} (m : Async A) (k : A -> Async B) : Async B :=
  fun w =>
    match m w with
    | (Resolved a, w') => k a w'
    | (Rejected e, w') => (Rejected e, w')
    end.

(** [try { m } catch (error) { h error }] *)
Definition try_catch {A} (m : Async A) (h : Exn -> Async A) : Async A :=
  fun w =>
    match m w with
    | (Resolved a, w') => (Resolved a, w')
    | (Rejected e, w') => h e w'
    end.

Declare Scope async_scope.
Delimit Scope async_scope with async.
Notation "x <- m ;; k" := (bind m (fun x => k))
  (at level 61, m at next level, right associativity) : async_scope.
Notation "m ;;; k" := (bind m (fun _ => k))
  (at level 61, right associativity) : async_scope.
Local Open Scope async_scope.

(** [new Date()] *)
Definition new_Date : Async Timestamp := fun w => (Resolved (clock w), w).

(** The request reaches OpenAI: it is appended to the log. *)
Definition issue (c : ApiCall) : Async unit :=
  fun w =>
    (Resolved tt,
     mkWorld (users w) (generation_sessions w) (flash_cards w) (card_scenes w)
             (usage_tracking w) (next_uuid w) (clock w)
             (api_calls w ++ [c]) (session_writes w)).

(* ================================================================== *)
(** * 3. JavaScript values *)
(* ================================================================== *)

(** The double quote character, for the template strings that contain it. *)
Definition dquote : string := String (ascii_of_nat 34) EmptyString.

(** [Array.prototype.join] *)
Fixpoint join (sep : string) (xs : list string) : string :=
  match xs with
  | [] => ""
  | [x] => x
  | x :: rest => x ++ sep ++ join sep rest
  end.

(** [s.length]: the number of UTF-16 code units of a JavaScript string.
    The strings here hold the UTF-8 encoding of the text, as string
    literals do.  A byte that starts a character of one, two or three
    bytes stands for one code unit, a byte that starts a character of
    four bytes for the two code units of a surrogate pair, and a
    continuation byte for none. *)
Definition utf16_units (c : ascii) : nat :=
  let byte := nat_of_ascii c in
  if (byte <? 128)%nat then 1%nat
  else if (byte <? 192)%nat then 0%nat
  else if (byte <? 240)%nat then 1%nat
  else 2%nat.

Fixpoint utf16_length (s : string) : nat :=
  match s with
  | EmptyString => 0%nat
  | String c rest => (utf16_units c + utf16_length rest)%nat
  end.

(** [!s] for a value that is a string or undefined. *)
Definition falsy_string (s : option string) : bool :=
  match s with
  | None => true
  | Some s => String.eqb s ""
  end.

(** [x || 0] for a value that is a number or undefined: 0, -0 and NaN are
    falsy. *)
Definition number_or_zero (x : option float) : float :=
  match x with
  | None => 0%float
  | Some x => if (PrimFloat.eqb x 0 || PrimFloat.is_nan x)%bool then 0%float else x
  end.

(** An array length as a number. *)
Definition Number_of_nat (n : nat) : float :=
  PrimFloat.of_uint63 (Uint63.of_Z (Z.of_nat n)).

(** [String(n)] for a non-negative integer. *)
Definition String_of_Z (n : Z) : string :=
  DecimalString.NilZero.string_of_uint (N.to_uint (Z.to_N n)).

(** [Number(x.toFixed(4))].  [toFixed] prints the integer [n] nearest to
    [|x| * 10^4], the larger one on a tie, with four digits after the
    point; [Number] reads the decimal back as the nearest binary64.  From
    [10^21] on, and for NaN and the infinities, [toFixed] prints [x]
    itself. *)
Definition Number_toFixed4 (x : float) : float :=
  match Prim2SF x with
  | S754_finite s m e =>
      if PrimFloat.leb 1e21 (PrimFloat.abs x) then x
      else
        let n :=
          match e with
          | Zneg p => (2 * Zpos m * 10000 + 2 ^ Zpos p) / 2 ^ (Zpos p + 1)
          | _ => Zpos m * 10000 * 2 ^ e
          end in
        match n with
        | Zpos p =>
            SF2Prim (SFdiv prec emax (S754_finite s p 0)
                                     (S754_finite false 10000 0))
        | _ => SF2Prim (S754_zero s)
        end
  | S754_zero _ => 0%float
  | _ => x
  end.

(** [a >= b] where [b] may be undefined: undefined converts to NaN and the
    comparison is false. *)
Definition ge_undefined (a : Z) (b : option Z) : bool :=
  match b with
  | Some b => b <=? a
  | None => false
  end.

(* ================================================================== *)
(** * 4. The outside of the routes *)
(* ================================================================== *)

(** The statements the routes send to Supabase, one name per call site. *)
Inductive StoreOp :=
| SelectUserTier        (* checkUserQuota: users.subscription_tier *)
| CountSessionsToday    (* checkUserQuota: today's generation_sessions *)
| InsertSession         (* POST: the pending session *)
| UpdateProcessing      (* generateCardAsync: status processing *)
| InsertCard            (* generateCardAsync: the flash card *)
| InsertScenes          (* generateCardAsync: card_scenes *)
| UpdateCompleted       (* generateCardAsync: status completed *)
| UpsertUsage           (* updateUserUsage *)
| UpdateFailed          (* generateCardAsync, catch block: status failed *)
| UpdateFailedDetached  (* POST, catch handler of the detached promise *)
| SelectSession         (* GET: the session with its cards *)
| UpdateCardApproved.   (* CardRepository.approveCard *)

(** What becomes of a statement: the store runs it, or it answers with an
    [error] object and changes nothing, or the call itself throws. *)
Inductive Fault :=
| Healthy
| Refuses (message : string)
| Crashes (message : string).

(** What a Supabase call resolves to: [{ data, error: null }] or
    [{ data: null, error: { message } }]. *)
Inductive PgResult (A : Type) :=
| PgData (data : A)
| PgError (message : string).
Arguments PgData {A} data.
Arguments PgError {A} message.

(** A call of the OpenAI client returns or throws. *)
Inductive ApiReply (A : Type) :=
| Returns (a : A)
| Fails (message : string).
Arguments Returns {A} a.
Arguments Fails {A} message.

(** [completion.choices[0]?.message?.content] and
    [completion.usage?.total_tokens]. *)
Record Completion := mkCompletion {
  message_content : option string;
  usage_total_tokens : option float
}.

(** The object the model's JSON answer parses to. [scenes] is [None] when
    the answer carries no array under that key. *)
Module TextContent.
Record t := mk {
  title : string;
  primary_word : string;
  category_words : option (list string);
  scenes : option (list RawScene.t)
}.
End TextContent.

(** [moderation.results[0]] *)
Record ModerationResult := mkModeration {
  flagged : bool;
  categories : list (string * bool)
}.

Record Env := mkEnv {
  (** [process.env.OPENAI_API_KEY] *)
  OPENAI_API_KEY : option string;
  store_fault : StoreOp -> Fault;
  (** [client.chat.completions.create], as a function of what the two
      messages are built from: the card type, the prompt and the
      parameters. *)
  chat_completions_create :
    CardType -> string -> GenerationParams -> ApiReply Completion;
  (** [JSON.parse]; [None] when it throws. *)
  JSON_parse : string -> option TextContent.t;
  (** [client.moderations.create] *)
  moderations_create : string -> ApiReply (option ModerationResult);
  (** [client.images.generate], returning [response.data[0]?.url]; the
      reply may depend on the requests issued before. *)
  images_generate : list ApiCall -> string -> string -> ApiReply (option string)
}.

(* ================================================================== *)
(** * 5. The store *)
(* ================================================================== *)

(** ** Row updates *)

(** [update({ status: 'processing' })] *)
Definition set_processing (s : Session.t) : Session.t :=
  Session.mk (Session.id s) (Session.user_id s) (Session.input_prompt s)
             (Session.generation_type s) processing (Session.error_message s)
             (Session.ai_costs s) (Session.retry_count s)
             (Session.created_at s) (Session.completed_at s).

(** [update({ status: 'completed', ai_costs, completed_at })] *)
Definition set_completed (costs : Costs) (at_ : Timestamp) (s : Session.t)
  : Session.t :=
  Session.mk (Session.id s) (Session.user_id s) (Session.input_prompt s)
             (Session.generation_type s) completed (Session.error_message s)
             costs (Session.retry_count s)
             (Session.created_at s) (Some at_).

(** [update({ status: 'failed', error_message, completed_at })] *)
Definition set_failed (msg : string) (at_ : Timestamp) (s : Session.t)
  : Session.t :=
  Session.mk (Session.id s) (Session.user_id s) (Session.input_prompt s)
             (Session.generation_type s) failed (Some msg)
             (Session.ai_costs s) (Session.retry_count s)
             (Session.created_at s) (Some at_).

(** [update({ status: 'approved' })] on [flash_cards]; the trigger on the
    table stamps [updated_at] with [NOW()] on every update. *)
Definition set_approved (now : Timestamp) (c : FlashCard.t) : FlashCard.t :=
  FlashCard.mk (FlashCard.id c) (FlashCard.user_id c) (FlashCard.session_id c)
               (FlashCard.title c) (FlashCard.card_type c) (FlashCard.content c)
               (FlashCard.generation_params c) approved
               (FlashCard.created_at c) now.

(** The column default of [generation_sessions.ai_costs]. *)
Definition default_ai_costs : Costs := mkCosts 0 0 0.

(** ** Statements, as a healthy store runs them *)

(** [from('generation_sessions').insert({ user_id, input_prompt,
    generation_type, status: 'pending' }).select().single()]; the other
    columns take their defaults. *)
Definition insert_session (uid : Uuid) (prompt : string) (gt : GenerationType)
  (w : World) : Session.t * World :=
  let row := Session.mk (next_uuid w) uid prompt gt pending None
                        default_ai_costs 0 (clock w) None in
  (row,
   mkWorld (users w) (generation_sessions w ++ [row]) (flash_cards w)
           (card_scenes w) (usage_tracking w) (next_uuid w + 1) (clock w)
           (api_calls w) (row :: session_writes w)).

(** [from('generation_sessions').update(patch).eq('id', sid)] *)
Definition update_session (sid : Uuid) (patch : Session.t -> Session.t)
  (w : World) : unit * World :=
  let hit := fun s => Session.id s =? sid in
  (tt,
   mkWorld (users w)
           (map (fun s => if hit s then patch s else s) (generation_sessions w))
           (flash_cards w) (card_scenes w) (usage_tracking w) (next_uuid w)
           (clock w) (api_calls w)
           (rev (map patch (filter hit (generation_sessions w)))
              ++ session_writes w)).

(** [from('flash_cards').insert({...}).select().single()] *)
Definition insert_card (uid sid : Uuid) (title : string) (ct : CardType)
  (content : CardContent) (params : GenerationParams) (w : World)
  : FlashCard.t * World :=
  let row := FlashCard.mk (next_uuid w) uid (Some sid) title ct content params
                          preview (clock w) (clock w) in
  (row,
   mkWorld (users w) (generation_sessions w) (flash_cards w ++ [row])
           (card_scenes w) (usage_tracking w) (next_uuid w + 1) (clock w)
           (api_calls w) (session_writes w)).

(** The rows built by [scenes.map((scene, index) => ({ card_id,
    scene_order: index + 1, ... }))], with the keys the store gives them. *)
Fixpoint sceneData (card_id : Uuid) (index : Z) (key : Uuid)
  (scenes : list Scene.t) : list CardScene.t :=
  match scenes with
  | [] => []
  | scene :: rest =>
      CardScene.mk key card_id (index + 1) (Scene.description scene)
                   (Scene.image_url scene) (Scene.image_prompt scene)
        :: sceneData card_id (index + 1) (key + 1) rest
  end.

(** [from('card_scenes').insert(sceneData)] *)
Definition insert_scenes (card_id : Uuid) (scenes : list Scene.t) (w : World)
  : unit * World :=
  (tt,
   mkWorld (users w) (generation_sessions w) (flash_cards w)
           (card_scenes w ++ sceneData card_id 0 (next_uuid w) scenes)
           (usage_tracking w) (next_uuid w + Z.of_nat (List.length scenes))
           (clock w) (api_calls w) (session_writes w)).

(** [from('usage_tracking').upsert(row, { onConflict:
    'user_id,period_start', ignoreDuplicates: false })]: the row replaces
    the one with the same user and period. *)
Definition upsert_usage (row : Usage.t) (w : World) : unit * World :=
  let clash := fun r =>
    ((Usage.user_id r =? Usage.user_id row)
     && (Usage.period_start r =? Usage.period_start row))%bool in
  (tt,
   mkWorld (users w) (generation_sessions w) (flash_cards w) (card_scenes w)
           (filter (fun r => negb (clash r)) (usage_tracking w) ++ [row])
           (next_uuid w) (clock w) (api_calls w) (session_writes w)).

(** [.single()]: exactly one row, or an error. *)
Definition single {A} (rows : list A) : PgResult A :=
  match rows with
  | [row] => PgData row
  | _ => PgError "JSON object requested, multiple (or no) rows returned"
  end.

(** [from('users').select('subscription_tier').eq('id', uid).single()] *)
Definition select_user (uid : Uuid) (w : World) : PgResult User.t :=
  single (filter (fun u => User.id u =? uid) (users w)).

(** Number of the UTC day of an instant: the date part of
    [toISOString()]. *)
Definition msPerDay : Z := 86400000.
Definition utc_day (t : Timestamp) : Z := t / msPerDay.

(** The instants [`${today}T00:00:00.000Z`] and [`${today}T23:59:59.999Z`]. *)
Definition T00_00_00_000Z (today : Z) : Timestamp := today * msPerDay.
Definition T23_59_59_999Z (today : Z) : Timestamp :=
  today * msPerDay + (msPerDay - 1).

(** [from('generation_sessions').select(..., { count: 'exact' })
      .eq('user_id', uid).gte('created_at', lo).lt('created_at', hi)] *)
Definition count_sessions (uid : Uuid) (lo hi : Timestamp) (w : World) : Z :=
  Z.of_nat (List.length (filter
    (fun s => ((Session.user_id s =? uid)
               && (lo <=? Session.created_at s)
               && (Session.created_at s <? hi))%bool)
    (generation_sessions w))).

(** A card with its embedded [card_scenes], and a session with its embedded
    [flash_cards], as the status route selects them. *)
Definition CardWithScenes := (FlashCard.t * list CardScene.t)%type.
Definition SessionWithCards := (Session.t * list CardWithScenes)%type.

Definition embed_scenes (w : World) (c : FlashCard.t) : CardWithScenes :=
  (c, filter (fun sc => CardScene.card_id sc =? FlashCard.id c) (card_scenes w)).

Definition embed_cards (w : World) (s : Session.t) : SessionWithCards :=
  (s, map (embed_scenes w)
          (filter (fun c => match FlashCard.session_id c with
                            | Some sid => sid =? Session.id s
                            | None => false
                            end)
                  (flash_cards w))).

(** [from('generation_sessions').select(...).eq('id', sid)
      .eq('user_id', uid).single()], the selection being every column of
    the session with its flash cards and their scenes embedded. *)
Definition select_session (sid uid : Uuid) (w : World)
  : PgResult SessionWithCards :=
  match single (filter (fun s => ((Session.id s =? sid)
                                  && (Session.user_id s =? uid))%bool)
                       (generation_sessions w)) with
  | PgData s => PgData (embed_cards w s)
  | PgError m => PgError m
  end.

(** [from('flash_cards').update({ status: 'approved' }).eq('id', cid)
      .eq('user_id', uid).select().single()]: when the filter does not
    select exactly one row the request is answered with an error and
    nothing is updated. *)
Definition update_card_approved (cid uid : Uuid) (w : World)
  : PgResult FlashCard.t * World :=
  let hit := fun c =>
    ((FlashCard.id c =? cid) && (FlashCard.user_id c =? uid))%bool in
  let now := clock w in
  match single (filter hit (flash_cards w)) with
  | PgData c =>
      (PgData (set_approved now c),
       mkWorld (users w) (generation_sessions w)
               (map (fun c => if hit c then set_approved now c else c)
                    (flash_cards w))
               (card_scenes w) (usage_tracking w) (next_uuid w) (clock w)
               (api_calls w) (session_writes w))
  | PgError m => (PgError m, w)
  end.

(* ================================================================== *)
(** * 6. Requests and responses *)
(* ================================================================== *)

(** The body of a generation request after [GenerateCardSchema.parse]. *)
Module GenerateCard.
Record t := mk {
  input_prompt : string;
  card_type : CardType;
  generation_params : GenerationParams
}.
End GenerateCard.

(** What [request.json()] finds: no JSON at all (it throws), a generation
    request with [generation_params] present or not, or some other JSON
    document. *)
Inductive Body :=
| NoJson
| GenerateJson (input_prompt : string) (card_type : CardType)
               (generation_params : option GenerationParams)
| OtherJson.

(** A request: its body and the user [supabase.auth.getUser()] finds for
    its cookies, if any. *)
Record Request := mkRequest {
  body : Body;
  auth_user : option Uuid
}.

Inductive Response :=
| JsonSession (session : Session.t)
| JsonSessionWithCards (session : Session.t) (cards : list CardWithScenes)
| JsonError (status : Z) (code : string) (message : string).

(** The defaults of [GenerateCardSchema]. *)
Definition default_generation_params : GenerationParams :=
  mkParams beginner elementary cartoon "en".

(** [GenerateCardSchema.parse(body)]; [None] when it throws.  The bounds
    [min(1)] and [max(200)] of zod are on [input_prompt.length]. *)
Definition GenerateCardSchema_parse (b : Body) : option GenerateCard.t :=
  match b with
  | GenerateJson prompt ct params =>
      if ((1 <=? Z.of_nat (utf16_length prompt))
          && (Z.of_nat (utf16_length prompt) <=? 200))%bool
      then Some (GenerateCard.mk prompt ct
                   (match params with
                    | Some p => p
                    | None => default_generation_params
                    end))
      else None
  | _ => None
  end.

(** [z.any().parse(body)] *)
Definition any_parse (b : Body) : option Body :=
  match b with
  | NoJson => None
  | _ => Some b
  end.

(** [validateRequest] of src/lib/auth.ts: the body is read and parsed
    first, the user is looked up second. *)
Definition validateRequest {T} (request : Request) (schema : Body -> option T)
  : Async (T * Uuid) :=
  match schema (body request) with
  | None => throw (mkExn ValidationError "Invalid request data")
  | Some data =>
      match auth_user request with
      | None => throw (mkExn AuthenticationError "Authentication required")
      | Some user => ret (data, user)
      end
  end.

(** [handleAPIError] of src/lib/errors.ts; the [timestamp] and the
    [requestId] of the error body are left out. *)
Definition handleAPIError (error : Exn) : Response :=
  match class error with
  | APIError code statusCode => JsonError statusCode code (message error)
  | AuthenticationError => JsonError 401 "UNAUTHORIZED" (message error)
  | ValidationError => JsonError 400 "VALIDATION_ERROR" (message error)
  | ZodError => JsonError 400 "VALIDATION_ERROR" "Request validation failed"
  | Error =>
      JsonError 500 "INTERNAL_SERVER_ERROR" "An unexpected error occurred"
  end.

(* ================================================================== *)
(** * 7. The OpenAI service and the routes *)
(* ================================================================== *)

Section Routes.

Variable env : Env.

(** A statement sent to Supabase and awaited. *)
Definition supabase {A} (op : StoreOp) (run : World -> PgResult A * World)
  : Async (PgResult A) :=
  fun w =>
    match store_fault env op with
    | Healthy => let (r, w') := run w in (Resolved r, w')
    | Refuses m => (Resolved (PgError m), w)
    | Crashes m => (Rejected (Error_new m), w)
    end.

(** A statement that cannot fail once the store runs it. *)
Definition statement {A} (op : StoreOp) (run : World -> A * World)
  : Async (PgResult A) :=
  supabase op (fun w => let (a, w') := run w in (PgData a, w')).

(** A query: it leaves the store as it is. *)
Definition query {A} (op : StoreOp) (run : World -> PgResult A)
  : Async (PgResult A) :=
  supabase op (fun w => (run w, w)).

(** ** OpenAIService *)

(** The constructor: it throws unless the API key is set. *)
Definition OpenAIService_new : Async unit :=
  if falsy_string (OPENAI_API_KEY env)
  then throw (Error_new "OPENAI_API_KEY environment variable is required")
  else ret tt.

Definition userPrompt (prompt : string) (cardType : CardType) : string :=
  match cardType with
  | single_word =>
      "Create a single word flash card for: " ++ dquote ++ prompt ++ dquote
  | category =>
      "Create a category flash card for: " ++ dquote ++ prompt ++ dquote
  end.

Definition generateTextContent (prompt : string) (cardType : CardType)
  (params : GenerationParams) : Async (TextContent.t * option float) :=
  issue (ChatCompletion (userPrompt prompt cardType)) ;;;
  match chat_completions_create env cardType prompt params with
  | Fails m => throw (Error_new m)
  | Returns completion =>
      if falsy_string (message_content completion)
      then throw (Error_new "No content generated")
      else
        match JSON_parse env (match message_content completion with
                              | Some c => c
                              | None => ""
                              end) with
        | None => throw (Error_new "Failed to parse AI response")
        | Some parsed => ret (parsed, usage_total_tokens completion)
        end
  end.

Definition moderateContent (content : string) : Async unit :=
  issue (Moderation content) ;;;
  match moderations_create env content with
  | Fails m => throw (Error_new m)
  | Returns None => ret tt
  | Returns (Some result) =>
      if flagged result then
        let flaggedCategories :=
          map fst (filter (fun entry => snd entry) (categories result)) in
        throw (Error_new ("Content policy violation: "
                            ++ join ", " flaggedCategories))
      else ret tt
  end.

Definition style_name (s : StylePreference) : string :=
  match s with
  | cartoon => "cartoon"
  | realistic => "realistic"
  | minimalist => "minimalist"
  end.

Definition enhancedPrompt (scene : RawScene.t) (params : GenerationParams)
  : string :=
  RawScene.image_prompt scene ++ ", " ++ style_name (style_preference params)
    ++ " style, child-friendly, colorful, educational, high quality, 3:4 aspect ratio".

(** [await this.client.images.generate({...})], reduced to
    [response.data[0]?.url]. *)
Definition client_images_generate (prompt style : string)
  : Async (option string) :=
  fun w =>
    match issue (ImageGeneration prompt style) w with
    | (_, w') =>
        match images_generate env (api_calls w) prompt style with
        | Returns url => (Resolved url, w')
        | Fails m => (Rejected (Error_new m), w')
        end
    end.

(** The body of the loop of [generateSceneImages] for one scene. *)
Definition generateSceneImage (scene : RawScene.t) (params : GenerationParams)
  : Async Scene.t :=
  try_catch
    (imageUrl <- client_images_generate
                   (enhancedPrompt scene params)
                   (match style_preference params with
                    | realistic => "natural"
                    | _ => "vivid"
                    end) ;;
     if falsy_string imageUrl then throw (Error_new "No image generated")
     else ret (Scene.mk (RawScene.id scene) (RawScene.description scene)
                        (match imageUrl with Some u => u | None => "" end)
                        (RawScene.image_prompt scene)))
    (fun _ =>
       ret (Scene.mk (RawScene.id scene) (RawScene.description scene)
                     "" (RawScene.image_prompt scene))).

(** [for (const scene of scenes) { ... generatedScenes.push(...) }] *)
Fixpoint generateSceneImages (scenes : list RawScene.t)
  (params : GenerationParams) : Async (list Scene.t) :=
  match scenes with
  | [] => ret []
  | scene :: rest =>
      generated <- generateSceneImage scene params ;;
      generatedScenes <- generateSceneImages rest params ;;
      ret (generated :: generatedScenes)
  end.

Definition gpt4InputCost : float := (0.03 / 1000)%float.
Definition gpt4OutputCost : float := (0.06 / 1000)%float.
Definition dalleE3Cost : float := 0.040%float.

Definition calculateCosts (textTokens : float) (imageGenerations : nat)
  : Costs :=
  let textCost :=
    ((textTokens / 2) * gpt4InputCost + (textTokens / 2) * gpt4OutputCost)%float in
  let imageCost := (Number_of_nat imageGenerations * dalleE3Cost)%float in
  mkCosts textTokens imageGenerations
          (Number_toFixed4 (textCost + imageCost)%float).

(** What [generateCardContent] returns. *)
Record Generated := mkGenerated {
  title : string;
  content : CardContent;
  costs : Costs
}.

Definition generateCardContent (prompt : string) (cardType : CardType)
  (params : GenerationParams) : Async Generated :=
  try_catch
    ((* Step 1: Generate text content and scene descriptions *)
     textContent <- generateTextContent prompt cardType params ;;
     let textTokens := number_or_zero (snd textContent) in
     (* Step 2: Moderate content for educational appropriateness *)
     descriptions <-
       match TextContent.scenes (fst textContent) with
       | Some raw => ret raw
       | None =>
           throw (Error_new
             "Cannot read properties of undefined (reading 'map')")
       end ;;
     moderateContent (join " " (map RawScene.description descriptions)) ;;;
     (* Step 3: Generate images for each scene *)
     scenes <- generateSceneImages descriptions params ;;
     let imageGenerations := List.length scenes in
     (* Step 4: Calculate costs *)
     let costs := calculateCosts textTokens imageGenerations in
     ret (mkGenerated
            (TextContent.title (fst textContent))
            (mkContent (TextContent.primary_word (fst textContent))
                       scenes
                       (TextContent.category_words (fst textContent))
                       (mkLayout "3:4" "portrait" "colorful"))
            costs))
    (fun error => throw (Error_new (message error))).

(** ** The generation route *)

(** What [checkUserQuota] resolves to. *)
Record QuotaCheck := mkQuotaCheck {
  allowed : bool;
  quota_message : option string
}.

(** The table [quotaLimits]; a tier that is not a key of it has no limit
    ([undefined]). *)
Definition quotaLimits (tier : Tier) : option Z :=
  match tier with
  | free => Some 5
  | educator => Some 50
  | premium => Some 200
  | _ => None
  end.

(** [user?.subscription_tier || 'free'] *)
Definition tier_or_free (user : PgResult User.t) : Tier :=
  match user with
  | PgData u =>
      match User.subscription_tier u with
      | Some t => t
      | None => free
      end
  | PgError _ => free
  end.

(** [count || 0] *)
Definition count_or_zero (count : PgResult Z) : Z :=
  match count with
  | PgData n => n
  | PgError _ => 0
  end.

Definition limit_reached_message (dailyLimit : option Z) : string :=
  "Daily limit of "
    ++ match dailyLimit with
       | Some l => String_of_Z l
       | None => "undefined"
       end
    ++ " cards reached. Upgrade to generate more cards.".

Definition checkUserQuota (userId : Uuid) : Async QuotaCheck :=
  try_catch
    ((* Get user's subscription tier *)
     user <- query SelectUserTier (select_user userId) ;;
     let tier := tier_or_free user in
     let dailyLimit := quotaLimits tier in
     (* Check today's usage *)
     now <- new_Date ;;
     let today := utc_day now in
     count <- statement CountSessionsToday
                (fun w => (count_sessions userId (T00_00_00_000Z today)
                                          (T23_59_59_999Z today) w, w)) ;;
     let todayCount := count_or_zero count in
     if ge_undefined todayCount dailyLimit
     then ret (mkQuotaCheck false (Some (limit_reached_message dailyLimit)))
     else ret (mkQuotaCheck true None))
    (fun _ =>
       (* Fail open to avoid blocking users *)
       ret (mkQuotaCheck true None)).

Definition updateUserUsage (userId : Uuid) (costs : Costs) : Async unit :=
  try_catch
    (now <- new_Date ;;
     let today := utc_day now in
     statement UpsertUsage
       (upsert_usage (Usage.mk userId today today 1 (total_cost_usd costs))) ;;;
     ret tt)
    (fun _ =>
       (* Don't throw - usage tracking shouldn't block generation *)
       ret tt).

(** The background generation function. *)
Definition generateCardAsync (sessionId : Uuid) (data : GenerateCard.t)
  (userId : Uuid) : Async unit :=
  OpenAIService_new ;;;
  try_catch
    ((* Update session to processing *)
     statement UpdateProcessing (update_session sessionId set_processing) ;;;
     (* Generate card content with OpenAI *)
     cardContent <- generateCardContent (GenerateCard.input_prompt data)
                                        (GenerateCard.card_type data)
                                        (GenerateCard.generation_params data) ;;
     (* Create card record *)
     inserted <- statement InsertCard
                   (insert_card userId sessionId (title cardContent)
                                (GenerateCard.card_type data)
                                (content cardContent)
                                (GenerateCard.generation_params data)) ;;
     card <- match inserted with
             | PgError m => throw (Error_new ("Failed to save card: " ++ m))
             | PgData card => ret card
             end ;;
     (* Create card scenes in normalized table *)
     (if 0 <? Z.of_nat (List.length (scenes (content cardContent)))
      then statement InsertScenes
             (insert_scenes (FlashCard.id card) (scenes (content cardContent))) ;;;
           ret tt
      else ret tt) ;;;
     (* Update session as completed *)
     now <- new_Date ;;
     statement UpdateCompleted
       (update_session sessionId (set_completed (costs cardContent) now)) ;;;
     (* Update user usage tracking *)
     updateUserUsage userId (costs cardContent))
    (fun error =>
       (* Update session with error *)
       now <- new_Date ;;
       statement UpdateFailed
         (update_session sessionId (set_failed (message error) now)) ;;;
       throw error).

(** [generateCardAsync(...).then(...).catch(error => { supabase ...
    .update({ status: 'failed', ... }) })]: the promise the route starts
    and does not await.  It always settles; the update of its handler is
    not awaited either, so a throwing store call is lost. *)
Definition detached (sessionId : Uuid) (data : GenerateCard.t) (userId : Uuid)
  : Async unit :=
  try_catch
    (generateCardAsync sessionId data userId)
    (fun error =>
       try_catch
         (now <- new_Date ;;
          statement UpdateFailedDetached
            (update_session sessionId (set_failed (message error) now)) ;;;
          ret tt)
         (fun _ => ret tt)).

(** A promise that is started and not awaited.  No other request is
    interleaved with it here: its effects are in the world when the
    caller goes on, and its outcome is dropped. *)
Definition start {A} (m : Async A) : Async unit :=
  fun w => (Resolved tt, snd (m w)).

Definition generation_type_of (ct : CardType) : GenerationType :=
  match ct with
  | single_word => single_word_card
  | category => category_card
  end.

Definition POST (request : Request) : Async Response :=
  try_catch
    ((* Validate request and authenticate user *)
     validated <- validateRequest request GenerateCardSchema_parse ;;
     let data := fst validated in
     let user := snd validated in
     (* Check user's generation quota *)
     quotaCheck <- checkUserQuota user ;;
     (if negb (allowed quotaCheck)
      then throw (QuotaExceededError_new (quota_message quotaCheck))
      else ret tt) ;;;
     (* Create generation session *)
     inserted <- statement InsertSession
                   (insert_session user (GenerateCard.input_prompt data)
                      (generation_type_of (GenerateCard.card_type data))) ;;
     session <- match inserted with
                | PgError _ =>
                    throw (Error_new "Failed to create generation session")
                | PgData session => ret session
                end ;;
     (* Start async generation process *)
     start (detached (Session.id session) data user) ;;;
     ret (JsonSession session))
    (fun error => ret (handleAPIError error)).

(** ** The status route *)

Definition GET (request : Request) (sessionId : Uuid) : Async Response :=
  try_catch
    (validated <- validateRequest request any_parse ;;
     let user := snd validated in
     (* Get session with associated cards *)
     selected <- query SelectSession (select_session sessionId user) ;;
     match selected with
     | PgError _ => ret (JsonError 404 "NOT_FOUND" "Session not found")
     | PgData session =>
         ret (JsonSessionWithCards (fst session) (snd session))
     end)
    (fun error => ret (handleAPIError error)).

(** ** CardRepository *)

Definition approveCard (cardId userId : Uuid) : Async FlashCard.t :=
  updated <- supabase UpdateCardApproved (update_card_approved cardId userId) ;;
  match updated with
  | PgError m => throw (Error_new ("Failed to approve card: " ++ m))
  | PgData card => ret card
  end.

End Routes.

(* ================================================================== *)
(** * 8. Vocabulary of the properties *)
(* ================================================================== *)

(** ** Sessions *)

(** Completed and Failed are the terminal states of a session. *)
Definition terminal (st : SessionStatus) : bool :=
  match st with
  | completed | failed => true
  | pending | processing => false
  end.

Definition is_set {A} (x : option A) : bool :=
  match x with
  | Some _ => true
  | None => false
  end.

(** [completed_at] is set exactly when the status is terminal. *)
Definition stamped_iff_terminal (s : Session.t) : Prop :=
  is_set (Session.completed_at s) = true <-> terminal (Session.status s) = true.

(** The property for everything the store holds or ever held. *)
Definition sessions_consistent (w : World) : Prop :=
  Forall stamped_iff_terminal (generation_sessions w)
  /\ Forall stamped_iff_terminal (session_writes w).

(** Keys are unique: the counter is above every key in use. *)
Definition keys_fresh (w : World) : Prop :=
  Forall (fun s => Session.id s < next_uuid w) (generation_sessions w).

(** No session with this key has reached a terminal state. *)
Definition session_open (sid : Uuid) (w : World) : Prop :=
  forall s, In s (generation_sessions w) -> Session.id s = sid ->
            terminal (Session.status s) = false.

(** The sessions stored under a key. *)
Definition sessions_with_id (sid : Uuid) (w : World) : list Session.t :=
  filter (fun s => Session.id s =? sid) (generation_sessions w).

(** ** The log of OpenAI requests *)

Definition is_chat_call (c : ApiCall) : bool :=
  match c with ChatCompletion _ => true | _ => false end.

Definition is_image_call (c : ApiCall) : bool :=
  match c with ImageGeneration _ _ => true | _ => false end.

(** How many times text generation, the first step of the pipeline, was
    entered. *)
Definition chat_calls (w : World) : nat :=
  List.length (filter is_chat_call (api_calls w)).

Definition image_calls (w : World) : nat :=
  List.length (filter is_image_call (api_calls w)).

(** The world with another log of requests. *)
Definition with_api_calls (w : World) (log : list ApiCall) : World :=
  mkWorld (users w) (generation_sessions w) (flash_cards w) (card_scenes w)
          (usage_tracking w) (next_uuid w) (clock w) log (session_writes w).

(** The world at another instant. *)
Definition with_clock (w : World) (now : Timestamp) : World :=
  mkWorld (users w) (generation_sessions w) (flash_cards w) (card_scenes w)
          (usage_tracking w) (next_uuid w) now (api_calls w) (session_writes w).

(** ** Scene images *)

Definition image_style (params : GenerationParams) : string :=
  match style_preference params with
  | realistic => "natural"
  | _ => "vivid"
  end.

(** The request [generateSceneImages] issues for a scene. *)
Definition image_call (params : GenerationParams) (scene : RawScene.t)
  : ApiCall :=
  ImageGeneration (enhancedPrompt scene params) (image_style params).

(** The URL a scene ends with when its request is issued after [log]:
    the one OpenAI returns, or [""] when the call throws or returns
    none. *)
Definition image_url_of (env : Env) (log : list ApiCall)
  (params : GenerationParams) (scene : RawScene.t) : string :=
  match images_generate env log (enhancedPrompt scene params)
                        (image_style params) with
  | Returns (Some url) => url
  | _ => ""
  end.

(** The image generation of a scene failed. *)
Definition image_failed (env : Env) (log : list ApiCall)
  (params : GenerationParams) (scene : RawScene.t) : bool :=
  match images_generate env log (enhancedPrompt scene params)
                        (image_style params) with
  | Returns url => falsy_string url
  | Fails _ => true
  end.

(** The scenes of a card, each request being issued after the ones of
    the scenes before it. *)
Fixpoint scene_images (env : Env) (log : list ApiCall)
  (params : GenerationParams) (raw : list RawScene.t) : list Scene.t :=
  match raw with
  | [] => []
  | scene :: rest =>
      Scene.mk (RawScene.id scene) (RawScene.description scene)
               (image_url_of env log params scene)
               (RawScene.image_prompt scene)
        :: scene_images env (log ++ [image_call params scene]) params rest
  end.

(** The scenes that did get an image. *)
Definition images_generated (scenes : list Scene.t) : nat :=
  List.length (filter (fun s => negb (String.eqb (Scene.image_url s) "")) scenes).

(** ** Quota *)

(** The sessions a user created during the UTC day of [now]. *)
Definition created_today (uid : Uuid) (now : Timestamp) (w : World)
  : list Session.t :=
  filter (fun s => ((Session.user_id s =? uid)
                    && (utc_day (Session.created_at s) =? utc_day now))%bool)
         (generation_sessions w).

(** The daily limit the table gives a user's tier. *)
Definition daily_limit_of (uid : Uuid) (w : World) : option Z :=
  quotaLimits (tier_or_free (select_user uid w)).

(** ** Cards *)

(** Two versions of a card that differ at most in the [updated_at] stamp
    of the store's trigger. *)
Definition same_card_but_stamp (c c' : FlashCard.t) : Prop :=
  FlashCard.id c' = FlashCard.id c
  /\ FlashCard.user_id c' = FlashCard.user_id c
  /\ FlashCard.session_id c' = FlashCard.session_id c
  /\ FlashCard.title c' = FlashCard.title c
  /\ FlashCard.card_type c' = FlashCard.card_type c
  /\ FlashCard.content c' = FlashCard.content c
  /\ FlashCard.generation_params c' = FlashCard.generation_params c
  /\ FlashCard.status c' = FlashCard.status c
  /\ FlashCard.created_at c' = FlashCard.created_at c.

(** The card stored under a key for a user. *)
Definition cards_of (cid uid : Uuid) (w : World) : list FlashCard.t :=
  filter (fun c => ((FlashCard.id c =? cid) && (FlashCard.user_id c =? uid))%bool)
         (flash_cards w).

(** ** Program logic of [Async] *)

(** From a world satisfying [P], the computation resolves in a world
    satisfying [Q] or rejects in a world satisfying [E]. *)
Definition triple {A} (P : World -> Prop) (m : Async A)
  (Q : A -> World -> Prop) (E : Exn -> World -> Prop) : Prop :=
  forall w, P w ->
    match m w with
    | (Resolved a, w') => Q a w'
    | (Rejected e, w') => E e w'
    end.

(** [P] holds after the computation, however it settles, when it holds
    before. *)
Definition stable {A} (P : World -> Prop) (m : Async A) : Prop :=
  triple P m (fun _ => P) (fun _ => P).

(** A property that does not change when a request of the selected kind
    is logged. *)
Definition blind_to (sel : ApiCall -> bool) (P : World -> Prop) : Prop :=
  forall w c, sel c = true -> P w -> P (snd (issue c w)).

(** A property that does not look at the log of requests. *)
Definition log_blind (P : World -> Prop) : Prop :=
  forall w c, P w -> P (snd (issue c w)).

Definition is_moderation_call (c : ApiCall) : bool :=
  match c with Moderation _ => true | _ => false end.

(** A property kept by every statement the pipeline sends after it has
    marked session [sid] as processing. *)
Record kept_by_store (sid : Uuid) (Q : World -> Prop) : Prop := {
  kept_insert_card : forall u s t ct c p w,
    Q w -> Q (snd (insert_card u s t ct c p w));
  kept_insert_scenes : forall cid sc w,
    Q w -> Q (snd (insert_scenes cid sc w));
  kept_completed : forall costs t w,
    Q w -> Q (snd (update_session sid (set_completed costs t) w));
  kept_failed : forall msg t w,
    Q w -> Q (snd (update_session sid (set_failed msg t) w));
  kept_upsert_usage : forall row w,
    Q w -> Q (snd (upsert_usage row w))
}.

(** ** Retries *)

(** Every failed session stored under a key has had its failure counted
    in [retry_count]. *)
Definition failure_counted (sid : Uuid) (w : World) : Prop :=
  forall s, In s (sessions_with_id sid w) ->
            Session.status s = failed -> 1 <= Session.retry_count s.

(** The store runs each of these statements. *)
Definition store_runs (env : Env) (ops : list StoreOp) : Prop :=
  forall op, In op ops -> store_fault env op = Healthy.

(** ** Outcomes of text generation and moderation *)

(** Text generation returns the parsed content [parsed], with its scenes
    [raw] and the token count [usage]. *)
Definition text_generated (env : Env) (data : GenerateCard.t)
  (parsed : TextContent.t) (raw : list RawScene.t) (usage : option float)
  : Prop :=
  exists answer,
    chat_completions_create env (GenerateCard.card_type data)
                            (GenerateCard.input_prompt data)
                            (GenerateCard.generation_params data)
    = Returns (mkCompletion (Some answer) usage)
    /\ String.eqb answer "" = false
    /\ JSON_parse env answer = Some parsed
    /\ TextContent.scenes parsed = Some raw.

(** The text moderation is asked about. *)
Definition moderated_text (raw : list RawScene.t) : string :=
  join " " (map RawScene.description raw).

(** Moderation answers and does not flag the text. *)
Definition moderation_passes (env : Env) (text : string) : Prop :=
  match moderations_create env text with
  | Returns None => True
  | Returns (Some result) => flagged result = false
  | Fails _ => False
  end.

(** Moderation flags the text, with these categories. *)
Definition moderation_flagged (env : Env) (text : string)
  (result : ModerationResult) : Prop :=
  moderations_create env text = Returns (Some result)
  /\ flagged result = true.

Definition policy_violation_message (result : ModerationResult) : string :=
  "Content policy violation: "
    ++ join ", " (map fst (filter (fun entry => snd entry) (categories result))).

(** The requests of a run that gets as far as image generation. *)
Definition chat_call (data : GenerateCard.t) : ApiCall :=
  ChatCompletion (userPrompt (GenerateCard.input_prompt data)
                             (GenerateCard.card_type data)).

Definition moderation_call (raw : list RawScene.t) : ApiCall :=
  Moderation (moderated_text raw).

(** ** The run that succeeds *)

(** What content generation returns when text generation returned
    [parsed] and moderation passed, the image requests being issued
    after [log]. *)
Definition generated (env : Env) (data : GenerateCard.t)
  (parsed : TextContent.t) (raw : list RawScene.t) (usage : option float)
  (log : list ApiCall) : Generated :=
  mkGenerated
    (TextContent.title parsed)
    (mkContent (TextContent.primary_word parsed)
               (scene_images env log (GenerateCard.generation_params data) raw)
               (TextContent.category_words parsed)
               (mkLayout "3:4" "portrait" "colorful"))
    (calculateCosts (number_or_zero usage) (List.length raw)).

(** The log when image generation starts. *)
Definition log_before_images (data : GenerateCard.t) (raw : list RawScene.t)
  (w : World) : list ApiCall :=
  api_calls w ++ [chat_call data; moderation_call raw].

(** The world the pipeline reaches before it tracks the usage, when the
    store runs its statements: the session is processing, the requests
    are logged, the card and its scenes are inserted, the session is
    completed. *)
Definition completed_run (env : Env) (sid : Uuid) (data : GenerateCard.t)
  (uid : Uuid) (parsed : TextContent.t) (raw : list RawScene.t)
  (usage : option float) (w : World) : World :=
  let params := GenerateCard.generation_params data in
  let log := log_before_images data raw w in
  let g := generated env data parsed raw usage log in
  let w1 := snd (update_session sid set_processing w) in
  let w2 := with_api_calls w1 (log ++ map (image_call params) raw) in
  let w3 := snd (insert_card uid sid (title g) (GenerateCard.card_type data)
                             (content g) params w2) in
  let w4 := if 0 <? Z.of_nat (List.length raw)
            then snd (insert_scenes (next_uuid w) (scenes (content g)) w3)
            else w3 in
  snd (update_session sid (set_completed (costs g) (clock w)) w4).

(** The card of that run. *)
Definition generated_card (env : Env) (sid : Uuid) (data : GenerateCard.t)
  (uid : Uuid) (parsed : TextContent.t) (raw : list RawScene.t)
  (usage : option float) (w : World) : FlashCard.t :=
  let g := generated env data parsed raw usage (log_before_images data raw w) in
  FlashCard.mk (next_uuid w) uid (Some sid) (title g)
               (GenerateCard.card_type data) (content g)
               (GenerateCard.generation_params data) preview
               (clock w) (clock w).

(** The store after the approval of the cards under a key of a user. *)
Definition approved_store (cid uid : Uuid) (w : World) : World :=
  mkWorld (users w) (generation_sessions w)
          (map (fun c =>
                  if ((FlashCard.id c =? cid) && (FlashCard.user_id c =? uid))%bool
                  then set_approved (clock w) c else c)
               (flash_cards w))
          (card_scenes w) (usage_tracking w) (next_uuid w) (clock w)
          (api_calls w) (session_writes w).

(** ** Two runs side by side *)

(** Two outsides that differ at most in the replies of image
    generation. *)
Definition same_but_images (env env' : Env) : Prop :=
  OPENAI_API_KEY env = OPENAI_API_KEY env'
  /\ (forall op, store_fault env op = store_fault env' op)
  /\ (forall ct prompt params,
        chat_completions_create env ct prompt params
        = chat_completions_create env' ct prompt params)
  /\ (forall answer, JSON_parse env answer = JSON_parse env' answer)
  /\ (forall text, moderations_create env text = moderations_create env' text).

(** Two worlds that agree on everything but the cards and their scenes. *)
Definition same_but_cards (w w' : World) : Prop :=
  users w = users w'
  /\ generation_sessions w = generation_sessions w'
  /\ usage_tracking w = usage_tracking w'
  /\ next_uuid w = next_uuid w'
  /\ clock w = clock w'
  /\ api_calls w = api_calls w'
  /\ session_writes w = session_writes w'.

(** Two scenes that agree on everything but the URL of the image. *)
Definition same_but_url (s s' : Scene.t) : Prop :=
  Scene.id s = Scene.id s'
  /\ Scene.description s = Scene.description s'
  /\ Scene.image_prompt s = Scene.image_prompt s'.

(** Two generated contents that agree on everything but the URLs. *)
Definition same_but_urls (g g' : Generated) : Prop :=
  title g = title g'
  /\ costs g = costs g'
  /\ Forall2 same_but_url (scenes (content g)) (scenes (content g')).

(** Two computations that, from related worlds, settle the same way, in
    related worlds, with related values. *)
Definition related {A} (V : A -> A -> Prop) (m m' : Async A) : Prop :=
  forall w w', same_but_cards w w' ->
    match m w, m' w' with
    | (Resolved a, w1), (Resolved a', w1') => V a a' /\ same_but_cards w1 w1'
    | (Rejected e, w1), (Rejected e', w1') => e = e' /\ same_but_cards w1 w1'
    | _, _ => False
    end.

(* ================================================================== *)
(** * 9. Sample runs *)
(* ================================================================== *)

(** The request of the guide: a single word card for "elephant". *)
Definition elephant_request (user : Uuid) : Request :=
  mkRequest (GenerateJson "elephant" single_word None) (Some user).

Definition elephant_data : GenerateCard.t :=
  GenerateCard.mk "elephant" single_word default_generation_params.

Definition elephant_scene (n : string) : RawScene.t :=
  RawScene.mk ("scene_" ++ n) ("An elephant, view " ++ n) ("elephant " ++ n).

Definition elephant_content : TextContent.t :=
  TextContent.mk "Elephant" "elephant" None
    (Some [elephant_scene "1"; elephant_scene "2";
           elephant_scene "3"; elephant_scene "4"]).

(** OpenAI answers every request; the store runs every statement. *)
Definition all_well : Env :=
  mkEnv (Some "sk-test") (fun _ => Healthy)
        (fun _ _ _ => Returns (mkCompletion (Some "{...}") (Some 1000%float)))
        (fun _ => Some elephant_content)
        (fun _ => Returns (Some (mkModeration false [])))
        (fun _ prompt _ => Returns (Some ("https://images.example/" ++ prompt))).

(** The same, except that the image request of the second scene, the
    fourth request of the run, throws. *)
Definition second_image_fails : Env :=
  mkEnv (Some "sk-test") (fun _ => Healthy)
        (chat_completions_create all_well)
        (JSON_parse all_well)
        (moderations_create all_well)
        (fun log prompt style =>
           if (List.length log =? 3)%nat then Fails "Rate limit exceeded"
           else images_generate all_well log prompt style).

(** The same as [all_well], except that the store refuses the insertion
    of the card. *)
Definition card_insert_refused : Env :=
  mkEnv (Some "sk-test")
        (fun op => match op with
                   | InsertCard => Refuses "null value in column"
                   | _ => Healthy
                   end)
        (chat_completions_create all_well)
        (JSON_parse all_well)
        (moderations_create all_well)
        (images_generate all_well).

(** The same as [all_well], except that moderation flags the text. *)
Definition moderation_flags : Env :=
  mkEnv (Some "sk-test") (fun _ => Healthy)
        (chat_completions_create all_well)
        (JSON_parse all_well)
        (fun _ => Returns (Some (mkModeration true
                     [("hate", true); ("sexual", false); ("violence", true)])))
        (images_generate all_well).

(** The same as [all_well], except that the count of today's sessions
    throws. *)
Definition count_lookup_throws : Env :=
  mkEnv (Some "sk-test")
        (fun op => match op with
                   | CountSessionsToday => Crashes "fetch failed"
                   | _ => Healthy
                   end)
        (chat_completions_create all_well)
        (JSON_parse all_well)
        (moderations_create all_well)
        (images_generate all_well).

(** 2024-01-01T00:00:00.000Z, and the last millisecond of that day. *)
Definition new_year : Timestamp := 19723 * msPerDay.
Definition last_millisecond : Timestamp := new_year + (msPerDay - 1).

(** A session of user [uid] created at [at_], with a given state. *)
Definition session_row (key uid : Uuid) (at_ : Timestamp)
  (st : SessionStatus) (done : option Timestamp) : Session.t :=
  Session.mk key uid "giraffe" single_word_card st None default_ai_costs 0
             at_ done.

(** A store with one free user (7), one educator (8) and one enterprise
    user (9), and no session yet, at noon of new year's day. *)
Definition empty_store : World :=
  mkWorld [User.mk 7 (Some free); User.mk 8 (Some educator);
           User.mk 9 (Some enterprise)]
          [] [] [] [] 100 (new_year + 12 * 3600000) [] [].

(** User 7 has one completed session of the morning. *)
Definition one_session_store : World :=
  mkWorld (users empty_store)
          [session_row 40 7 (new_year + 3600000) completed
                       (Some (new_year + 3660000))]
          [] [] [] 100 (new_year + 12 * 3600000) [] [].

(** [n] sessions of user [uid], keys from [key] on, created one second
    apart from [at_] on. *)
Fixpoint sessions_from (n : nat) (key uid : Uuid) (at_ : Timestamp)
  : list Session.t :=
  match n with
  | O => []
  | S n' =>
      session_row key uid at_ completed (Some (at_ + 500))
        :: sessions_from n' (key + 1) uid (at_ + 1000)
  end.

(** The free user has created five sessions on new year's day: four in
    the morning and one in the last millisecond of the day, which is also
    the instant of the clock. *)
Definition five_sessions_at_midnight : World :=
  mkWorld (users empty_store)
          (sessions_from 4 40 7 (new_year + 3600000)
             ++ [session_row 44 7 last_millisecond completed
                             (Some last_millisecond)])
          [] [] [] 100 last_millisecond [] [].

(** A card of user 7 in a given status. *)
Definition elephant_card (st : CardStatus) : FlashCard.t :=
  FlashCard.mk 60 7 (Some 40) "Elephant" single_word
               (mkContent "elephant" [] None (mkLayout "3:4" "portrait" "colorful"))
               default_generation_params st
               (new_year + 3600000) (new_year + 3600000).

Definition store_with_card (st : CardStatus) : World :=
  mkWorld (users empty_store) (generation_sessions one_session_store)
          [elephant_card st] [] [] 100 (new_year + 12 * 3600000) [] [].

(** The enterprise user has created 250 sessions since midnight. *)
Definition enterprise_busy_day : World :=
  mkWorld (users empty_store) (sessions_from 250 1000 9 new_year)
          [] [] [] 2000 (new_year + 12 * 3600000) [] [].

(** The free user has created five sessions this morning. *)
Definition five_sessions_this_morning : World :=
  mkWorld (users empty_store) (sessions_from 5 40 7 (new_year + 3600000))
          [] [] [] 100 (new_year + 12 * 3600000) [] [].

(** The free user has created four sessions this morning. *)
Definition four_sessions_this_morning : World :=
  mkWorld (users empty_store) (sessions_from 4 40 7 (new_year + 3600000))
          [] [] [] 100 (new_year + 12 * 3600000) [] [].

(** The world in which the pipeline of the first sample session starts:
    the store just after the route has inserted session 100. *)
Definition elephant_pending : World :=
  snd (insert_session 7 "elephant" single_word_card empty_store).

(** The same as [all_well], except that the answer of the model does not
    parse. *)
Definition answer_does_not_parse : Env :=
  mkEnv (Some "sk-test") (fun _ => Healthy)
        (chat_completions_create all_well)
        (fun _ => None)
        (moderations_create all_well)
        (images_generate all_well).

(* ================================================================== *)
(** * 9b. Further vocabulary *)
(* ================================================================== *)

(** The codes an error response of the routes can carry. *)
Definition error_codes : list (Z * string) :=
  [(400, "VALIDATION_ERROR"); (401, "UNAUTHORIZED"); (404, "NOT_FOUND");
   (429, "QUOTA_EXCEEDED"); (500, "INTERNAL_SERVER_ERROR")].

(** What text generation and moderation come to, read off the replies:
    the parsed content with its scenes and token count when text
    generation returns and moderation passes, nothing otherwise. *)
Definition moderated_content (env : Env) (data : GenerateCard.t)
  : option (TextContent.t * list RawScene.t * option float) :=
  match chat_completions_create env (GenerateCard.card_type data)
                                (GenerateCard.input_prompt data)
                                (GenerateCard.generation_params data) with
  | Fails _ => None
  | Returns completion =>
      match message_content completion with
      | None => None
      | Some answer =>
          if String.eqb answer "" then None
          else
            match JSON_parse env answer with
            | None => None
            | Some parsed =>
                match TextContent.scenes parsed with
                | None => None
                | Some raw =>
                    match moderations_create env (moderated_text raw) with
                    | Returns None =>
                        Some (parsed, raw, usage_total_tokens completion)
                    | Returns (Some result) =>
                        if flagged result then None
                        else Some (parsed, raw, usage_total_tokens completion)
                    | Fails _ => None
                    end
                end
            end
      end
  end.

(** ** Failures and the store *)

(** The failure [e] is recorded on every session stored under [sid]:
    the status is failed, the message is that of the exception and the
    completion timestamp is set. *)
Definition failure_recorded (sid : Uuid) (e : Exn) (w : World) : Prop :=
  forall s, In s (sessions_with_id sid w) ->
            Session.status s = failed
            /\ Session.error_message s = Some (message e)
            /\ is_set (Session.completed_at s) = true.

(** The sessions stored under [sid] in [w'] are those of [w], each as it
    was or marked processing. *)
Definition at_most_processing (sid : Uuid) (w w' : World) : Prop :=
  forall s, In s (sessions_with_id sid w') ->
            In s (sessions_with_id sid w)
            \/ exists s0, In s0 (sessions_with_id sid w)
                          /\ s = set_processing s0.

(** The same as [all_well], except that the store refuses the insertion
    of the card and both updates that record a failure. *)
Definition failure_not_stored : Env :=
  mkEnv (Some "sk-test")
        (fun op => match op with
                   | InsertCard => Refuses "null value in column"
                   | UpdateFailed | UpdateFailedDetached =>
                       Refuses "connection lost"
                   | _ => Healthy
                   end)
        (chat_completions_create all_well)
        (JSON_parse all_well)
        (moderations_create all_well)
        (images_generate all_well).

(** A string written a number of times. *)
Fixpoint repeated (n : nat) (s : string) : string :=
  match n with
  | O => ""
  | S n' => s ++ repeated n' s
  end.

(** The character U+8C61, elephant, three bytes in UTF-8 and one UTF-16
    code unit; and the character U+1F418, four bytes in UTF-8 and a
    surrogate pair in UTF-16. *)
Definition han_elephant : string :=
  String (ascii_of_nat 232) (String (ascii_of_nat 177)
    (String (ascii_of_nat 161) EmptyString)).

Definition emoji_elephant : string :=
  String (ascii_of_nat 240) (String (ascii_of_nat 159)
    (String (ascii_of_nat 144) (String (ascii_of_nat 152) EmptyString))).

(** The tier of a user cannot be read: the lookup is answered with an
    error, or it finds no single row, or the row has no tier. *)
Definition tier_unreadable (env : Env) (uid : Uuid) (w : World) : Prop :=
  (exists m, store_fault env SelectUserTier = Refuses m)
  \/ (store_fault env SelectUserTier = Healthy
      /\ forall u, select_user uid w = PgData u ->
                   User.subscription_tier u = None).

(** The sessions the quota query counts for a user at the instant of
    the clock. *)
Definition counted_today (uid : Uuid) (w : World) : Z :=
  count_sessions uid (T00_00_00_000Z (utc_day (clock w)))
                 (T23_59_59_999Z (utc_day (clock w))) w.

(** The usage row of a user for a day. *)
Definition usage_of (uid : Uuid) (day : Z) (r : Usage.t) : bool :=
  ((Usage.user_id r =? uid) && (Usage.period_start r =? day))%bool.

(** User 77 has no row in [users] and has created five sessions this
    morning. *)
Definition five_sessions_of_a_stranger : World :=
  mkWorld (users empty_store) (sessions_from 5 40 77 (new_year + 3600000))
          [] [] [] 100 (new_year + 12 * 3600000) [] [].

(** The usage table holds a row of user 7 for new year's day, with four
    cards counted, one for the day before, and a row of user 8. *)
Definition store_with_usage : World :=
  mkWorld (users empty_store) [] [] []
          [Usage.mk 7 19722 19722 2 0.41%float;
           Usage.mk 7 19723 19723 4 0.82%float;
           Usage.mk 8 19723 19723 1 0.205%float]
          100 (new_year + 12 * 3600000) [] [].

(** No stored row refers to a key the store has not given out yet: the
    sessions, the sessions the cards name, and the cards the scenes
    name all have keys below the counter. *)
Definition keys_unused (w : World) : Prop :=
  Forall (fun s => Session.id s < next_uuid w) (generation_sessions w)
  /\ Forall (fun c => forall k, FlashCard.session_id c = Some k ->
                                k < next_uuid w)
            (flash_cards w)
  /\ Forall (fun sc => CardScene.card_id sc <= next_uuid w) (card_scenes w).

(** The store after the route has inserted the session of a request. *)
Definition pending_store (uid : Uuid) (data : GenerateCard.t) (w : World)
  : World :=
  snd (insert_session uid (GenerateCard.input_prompt data)
         (generation_type_of (GenerateCard.card_type data)) w).

(** The four scenes of the sample answer. *)
Definition elephant_scenes : list RawScene.t :=
  [elephant_scene "1"; elephant_scene "2";
   elephant_scene "3"; elephant_scene "4"].

(** ** The life of a session *)

(** The steps the status of a session can take from one written version
    to the next. *)
Definition status_step (from to : SessionStatus) : bool :=
  match from, to with
  | pending, processing
  | pending, completed
  | pending, failed
  | processing, completed
  | processing, failed
  | failed, failed => true
  | _, _ => false
  end.

(** A sequence of statuses, oldest first, that takes only such steps
    from a given status. *)
Fixpoint status_path (from : SessionStatus) (l : list SessionStatus) : bool :=
  match l with
  | [] => true
  | st :: rest => status_step from st && status_path st rest
  end.

Definition is_pending (st : SessionStatus) : bool :=
  match st with pending => true | _ => false end.

Definition not_completed (st : SessionStatus) : bool :=
  match st with completed => false | _ => true end.

Definition open_status (st : SessionStatus) : bool := negb (terminal st).

Definition any_status (st : SessionStatus) : bool := true.

(** Since the journal was [J], session [sid], then pending, has been
    written along a path of steps, its row holds the latest version, and
    its status is one of [allowed]. *)
Definition journal_since (J : list Session.t) (sid : Uuid)
  (allowed : SessionStatus -> bool) (w : World) : Prop :=
  exists new cur,
    session_writes w = (new ++ J)%list
    /\ sessions_with_id sid w = [cur]
    /\ allowed (Session.status cur) = true
    /\ Forall (fun s => Session.id s = sid) new
    /\ status_path pending (map Session.status (rev new)) = true
    /\ last (map Session.status (rev new)) pending = Session.status cur.

(** The same as [all_well], except that the store answers the insertion
    of the scene rows with an error. *)
Definition scene_insert_refused : Env :=
  mkEnv (Some "sk-test")
        (fun op => match op with
                   | InsertScenes => Refuses "permission denied for table card_scenes"
                   | _ => Healthy
                   end)
        (chat_completions_create all_well)
        (JSON_parse all_well)
        (moderations_create all_well)
        (images_generate all_well).

(** The same, except that the insertion of the scene rows throws. *)
Definition scene_insert_throws : Env :=
  mkEnv (Some "sk-test")
        (fun op => match op with
                   | InsertScenes => Crashes "fetch failed"
                   | _ => Healthy
                   end)
        (chat_completions_create all_well)
        (JSON_parse all_well)
        (moderations_create all_well)
        (images_generate all_well).

(** The same as [all_well], except that the API key is not set. *)
Definition no_api_key : Env :=
  mkEnv None (fun _ => Healthy)
        (chat_completions_create all_well)
        (JSON_parse all_well)
        (moderations_create all_well)
        (images_generate all_well).

(** The world the pipeline reaches when it has inserted the card but not
    its scene rows: the session is processing, the requests are logged,
    the card is inserted. *)
Definition card_without_scene_rows (env : Env) (sid : Uuid)
  (data : GenerateCard.t) (uid : Uuid) (parsed : TextContent.t)
  (raw : list RawScene.t) (usage : option float) (w : World) : World :=
  let params := GenerateCard.generation_params data in
  let log := log_before_images data raw w in
  let g := generated env data parsed raw usage log in
  let w1 := snd (update_session sid set_processing w) in
  let w2 := with_api_calls w1 (log ++ map (image_call params) raw) in
  snd (insert_card uid sid (title g) (GenerateCard.card_type data)
                   (content g) params w2).

(** What a generation request appends to the tables of the store and to
    the log, every row and entry that was there being left as it was;
    the sessions it appends have the key [sid]. *)
Definition appended_to (w : World) (sid : Uuid) (w' : World) : Prop :=
  exists sessions cards rows calls,
    generation_sessions w' = (generation_sessions w ++ sessions)%list
    /\ Forall (fun s => Session.id s = sid) sessions
    /\ flash_cards w' = (flash_cards w ++ cards)%list
    /\ card_scenes w' = (card_scenes w ++ rows)%list
    /\ api_calls w' = (api_calls w ++ calls)%list
    /\ users w' = users w
    /\ clock w' = clock w.

(** The message of the constructor of the service. *)
Definition api_key_required : string :=
  "OPENAI_API_KEY environment variable is required".

(* ================================================================== *)
(** * 9c. Retrying with backoff *)
(* ================================================================== *)

(** An error thrown by the function that is retried, with its [status]
    property when it has one. *)
Record Thrown := mkThrown {
  error_status : option Z;
  error_text : string
}.

(** What a call of [fn] comes to. *)
Inductive Attempt (A : Type) :=
| Fulfilled (value : A)
| Threw (error : Thrown).
Arguments Fulfilled {A} value.
Arguments Threw {A} error.

(** What [retryWithBackoff] does, in order: the calls of [fn], numbered
    from 0, and the delays it waits, in milliseconds. *)
Inductive Event :=
| Called (i : nat)
| Waited (ms : Z).

(** How [retryWithBackoff] settles: it returns the value of a call, it
    falls out of the loop and returns [undefined], or it rethrows. *)
Inductive Settled (A : Type) :=
| Returned (value : A)
| ReturnedUndefined
| Rethrown (error : Thrown).
Arguments Returned {A} value.
Arguments ReturnedUndefined {A}.
Arguments Rethrown {A} error.

(** [error.status === 429] *)
Definition status_is (status : option Z) (code : Z) : bool :=
  match status with
  | Some s => s =? code
  | None => false
  end.

(** The loop [for (let i = 0; i < maxRetries; i++)] from turn [i] on,
    [fn i] being what the call of turn [i] comes to.  [turns] bounds the
    turns that are left. *)
Fixpoint retry_from {A} (fn : nat -> Attempt A) (maxRetries : Z)
  (turns : nat) (i : nat) : list Event * Settled A :=
  match turns with
  | O => ([], ReturnedUndefined)
  | S turns' =>
      if Z.of_nat i <? maxRetries then
        match fn i with
        | Fulfilled value => ([Called i], Returned value)
        | Threw error =>
            if (status_is (error_status error) 429
                && (Z.of_nat i <? maxRetries - 1))%bool
            then
              let (events, settled) := retry_from fn maxRetries turns' (S i) in
              (Called i :: Waited (2 ^ Z.of_nat i * 1000) :: events, settled)
            else ([Called i], Rethrown error)
        end
      else ([], ReturnedUndefined)
  end.

(** The loop takes at most [maxRetries] turns, and one more look at its
    condition. *)
Definition retryWithBackoff {A} (fn : nat -> Attempt A) (maxRetries : Z)
  : list Event * Settled A :=
  retry_from fn maxRetries (S (Z.to_nat maxRetries)) 0.

(** How the loop settles with the call of a turn it does not retry. *)
Definition settle {A} (attempt : Attempt A) : Settled A :=
  match attempt with
  | Fulfilled value => Returned value
  | Threw error => Rethrown error
  end.

(** The events of the turns from [i] up to turn [k], which is not
    retried: each turn before [k] calls and waits, turn [k] calls. *)
Definition backoff_events (i k : nat) : list Event :=
  (flat_map (fun j => [Called j; Waited (2 ^ Z.of_nat j * 1000)])
            (seq i (k - i))
   ++ [Called k])%list.

Definition calls_made (events : list Event) : nat :=
  List.length (filter (fun e => match e with Called _ => true | _ => false end)
                      events).

Fixpoint total_wait (events : list Event) : Z :=
  match events with
  | [] => 0
  | Waited ms :: rest => ms + total_wait rest
  | Called _ :: rest => total_wait rest
  end.

(** The turn is retried: its call throws an error of status 429. *)
Definition rate_limited {A} (attempt : Attempt A) : Prop :=
  exists error, attempt = Threw error /\ error_status error = Some 429.

(** A function that is rate limited twice and then answers. *)
Definition third_time_lucky : nat -> Attempt string :=
  fun i => if (i <? 2)%nat then Threw (mkThrown (Some 429) "Rate limit exceeded")
           else Fulfilled "done".

(** A function that is always rate limited. *)
Definition always_rate_limited : nat -> Attempt string :=
  fun _ => Threw (mkThrown (Some 429) "Rate limit exceeded").

(* ================================================================== *)
(** * 9d. The card repository *)
(* ================================================================== *)

(** The statements of [CardRepository], one name per call site. *)
Inductive RepoOp :=
| RepoInsertCard     (* createFlashCard *)
| RepoInsertScenes   (* createCardScenes *)
| RepoSelectCards.   (* getUserCards *)

(** A statement of the repository, answered as the fault of its call
    site says. *)
Definition answered {A} (fault : Fault) (run : World -> PgResult A * World)
  : Async (PgResult A) :=
  fun w =>
    match fault with
    | Healthy => let (r, w') := run w in (Resolved r, w')
    | Refuses m => (Resolved (PgError m), w)
    | Crashes m => (Rejected (Error_new m), w)
    end.

(** The [cardData] of [createFlashCard], a [Partial<FlashCard>]: the
    columns that are not null and have no default, the generation
    parameters, and what may be left out, the session, the status, which
    then takes its default, and the content, which the function reads
    with [?.]. *)
Module CardData.
Record t := mk {
  user_id : Uuid;
  session_id : option Uuid;
  title : string;
  card_type : CardType;
  content : option CardContent;
  generation_params : GenerationParams;
  status : option CardStatus
}.
End CardData.

Definition content_is_null : string :=
  "null value in column " ++ dquote ++ "content" ++ dquote
    ++ " of relation " ++ dquote ++ "flash_cards" ++ dquote
    ++ " violates not-null constraint".

(** [from('flash_cards').insert(cardData).select().single()]: [content]
    is not null and has no default; [status] defaults to generating; the
    key and the two instants are given by the store. *)
Definition insert_card_data (d : CardData.t) (w : World)
  : PgResult FlashCard.t * World :=
  match CardData.content d with
  | None => (PgError content_is_null, w)
  | Some c =>
      let row := FlashCard.mk (next_uuid w) (CardData.user_id d)
                   (CardData.session_id d) (CardData.title d)
                   (CardData.card_type d) c (CardData.generation_params d)
                   (match CardData.status d with
                    | Some st => st
                    | None => generating
                    end)
                   (clock w) (clock w) in
      (PgData row,
       mkWorld (users w) (generation_sessions w) (flash_cards w ++ [row])
               (card_scenes w) (usage_tracking w) (next_uuid w + 1) (clock w)
               (api_calls w) (session_writes w))
  end.

Section Repository.

Variable faults : RepoOp -> Fault.

Definition createCardScenes (cardId : Uuid) (scenes : list Scene.t)
  : Async unit :=
  inserted <- answered (faults RepoInsertScenes)
                (fun w => let (u, w') := insert_scenes cardId scenes w in
                          (PgData u, w')) ;;
  match inserted with
  | PgError m => throw (Error_new ("Failed to create scenes: " ++ m))
  | PgData _ => ret tt
  end.

Definition createFlashCard (cardData : CardData.t) : Async FlashCard.t :=
  inserted <- answered (faults RepoInsertCard) (insert_card_data cardData) ;;
  match inserted with
  | PgError m => throw (Error_new ("Failed to create card: " ++ m))
  | PgData card =>
      (* Create associated scenes: [cardData.content?.scenes] is an
         array, which is truthy also when it is empty *)
      (match CardData.content cardData with
       | Some c => createCardScenes (FlashCard.id card) (scenes c)
       | None => ret tt
       end) ;;;
      ret card
  end.

End Repository.

(** The columns of a scene that [getUserCards] selects. *)
Module SceneSummary.
Record t := mk {
  id : Uuid;
  scene_order : Z;
  description : string;
  image_url : string
}.
End SceneSummary.

Definition scene_summary (sc : CardScene.t) : SceneSummary.t :=
  SceneSummary.mk (CardScene.id sc) (CardScene.scene_order sc)
                  (CardScene.description sc) (CardScene.image_url sc).

(** A card with its embedded [card_scenes]. *)
Definition CardWithSummaries := (FlashCard.t * list SceneSummary.t)%type.

Definition embed_summaries (w : World) (c : FlashCard.t) : CardWithSummaries :=
  (c, map scene_summary
          (filter (fun sc => CardScene.card_id sc =? FlashCard.id c)
                  (card_scenes w))).

Definition CardType_eqb (a b : CardType) : bool :=
  match a, b with
  | single_word, single_word | category, category => true
  | _, _ => false
  end.

(** [.order('created_at', { ascending: false })], by insertion.  The
    query names no second key: of cards created at the same instant the
    one inserted later in the table comes first here; the store is free
    to order them otherwise. *)
Fixpoint insert_newest_first (c : FlashCard.t) (l : list FlashCard.t)
  : list FlashCard.t :=
  match l with
  | [] => [c]
  | x :: rest =>
      if FlashCard.created_at x <? FlashCard.created_at c
      then c :: l
      else x :: insert_newest_first c rest
  end.

Definition newest_first (l : list FlashCard.t) : list FlashCard.t :=
  fold_right insert_newest_first [] l.

(** The cards [getUserCards] selects before it cuts the page:
    [.eq('user_id', userId)], the order, and [.eq('card_type', ...)]
    when the option is given. *)
Definition user_cards (userId : Uuid) (card_type : option CardType) (w : World)
  : list FlashCard.t :=
  let by_user :=
    newest_first (filter (fun c => FlashCard.user_id c =? userId)
                         (flash_cards w)) in
  match card_type with
  | Some t => filter (fun c => CardType_eqb (FlashCard.card_type c) t) by_user
  | None => by_user
  end.

(** [.range(from, to)]: the rows at the positions [from] to [to],
    counted from 0. *)
Definition range {A} (from to : Z) (rows : list A) : list A :=
  firstn (Z.to_nat (to - from + 1)) (skipn (Z.to_nat from) rows).

(** What the query is answered with: the rows, and [count], which is
    null since the select asks for none. *)
Definition select_user_cards (userId : Uuid) (card_type : option CardType)
  (from to : Z) (w : World) : list CardWithSummaries * option Z :=
  (map (embed_summaries w) (range from to (user_cards userId card_type w)),
   None).

(** What [getUserCards] returns; [total_pages] is [None] when the
    division gives NaN. *)
Module CardPage.
Record t := mk {
  cards : list CardWithSummaries;
  page : Z;
  limit : Z;
  total : Z;
  total_pages : option Z
}.
End CardPage.

(** [Math.ceil(total / limit)] for integers; [None] when the division
    gives no finite number, that is when [limit] is 0. *)
Definition ceil_div (total limit : Z) : option Z :=
  if limit =? 0 then None else Some (- ((- total) / limit)).

Definition getUserCards (faults : RepoOp -> Fault) (userId : Uuid)
  (page limit : Z) (card_type : option CardType) : Async CardPage.t :=
  selected <- answered (faults RepoSelectCards)
                (fun w => (PgData (select_user_cards userId card_type
                                     ((page - 1) * limit) (page * limit - 1) w),
                           w)) ;;
  match selected with
  | PgError m => throw (Error_new ("Failed to fetch cards: " ++ m))
  | PgData (cards, count) =>
      let total := match count with Some n => n | None => 0 end in
      ret (CardPage.mk cards page limit total (ceil_div total limit))
  end.

(** A card newer than another, or as new. *)
Definition not_older (a b : FlashCard.t) : Prop :=
  FlashCard.created_at b <= FlashCard.created_at a.

(** The card a user asks for: theirs, and of the type asked for, if
    any. *)
Definition asked_for (userId : Uuid) (card_type : option CardType)
  (c : FlashCard.t) : bool :=
  ((FlashCard.user_id c =? userId)
   && match card_type with
      | Some t => CardType_eqb (FlashCard.card_type c) t
      | None => true
      end)%bool.

(** The cards of a page, when the call resolves. *)
Definition page_of (faults : RepoOp -> Fault) (userId : Uuid) (limit : Z)
  (card_type : option CardType) (w : World) (page : nat) : list FlashCard.t :=
  match fst (getUserCards faults userId (Z.of_nat page) limit card_type w) with
  | Resolved result => map fst (CardPage.cards result)
  | Rejected _ => []
  end.

(** The repository when the store runs every statement. *)
Definition repo_well : RepoOp -> Fault := fun _ => Healthy.

(** The repository when the store refuses the scene rows. *)
Definition repo_scenes_refused : RepoOp -> Fault :=
  fun op => match op with
            | RepoInsertScenes => Refuses "permission denied for table card_scenes"
            | _ => Healthy
            end.

(** A card to create for user 7, with two scenes. *)
Definition elephant_draft : CardData.t :=
  CardData.mk 7 None "Elephant" single_word
    (Some (mkContent "elephant"
             [Scene.mk "scene_1" "An elephant" "https://images.example/1" "elephant";
              Scene.mk "scene_2" "A herd" "" "herd of elephants"]
             None (mkLayout "3:4" "portrait" "colorful")))
    default_generation_params (Some preview).

(** A card of a user, of a type, created at an instant. *)
Definition card_row (key uid : Uuid) (ct : CardType) (at_ : Timestamp)
  : FlashCard.t :=
  FlashCard.mk key uid None "Card" ct
               (mkContent "word" [] None (mkLayout "3:4" "portrait" "colorful"))
               default_generation_params preview at_ at_.

(** Five cards of user 7 and one of user 8, in the order they were
    inserted. *)
Definition library : World :=
  mkWorld (users empty_store) []
          [card_row 61 7 single_word 1000; card_row 62 7 category 2000;
           card_row 63 8 single_word 2500; card_row 64 7 single_word 3000;
           card_row 65 7 category 4000; card_row 66 7 single_word 5000]
          [] [] 100 (new_year + 12 * 3600000) [] [].

(** The message of the error text generation or moderation ends with,
    read off the replies; [None] when both go through. *)
Definition generation_error (env : Env) (data : GenerateCard.t)
  : option string :=
  match chat_completions_create env (GenerateCard.card_type data)
                                (GenerateCard.input_prompt data)
                                (GenerateCard.generation_params data) with
  | Fails m => Some m
  | Returns completion =>
      match message_content completion with
      | None => Some "No content generated"
      | Some answer =>
          if String.eqb answer "" then Some "No content generated"
          else
            match JSON_parse env answer with
            | None => Some "Failed to parse AI response"
            | Some parsed =>
                match TextContent.scenes parsed with
                | None =>
                    Some "Cannot read properties of undefined (reading 'map')"
                | Some raw =>
                    match moderations_create env (moderated_text raw) with
                    | Fails m => Some m
                    | Returns None => None
                    | Returns (Some result) =>
                        if flagged result
                        then Some (policy_violation_message result)
                        else None
                    end
                end
            end
      end
  end.

(* ================================================================== *)
(** * 9e. The card store of the client *)
(* ================================================================== *)

(** The store of src/stores/cardStore.ts, which holds the card under
    preview and the flags of the preview workflow.  An action runs from
    its start to its end here: what other actions would do while it
    waits is not part of it. *)
Module Client.

Record ICardLayout := mkLayout {
  grid_columns : Z;
  grid_rows : Z;
  scene_positions : list (string * (Z * Z))
}.

Record ICardContent := mkContent {
  primary_word : string;
  scenes : list Scene.t;
  category_words : option (list string);
  layout : ICardLayout
}.

Inductive Complexity := simple | medium | complex.

Record IGenerationParams := mkParams {
  style : option string;
  complexity : option Complexity;
  image_style : option string
}.

(** [IFlashCard] of types/cards. *)
Module Card.
Record t := mk {
  id : string;
  user_id : string;
  title : string;
  card_type : CardType;
  content : ICardContent;
  generation_params : IGenerationParams;
  status : CardStatus;
  created_at : Timestamp;
  updated_at : Timestamp
}.
End Card.

Inductive Theme := light | dark.

Record IUserPreferences := mkPreferences {
  skip_preview : bool;
  default_card_type : CardType;
  theme : Theme
}.

(** The state part of [CardState]. *)
Record CardState := mkState {
  previewCard : option Card.t;
  isPreviewOpen : bool;
  isGenerating : bool;
  isDownloading : bool;
  isRegenerating : bool
}.

(** The initial state of the store. *)
Definition initial : CardState := mkState None false false false false.

(** What an action acts on: the state of the store, the clock, and the
    states [set] has produced, latest first, which are the states the
    components were rendered with. *)
Record Ui := mkUi {
  store : CardState;
  now : Timestamp;
  rendered : list CardState
}.

(** The outside of the store: what [preferencesApi.getPreferences]
    answers at an instant, and the instant at which a timer of a number
    of milliseconds, set at an instant, fires. *)
Record Outside := mkOutside {
  getPreferences : Timestamp -> ApiReply IUserPreferences;
  fires : Z -> Timestamp -> Timestamp
}.

Definition Action (A : Type) := Ui -> Outcome A * Ui.

Definition ret {A} (a : A) : Action A := fun u => (Resolved a, u).

Definition throw {A} (e : Exn) : Action A := fun u => (Rejected e, u).

Definition bind {A B} (m : Action A) (k : A -> Action B) : Action B :=
  fun u =>
    match m u with
    | (Resolved a, u') => k a u'
    | (Rejected e, u') => (Rejected e, u')
    end.

(** [try { m } catch (error) { h error }] *)
Definition try_catch {A} (m : Action A) (h : Exn -> Action A) : Action A :=
  fun u =>
    match m u with
    | (Resolved a, u') => (Resolved a, u')
    | (Rejected e, u') => h e u'
    end.

(** [try { m } finally { f }] *)
Definition finally {A} (m : Action A) (f : Action unit) : Action A :=
  fun u =>
    match m u with
    | (settled, u') =>
        match f u' with
        | (Resolved _, u'') => (settled, u'')
        | (Rejected e, u'') => (Rejected e, u'')
        end
    end.

Declare Scope client_scope.
Delimit Scope client_scope with client.
Notation "x <- m ;; k" := (bind m (fun x => k))
  (at level 61, m at next level, right associativity) : client_scope.
Notation "m ;;; k" := (bind m (fun _ => k))
  (at level 61, right associativity) : client_scope.
Local Open Scope client_scope.

(** [get()] *)
Definition get : Action CardState := fun u => (Resolved (store u), u).

(** [set(partial)] *)
Definition set_ (partial : CardState -> CardState) : Action unit :=
  fun u =>
    (Resolved tt,
     mkUi (partial (store u)) (now u) (partial (store u) :: rendered u)).

(** [new Date()] and [Date.now()] *)
Definition new_Date : Action Timestamp := fun u => (Resolved (now u), u).

Definition with_previewCard (card : option Card.t) (s : CardState)
  : CardState :=
  mkState card (isPreviewOpen s) (isGenerating s) (isDownloading s)
          (isRegenerating s).

Definition with_isDownloading (b : bool) (s : CardState) : CardState :=
  mkState (previewCard s) (isPreviewOpen s) (isGenerating s) b
          (isRegenerating s).

Definition with_isRegenerating (b : bool) (s : CardState) : CardState :=
  mkState (previewCard s) (isPreviewOpen s) (isGenerating s)
          (isDownloading s) b.

(** [{ ...card, status, updated_at }] *)
Definition with_status (st : CardStatus) (at_ : Timestamp) (card : Card.t)
  : Card.t :=
  Card.mk (Card.id card) (Card.user_id card) (Card.title card)
          (Card.card_type card) (Card.content card)
          (Card.generation_params card) st (Card.created_at card) at_.

Section Store.

Variable outside : Outside.

(** [await new Promise(resolve => setTimeout(resolve, ms))] *)
Definition sleep (ms : Z) : Action unit :=
  fun u => (Resolved tt, mkUi (store u) (fires outside ms (now u)) (rendered u)).

(** [await preferencesApi.getPreferences()] *)
Definition preferencesApi_getPreferences : Action IUserPreferences :=
  fun u =>
    match getPreferences outside (now u) with
    | Returns preferences => (Resolved preferences, u)
    | Fails m => (Rejected (Error_new m), u)
    end.

Definition openPreview (card : Card.t) : Action unit :=
  set_ (fun s => mkState (Some card) true (isGenerating s) (isDownloading s)
                         (isRegenerating s)).

Definition closePreview : Action unit :=
  set_ (fun s => mkState None false (isGenerating s) (isDownloading s)
                         (isRegenerating s)).

Definition setGenerating (generating : bool) : Action unit :=
  set_ (fun s => mkState (previewCard s) (isPreviewOpen s) generating
                         (isDownloading s) (isRegenerating s)).

Definition updateCard (card : Card.t) : Action unit :=
  s <- get ;;
  match previewCard s with
  | Some current =>
      if String.eqb (Card.id current) (Card.id card)
      then set_ (with_previewCard (Some card))
      else ret tt
  | None => ret tt
  end.

Definition approveCard (cardId : string) : Action unit :=
  s <- get ;;
  match previewCard s with
  | None => ret tt
  | Some previewCard =>
      if negb (String.eqb (Card.id previewCard) cardId) then ret tt
      else
        finally
          (try_catch
             (set_ (with_isDownloading true) ;;;
              (* Update card status to approved *)
              at_ <- new_Date ;;
              let updatedCard := with_status approved at_ previewCard in
              set_ (with_previewCard (Some updatedCard)) ;;;
              (* For now, just simulate the download *)
              sleep 1000 ;;;
              (* Mark as downloaded *)
              at_ <- new_Date ;;
              let downloadedCard := with_status downloaded at_ updatedCard in
              set_ (with_previewCard (Some downloadedCard)))
             (fun error => throw error))
          (set_ (with_isDownloading false))
  end.

Definition handleGenerationComplete (card : Card.t) : Action unit :=
  try_catch
    ((* Check user preferences to determine workflow *)
     preferences <- preferencesApi_getPreferences ;;
     if skip_preview preferences
     then (* Auto-approve and download without showing preview *)
          approveCard (Card.id card)
     else (* Show preview modal *)
          openPreview card)
    (fun _ =>
       (* Fallback to showing preview on error *)
       openPreview card).

Definition regenerateCard (cardId : string) : Action unit :=
  s <- get ;;
  match previewCard s with
  | None => ret tt
  | Some previewCard =>
      if negb (String.eqb (Card.id previewCard) cardId) then ret tt
      else
        finally
          (try_catch
             (set_ (with_isRegenerating true) ;;;
              closePreview ;;;
              (* Simulate regeneration *)
              sleep 2000 ;;;
              (* Create new card with same generation params *)
              key <- new_Date ;;
              created <- new_Date ;;
              updated <- new_Date ;;
              let newCard :=
                Card.mk (String_of_Z key) (Card.user_id previewCard)
                        (Card.title previewCard) (Card.card_type previewCard)
                        (Card.content previewCard)
                        (Card.generation_params previewCard)
                        preview created updated in
              (* Handle the new card based on preferences *)
              handleGenerationComplete newCard)
             (fun error => throw error))
          (set_ (with_isRegenerating false))
  end.

End Store.

(** The preview shows a given card. *)
Definition previews (cardId : string) (s : CardState) : Prop :=
  exists card, previewCard s = Some card /\ Card.id card = cardId.

(** The preferences are read, and say to skip the preview. *)
Definition skips_preview (outside : Outside) (at_ : Timestamp) : Prop :=
  exists preferences,
    getPreferences outside at_ = Returns preferences
    /\ skip_preview preferences = true.

(** The preferences say to show the preview, or cannot be read. *)
Definition shows_preview (outside : Outside) (at_ : Timestamp) : Prop :=
  match getPreferences outside at_ with
  | Returns preferences => skip_preview preferences = false
  | Fails _ => True
  end.

(** Two cards that differ at most in their status and the instant of
    their update. *)
Definition same_but_status (a b : Card.t) : Prop :=
  Card.id a = Card.id b
  /\ Card.user_id a = Card.user_id b
  /\ Card.title a = Card.title b
  /\ Card.card_type a = Card.card_type b
  /\ Card.content a = Card.content b
  /\ Card.generation_params a = Card.generation_params b
  /\ Card.created_at a = Card.created_at b.

(** A card under preview, and the store that shows it. *)
Definition lion : Card.t :=
  Card.mk "card-1" "user-1" "Lion" single_word
          (mkContent "lion" [] None (mkLayout 2 2 []))
          (mkParams (Some "cartoon") (Some simple) None)
          preview 1000 1000.

Definition showing_lion : Ui :=
  mkUi (mkState (Some lion) true false false false) 5000 [].

(** Timers fire on time; the preferences say to skip the preview, or to
    show it. *)
Definition skipping : Outside :=
  mkOutside (fun _ => Returns (mkPreferences true single_word light))
            (fun ms at_ => at_ + ms).

Definition showing : Outside :=
  mkOutside (fun _ => Returns (mkPreferences false single_word light))
            (fun ms at_ => at_ + ms).

End Client.

(** The requests a generation sends to OpenAI, in order: none; or the
    chat request; or the chat request and the moderation request on the
    scenes of the answer; or these two and the image requests of the
    scenes, one per scene, in the order of the scenes. *)
Definition openai_requests (data : GenerateCard.t) (calls : list ApiCall)
  : Prop :=
  calls = []
  \/ calls = [chat_call data]
  \/ exists raw,
       calls = [chat_call data; moderation_call raw]
       \/ calls = ([chat_call data; moderation_call raw]
                   ++ map (image_call (GenerateCard.generation_params data))
                          raw)%list.

(** ** The session and its card *)

(** The pipeline of session [sid] has not stored a card, and the session
    is not completed. *)
Definition no_card_yet (cards : list FlashCard.t) (sid : Uuid) (w : World)
  : Prop :=
  flash_cards w = cards
  /\ Forall (fun s => Session.status s <> completed) (sessions_with_id sid w).

(** The pipeline of session [sid] has stored its card, after the cards
    that were there: a card of the user, of that session, to preview. *)
Definition card_stored (cards : list FlashCard.t) (sid uid : Uuid) (w : World)
  : Prop :=
  exists card,
    flash_cards w = (cards ++ [card])%list
    /\ FlashCard.session_id card = Some sid
    /\ FlashCard.user_id card = uid
    /\ FlashCard.status card = preview.

(* ================================================================== *)
(** * 10. Rules of the program logic *)
(* ================================================================== *)

Section Rules.

Context {A B : Type}.
Implicit Types P : World -> Prop.

Lemma triple_ret P (a : A) Q E :
  (forall w, P w -> Q a w) -> triple P (ret a) Q E.
Proof. intros H w Hw. exact (H w Hw). Qed.

Lemma triple_throw P (e : Exn) (Q : A -> World -> Prop) E :
  (forall w, P w -> E e w) -> triple P (throw e) Q E.
Proof. intros H w Hw. exact (H w Hw). Qed.

Lemma triple_bind P (m : Async A) (k : A -> Async B) R Q E :
  triple P m R E ->
  (forall a, triple (R a) (k a) Q E) ->
  triple P (bind m k) Q E.
Proof.
  intros Hm Hk w Hw. unfold bind.
  specialize (Hm w Hw).
  destruct (m w) as [[a | e] w']; [exact (Hk a w' Hm) | exact Hm].
Qed.

Lemma triple_try_catch P (m : Async A) (h : Exn -> Async A) Q E' E :
  triple P m Q E' ->
  (forall e, triple (E' e) (h e) Q E) ->
  triple P (try_catch m h) Q E.
Proof.
  intros Hm Hh w Hw. unfold try_catch.
  specialize (Hm w Hw).
  destruct (m w) as [[a | e] w']; [exact Hm | exact (Hh e w' Hm)].
Qed.

Lemma triple_conseq P P' (m : Async A) (Q Q' : A -> World -> Prop)
  (E E' : Exn -> World -> Prop) :
  triple P' m Q' E' ->
  (forall w, P w -> P' w) ->
  (forall a w, Q' a w -> Q a w) ->
  (forall e w, E' e w -> E e w) ->
  triple P m Q E.
Proof.
  intros Hm HP HQ HE w Hw.
  specialize (Hm w (HP w Hw)).
  destruct (m w) as [[a | e] w']; auto.
Qed.

Lemma stable_ret P (a : A) : stable P (ret a).
Proof. apply triple_ret; auto. Qed.

Lemma stable_throw P (e : Exn) : stable P (@throw A e).
Proof. apply triple_throw; auto. Qed.

Lemma stable_bind P (m : Async A) (k : A -> Async B) :
  stable P m -> (forall a, stable P (k a)) -> stable P (bind m k).
Proof. intros Hm Hk. eapply triple_bind; [exact Hm | exact Hk]. Qed.

Lemma stable_try_catch P (m : Async A) (h : Exn -> Async A) :
  stable P m -> (forall e, stable P (h e)) -> stable P (try_catch m h).
Proof. intros Hm Hh. eapply triple_try_catch; [exact Hm | exact Hh]. Qed.

Lemma stable_start P (m : Async A) : stable P m -> stable P (start m).
Proof.
  intros Hm w Hw. unfold start. cbn.
  specialize (Hm w Hw). destruct (m w) as [[a | e] w']; exact Hm.
Qed.

(** A stable property with a weaker one on rejection. *)
Lemma stable_rejecting P (E : World -> Prop) (m : Async A) :
  stable P m -> (forall w, P w -> E w) ->
  triple P m (fun _ => P) (fun _ => E).
Proof. intros Hm HE. eapply triple_conseq; [exact Hm | | |]; auto. Qed.

(** What a stable property says of the world a computation leaves. *)
Lemma stable_snd P (m : Async A) w : stable P m -> P w -> P (snd (m w)).
Proof.
  intros Hm Hw. specialize (Hm w Hw).
  destruct (m w) as [[a | e] w']; exact Hm.
Qed.

End Rules.

Section StoreRules.

Variable env : Env.
Implicit Types P : World -> Prop.

Lemma triple_supabase {A} (op : StoreOp) (run : World -> PgResult A * World)
  P (Q : PgResult A -> World -> Prop) E :
  (forall w, P w -> Q (fst (run w)) (snd (run w))) ->
  (forall m w, P w -> Q (PgError m) w) ->
  (forall m w, P w -> E (Error_new m) w) ->
  triple P (supabase env op run) Q E.
Proof.
  intros Hrun Hrefuse Hcrash w Hw. unfold supabase.
  destruct (store_fault env op).
  - specialize (Hrun w Hw). destruct (run w); exact Hrun.
  - exact (Hrefuse _ w Hw).
  - exact (Hcrash _ w Hw).
Qed.

Lemma stable_supabase {A} (op : StoreOp) (run : World -> PgResult A * World) P :
  (forall w, P w -> P (snd (run w))) -> stable P (supabase env op run).
Proof. intros H. apply triple_supabase; auto. Qed.

Lemma stable_statement {A} (op : StoreOp) (run : World -> A * World) P :
  (forall w, P w -> P (snd (run w))) -> stable P (statement env op run).
Proof.
  intros H. apply stable_supabase. intros w Hw.
  specialize (H w Hw). destruct (run w); exact H.
Qed.

Lemma stable_query {A} (op : StoreOp) (run : World -> PgResult A) P :
  stable P (query env op run).
Proof. apply stable_supabase. auto. Qed.

Lemma stable_new_Date P : stable P new_Date.
Proof. intros w Hw. exact Hw. Qed.

(** A statement the store runs. *)
Lemma supabase_healthy {A} op (run : World -> PgResult A * World) w :
  store_fault env op = Healthy ->
  supabase env op run w = (Resolved (fst (run w)), snd (run w)).
Proof. intros H. unfold supabase. rewrite H. destruct (run w); reflexivity. Qed.

Lemma statement_healthy {A} op (run : World -> A * World) w :
  store_fault env op = Healthy ->
  statement env op run w = (Resolved (PgData (fst (run w))), snd (run w)).
Proof.
  intros H. unfold statement. rewrite supabase_healthy by assumption.
  destruct (run w); reflexivity.
Qed.

Lemma query_healthy {A} op (run : World -> PgResult A) w :
  store_fault env op = Healthy ->
  query env op run w = (Resolved (run w), w).
Proof. intros H. unfold query. rewrite supabase_healthy by assumption. reflexivity. Qed.

Lemma supabase_refused {A} op (run : World -> PgResult A * World) w m :
  store_fault env op = Refuses m ->
  supabase env op run w = (Resolved (PgError m), w).
Proof. intros H. unfold supabase. rewrite H. reflexivity. Qed.

Lemma supabase_crashed {A} op (run : World -> PgResult A * World) w m :
  store_fault env op = Crashes m ->
  supabase env op run w = (Rejected (Error_new m), w).
Proof. intros H. unfold supabase. rewrite H. reflexivity. Qed.

(** ** The OpenAI service only writes to the log *)

Lemma log_blind_to sel P : log_blind P -> blind_to sel P.
Proof. intros H w c _. apply H. Qed.

Lemma stable_client_images_generate P prompt style :
  blind_to is_image_call P ->
  stable P (client_images_generate env prompt style).
Proof.
  intros H w Hw. unfold client_images_generate.
  specialize (H w (ImageGeneration prompt style) eq_refl Hw).
  destruct (issue (ImageGeneration prompt style) w) as [o w'].
  destruct (images_generate env (api_calls w) prompt style); exact H.
Qed.

Lemma stable_generateSceneImage P scene params :
  blind_to is_image_call P -> stable P (generateSceneImage env scene params).
Proof.
  intros H. unfold generateSceneImage.
  apply stable_try_catch.
  - apply stable_bind; [apply stable_client_images_generate; exact H |].
    intros url. destruct (falsy_string url);
      [apply stable_throw | apply stable_ret].
  - intros e. apply stable_ret.
Qed.

Lemma stable_generateSceneImages P scenes params :
  blind_to is_image_call P -> stable P (generateSceneImages env scenes params).
Proof.
  intros H. induction scenes as [| scene rest IH]; cbn [generateSceneImages].
  - apply stable_ret.
  - apply stable_bind; [apply stable_generateSceneImage; exact H |].
    intros generated. apply stable_bind; [exact IH |].
    intros more. apply stable_ret.
Qed.

(** Text generation logs its request and leads from [P] to [Q] when
    logging a chat request does. *)
Lemma triple_generateTextContent P Q prompt cardType params :
  (forall w c, is_chat_call c = true -> P w -> Q (snd (issue c w))) ->
  triple P (generateTextContent env prompt cardType params)
         (fun _ => Q) (fun _ => Q).
Proof.
  intros H. unfold generateTextContent.
  apply triple_bind with (R := fun _ => Q).
  { intros w Hw. exact (H w (ChatCompletion _) eq_refl Hw). }
  intros _.
  destruct (chat_completions_create env cardType prompt params) as [c | m];
    [| apply stable_throw].
  destruct (falsy_string (message_content c)); [apply stable_throw |].
  destruct (JSON_parse env _); [apply stable_ret | apply stable_throw].
Qed.

Lemma stable_moderateContent P text :
  blind_to is_moderation_call P -> stable P (moderateContent env text).
Proof.
  intros H. unfold moderateContent.
  apply stable_bind.
  { intros w Hw. exact (H w (Moderation text) eq_refl Hw). }
  intros _.
  destruct (moderations_create env text) as [[r |] | m];
    [| apply stable_ret | apply stable_throw].
  destruct (flagged r); [apply stable_throw | apply stable_ret].
Qed.

(** Content generation leads from [P] to [Q] when logging the chat
    request does and [Q] is blind to the other requests. *)
Lemma triple_generateCardContent P Q prompt cardType params :
  (forall w c, is_chat_call c = true -> P w -> Q (snd (issue c w))) ->
  blind_to is_moderation_call Q ->
  blind_to is_image_call Q ->
  triple P (generateCardContent env prompt cardType params)
         (fun _ => Q) (fun _ => Q).
Proof.
  intros Hchat Hmod Himg. unfold generateCardContent.
  apply triple_try_catch with (E' := fun _ => Q);
    [| intros e; apply stable_throw].
  apply triple_bind with (R := fun _ => Q);
    [apply triple_generateTextContent; exact Hchat |].
  intros textContent.
  apply stable_bind.
  { destruct (TextContent.scenes (fst textContent));
      [apply stable_ret | apply stable_throw]. }
  intros raw.
  apply stable_bind; [apply stable_moderateContent; exact Hmod |]. intros _.
  apply stable_bind; [apply stable_generateSceneImages; exact Himg |].
  intros scenes. apply stable_ret.
Qed.

Lemma stable_generateCardContent P prompt cardType params :
  log_blind P -> stable P (generateCardContent env prompt cardType params).
Proof.
  intros H. apply triple_generateCardContent.
  - intros w c _. apply H.
  - apply log_blind_to, H.
  - apply log_blind_to, H.
Qed.

End StoreRules.

(* ================================================================== *)
(** * 11. What the pipeline preserves *)
(* ================================================================== *)

Section Pipeline.

Variable env : Env.
Variable sid : Uuid.

Lemma stable_updateUserUsage Q uid costs :
  kept_by_store sid Q -> stable Q (updateUserUsage env uid costs).
Proof.
  intros K. unfold updateUserUsage.
  apply stable_try_catch; [| intros e; apply stable_ret].
  apply stable_bind; [apply stable_new_Date |]. intros now.
  apply stable_bind; [| intros _; apply stable_ret].
  apply stable_statement. intros w. apply (kept_upsert_usage K).
Qed.

(** The catch block of [generateCardAsync]. *)
Lemma stable_catch_block Q error :
  kept_by_store sid Q ->
  stable Q (now <- new_Date ;;
            statement env UpdateFailed
              (update_session sid (set_failed (message error) now)) ;;;
            @throw unit error).
Proof.
  intros K.
  apply stable_bind; [apply stable_new_Date |]. intros now.
  apply stable_bind; [| intros _; apply stable_throw].
  apply stable_statement. intros w. apply (kept_failed K).
Qed.

(** The pipeline from a state [P] that the processing update keeps, when
    content generation leads from [P] to [Q] and the store keeps [Q]. *)
Lemma generateCardAsync_triple (P Q : World -> Prop) data uid :
  (forall w, P w -> Q w) ->
  (forall w, P w -> P (snd (update_session sid set_processing w))) ->
  triple P (generateCardContent env (GenerateCard.input_prompt data)
                                (GenerateCard.card_type data)
                                (GenerateCard.generation_params data))
         (fun _ => Q) (fun _ => Q) ->
  kept_by_store sid Q ->
  triple P (generateCardAsync env sid data uid) (fun _ => Q) (fun _ => Q).
Proof.
  intros PQ Hproc Hgen K. unfold generateCardAsync.
  apply triple_bind with (R := fun _ => P).
  { unfold OpenAIService_new. destruct (falsy_string _);
      [apply triple_throw | apply triple_ret]; auto. }
  intros _.
  apply triple_try_catch with (E' := fun _ => Q);
    [| intros e; apply stable_catch_block; exact K].
  apply triple_bind with (R := fun _ => P).
  { apply triple_supabase; auto. }
  intros _.
  apply triple_bind with (R := fun _ => Q); [exact Hgen |].
  intros cardContent.
  apply stable_bind.
  { apply stable_statement. intros w. apply (kept_insert_card K). }
  intros inserted.
  apply stable_bind.
  { destruct inserted; [apply stable_ret | apply stable_throw]. }
  intros card.
  apply stable_bind.
  { destruct (0 <? _); [| apply stable_ret].
    apply stable_bind; [| intros _; apply stable_ret].
    apply stable_statement. intros w. apply (kept_insert_scenes K). }
  intros _.
  apply stable_bind; [apply stable_new_Date |]. intros now.
  apply stable_bind.
  { apply stable_statement. intros w. apply (kept_completed K). }
  intros _. apply stable_updateUserUsage. exact K.
Qed.

(** The same for the promise the route starts: it always resolves. *)
Lemma detached_triple (P Q : World -> Prop) data uid :
  (forall w, P w -> Q w) ->
  (forall w, P w -> P (snd (update_session sid set_processing w))) ->
  triple P (generateCardContent env (GenerateCard.input_prompt data)
                                (GenerateCard.card_type data)
                                (GenerateCard.generation_params data))
         (fun _ => Q) (fun _ => Q) ->
  kept_by_store sid Q ->
  triple P (detached env sid data uid) (fun _ => Q) (fun _ _ => False).
Proof.
  intros PQ Hproc Hgen K. unfold detached.
  apply triple_try_catch with (E' := fun _ => Q).
  { apply generateCardAsync_triple; assumption. }
  intros e.
  apply triple_try_catch with (E' := fun _ => Q);
    [| intros e'; apply triple_ret; auto].
  apply stable_bind; [apply stable_new_Date |]. intros now.
  apply stable_bind; [| intros _; apply stable_ret].
  apply stable_statement. intros w. apply (kept_failed K).
Qed.

Lemma detached_resolves data uid w :
  fst (detached env sid data uid w) = Resolved tt.
Proof.
  pose proof (@detached_triple (fun _ => True) (fun _ => True) data uid) as H.
  assert (T : triple (fun _ => True) (detached env sid data uid)
                     (fun _ _ => True) (fun _ _ => False)).
  { apply H; auto.
    - intros w0 _. destruct (generateCardContent env _ _ _ w0) as [[a | e] w'];
        exact I.
    - constructor; auto. }
  specialize (T w I).
  destruct (detached env sid data uid w) as [[[] | e] w']; [reflexivity | contradiction].
Qed.

End Pipeline.

(* ================================================================== *)
(** * 12. Runs of the OpenAI service *)
(* ================================================================== *)

Lemma with_api_calls_same w : with_api_calls w (api_calls w) = w.
Proof. destruct w; reflexivity. Qed.

Lemma issue_run c w :
  issue c w = (Resolved tt, with_api_calls w (api_calls w ++ [c])).
Proof. reflexivity. Qed.

Lemma falsy_empty url : falsy_string (Some url) = true -> url = "".
Proof. cbn. intros H. apply String.eqb_eq. exact H. Qed.

Lemma image_failed_empty env log params scene :
  image_failed env log params scene = true ->
  image_url_of env log params scene = "".
Proof.
  unfold image_failed, image_url_of.
  destruct (images_generate env log _ _) as [[url |] | m]; try reflexivity.
  apply falsy_empty.
Qed.

Section Service_runs.

Variable env : Env.

(** One turn of the loop: the scene gets its URL, or [""], and the
    request is in the log. *)
Lemma generateSceneImage_run scene params w :
  generateSceneImage env scene params w
  = (Resolved (Scene.mk (RawScene.id scene) (RawScene.description scene)
                        (image_url_of env (api_calls w) params scene)
                        (RawScene.image_prompt scene)),
     with_api_calls w (api_calls w ++ [image_call params scene])).
Proof.
  unfold generateSceneImage, try_catch, bind, client_images_generate,
    image_url_of, image_call, image_style.
  rewrite issue_run.
  destruct (images_generate env (api_calls w) _ _) as [[url |] | m];
    try reflexivity.
  destruct (falsy_string (Some url)) eqn:F; [| reflexivity].
  apply falsy_empty in F. subst url. reflexivity.
Qed.

(** The loop never throws: every scene is processed, in order. *)
Lemma generateSceneImages_run raw params w :
  generateSceneImages env raw params w
  = (Resolved (scene_images env (api_calls w) params raw),
     with_api_calls w (api_calls w ++ map (image_call params) raw)).
Proof.
  revert w. induction raw as [| scene rest IH]; intros w.
  - cbn. rewrite app_nil_r, with_api_calls_same. reflexivity.
  - cbn [generateSceneImages scene_images map]. unfold bind at 1.
    rewrite generateSceneImage_run. unfold bind at 1. rewrite IH.
    cbn [ret with_api_calls api_calls users generation_sessions flash_cards
         card_scenes usage_tracking next_uuid clock session_writes].
    rewrite <- app_assoc. reflexivity.
Qed.

Lemma scene_images_length log params raw :
  List.length (scene_images env log params raw) = List.length raw.
Proof.
  revert log. induction raw as [| scene rest IH]; intros log; cbn;
    [reflexivity | rewrite IH; reflexivity].
Qed.

(** The scene at a position: the raw scene there, with the URL its
    request got, issued after the requests of the scenes before it. *)
Lemma scene_images_nth log params raw i scene :
  nth_error raw i = Some scene ->
  nth_error (scene_images env log params raw) i
  = Some (Scene.mk (RawScene.id scene) (RawScene.description scene)
                   (image_url_of env
                      (log ++ map (image_call params) (firstn i raw))
                      params scene)
                   (RawScene.image_prompt scene)).
Proof.
  revert log i. induction raw as [| first rest IH]; intros log i H.
  - destruct i; discriminate.
  - destruct i as [| i].
    + cbn in H. injection H as <-. cbn. rewrite app_nil_r. reflexivity.
    + cbn in H. cbn [scene_images nth_error firstn map].
      rewrite (IH _ _ H). rewrite <- app_assoc. reflexivity.
Qed.

(** Content generation when text generation returns and moderation
    passes: it resolves whatever the image requests do. *)
Lemma generateCardContent_run data parsed raw usage w :
  text_generated env data parsed raw usage ->
  moderation_passes env (moderated_text raw) ->
  let log := (api_calls w ++ [chat_call data; moderation_call raw])%list in
  generateCardContent env (GenerateCard.input_prompt data)
                      (GenerateCard.card_type data)
                      (GenerateCard.generation_params data) w
  = (Resolved
       (mkGenerated
          (TextContent.title parsed)
          (mkContent (TextContent.primary_word parsed)
                     (scene_images env log
                        (GenerateCard.generation_params data) raw)
                     (TextContent.category_words parsed)
                     (mkLayout "3:4" "portrait" "colorful"))
          (calculateCosts (number_or_zero usage) (List.length raw))),
     with_api_calls w
       (log ++ map (image_call (GenerateCard.generation_params data)) raw)).
Proof.
  intros [answer [Hchat [Hne [Hparse Hscenes]]]] Hmod log.
  unfold generateCardContent, try_catch. unfold bind at 1.
  unfold generateTextContent. unfold bind at 1. rewrite issue_run.
  rewrite Hchat. cbn [message_content usage_total_tokens falsy_string].
  rewrite Hne, Hparse. cbn [ret fst snd].
  unfold bind at 1. rewrite Hscenes. cbn [ret].
  unfold bind at 1. unfold moderateContent. unfold bind at 1.
  rewrite issue_run.
  unfold moderation_passes, moderated_text in Hmod.
  assert (Hpass :
    (match moderations_create env (join " " (map RawScene.description raw)) with
     | Returns None => ret tt
     | Returns (Some result) =>
         if flagged result
         then throw (Error_new ("Content policy violation: "
                 ++ join ", " (map fst (filter (fun entry => snd entry)
                                               (categories result)))))
         else ret tt
     | Fails m => throw (Error_new m)
     end) = ret tt).
  { destruct (moderations_create env _) as [[r |] | m];
      [rewrite Hmod; reflexivity | reflexivity | contradiction]. }
  rewrite Hpass. cbn [ret].
  unfold bind at 1. rewrite generateSceneImages_run.
  cbn [ret with_api_calls api_calls users generation_sessions flash_cards
       card_scenes usage_tracking next_uuid clock session_writes].
  rewrite scene_images_length.
  unfold log, chat_call, moderation_call, moderated_text.
  rewrite <- !app_assoc. reflexivity.
Qed.

(** Content generation when moderation flags the text: it throws the
    policy violation after the chat and the moderation request, and no
    image is requested. *)
Lemma generateCardContent_flagged data parsed raw usage result w :
  text_generated env data parsed raw usage ->
  moderation_flagged env (moderated_text raw) result ->
  generateCardContent env (GenerateCard.input_prompt data)
                      (GenerateCard.card_type data)
                      (GenerateCard.generation_params data) w
  = (Rejected (Error_new (policy_violation_message result)),
     with_api_calls w (api_calls w ++ [chat_call data; moderation_call raw])).
Proof.
  intros [answer [Hchat [Hne [Hparse Hscenes]]]] [Hmod Hflag].
  unfold generateCardContent, try_catch. unfold bind at 1.
  unfold generateTextContent. unfold bind at 1. rewrite issue_run.
  rewrite Hchat. cbn [message_content usage_total_tokens falsy_string].
  rewrite Hne, Hparse. cbn [ret fst snd].
  unfold bind at 1. rewrite Hscenes. cbn [ret].
  unfold bind at 1. unfold moderateContent. unfold bind at 1.
  rewrite issue_run. unfold moderated_text in Hmod. rewrite Hmod, Hflag.
  cbn [throw message Error_new with_api_calls api_calls users
       generation_sessions flash_cards card_scenes usage_tracking next_uuid
       clock session_writes].
  unfold chat_call, moderation_call, moderated_text, policy_violation_message.
  rewrite <- !app_assoc. reflexivity.
Qed.

End Service_runs.

(* ================================================================== *)
(** * 13. Runs of the pipeline *)
(* ================================================================== *)

(** A try block that resolves is not caught. *)
Lemma settle_resolved {A} (x : Outcome A * World) (h : Exn -> Async A) :
  (exists a, fst x = Resolved a) ->
  (let (o, w') := x in
   match o with
   | Resolved a => (Resolved a, w')
   | Rejected e => h e w'
   end) = x.
Proof.
  destruct x as [[a | e] w']; cbn; intros [a' H];
    [reflexivity | discriminate].
Qed.

Section Pipeline_runs.

Variable env : Env.

(** Usage tracking always resolves and touches nothing but
    [usage_tracking]. *)
Lemma updateUserUsage_run uid costs w :
  fst (updateUserUsage env uid costs w) = Resolved tt
  /\ generation_sessions (snd (updateUserUsage env uid costs w))
     = generation_sessions w
  /\ flash_cards (snd (updateUserUsage env uid costs w)) = flash_cards w
  /\ card_scenes (snd (updateUserUsage env uid costs w)) = card_scenes w
  /\ api_calls (snd (updateUserUsage env uid costs w)) = api_calls w.
Proof.
  unfold updateUserUsage, try_catch, bind, new_Date, statement, supabase.
  destruct (store_fault env UpsertUsage); cbn; auto.
Qed.

(** The pipeline when text generation returns, moderation passes and
    the store runs the statements: whatever the image requests do, it
    reaches [completed_run] and goes on to track the usage. *)
Lemma generateCardAsync_run sid data uid parsed raw usage w :
  falsy_string (OPENAI_API_KEY env) = false ->
  store_runs env [UpdateProcessing; InsertCard; InsertScenes; UpdateCompleted] ->
  text_generated env data parsed raw usage ->
  moderation_passes env (moderated_text raw) ->
  generateCardAsync env sid data uid w
  = updateUserUsage env uid
      (costs (generated env data parsed raw usage (log_before_images data raw w)))
      (completed_run env sid data uid parsed raw usage w).
Proof.
  intros Hkey Hstore Htext Hmod.
  unfold generateCardAsync, OpenAIService_new. rewrite Hkey.
  unfold bind at 1. cbn [ret]. unfold try_catch.
  unfold bind at 1. rewrite statement_healthy by (apply Hstore; cbn; auto).
  unfold bind at 1. rewrite (generateCardContent_run _ Htext Hmod).
  cbn zeta.
  unfold bind at 1. rewrite statement_healthy by (apply Hstore; cbn; auto).
  cbn [title content costs scenes].
  unfold bind at 1. cbn [fst snd ret insert_card].
  unfold bind at 1. rewrite scene_images_length.
  unfold completed_run, generated, log_before_images.
  cbn [title content costs scenes].
  destruct (0 <? Z.of_nat (List.length raw)).
  - unfold bind at 1. rewrite statement_healthy by (apply Hstore; cbn; auto).
    cbn [ret fst snd]. unfold bind at 1. unfold new_Date at 1.
    unfold bind at 1. rewrite statement_healthy by (apply Hstore; cbn; auto).
    cbn [fst snd].
    apply settle_resolved. exists tt. apply updateUserUsage_run.
  - cbn [ret]. unfold bind at 1. unfold new_Date at 1.
    unfold bind at 1. rewrite statement_healthy by (apply Hstore; cbn; auto).
    cbn [fst snd].
    apply settle_resolved. exists tt. apply updateUserUsage_run.
Qed.

(** The pipeline when moderation flags the text and the store runs the
    two updates: the session is marked failed with the policy message. *)
Lemma generateCardAsync_flagged sid data uid parsed raw usage result w :
  falsy_string (OPENAI_API_KEY env) = false ->
  store_runs env [UpdateProcessing; UpdateFailed] ->
  text_generated env data parsed raw usage ->
  moderation_flagged env (moderated_text raw) result ->
  generateCardAsync env sid data uid w
  = (Rejected (Error_new (policy_violation_message result)),
     snd (update_session sid
            (set_failed (policy_violation_message result) (clock w))
            (with_api_calls
               (snd (update_session sid set_processing w))
               (log_before_images data raw w)))).
Proof.
  intros Hkey Hstore Htext Hmod.
  unfold generateCardAsync, OpenAIService_new. rewrite Hkey.
  unfold bind at 1. cbn [ret]. unfold try_catch.
  unfold bind at 1. rewrite statement_healthy by (apply Hstore; cbn; auto).
  unfold bind at 1. rewrite (generateCardContent_flagged _ Htext Hmod).
  unfold bind at 1. unfold new_Date at 1.
  unfold bind at 1. rewrite statement_healthy by (apply Hstore; cbn; auto).
  reflexivity.
Qed.

End Pipeline_runs.

(* ================================================================== *)
(** * 14. Two runs side by side *)
(* ================================================================== *)

Lemma same_but_cards_refl w : same_but_cards w w.
Proof. repeat split. Qed.

Section Relational_rules.

Context {A B : Type}.

Lemma related_ret (V : A -> A -> Prop) a a' :
  V a a' -> related V (ret a) (ret a').
Proof. intros H w w' Hw. cbn. auto. Qed.

Lemma related_throw (V : A -> A -> Prop) e :
  related V (throw e) (throw e).
Proof. intros w w' Hw. cbn. auto. Qed.

Lemma related_bind (U : A -> A -> Prop) (V : B -> B -> Prop)
  (m m' : Async A) (k k' : A -> Async B) :
  related U m m' ->
  (forall a a', U a a' -> related V (k a) (k' a')) ->
  related V (bind m k) (bind m' k').
Proof.
  intros Hm Hk w w' Hw. unfold bind. specialize (Hm w w' Hw).
  destruct (m w) as [[a | e] w1], (m' w') as [[a' | e'] w1'];
    try contradiction.
  - destruct Hm as [Ha Hw1]. exact (Hk a a' Ha w1 w1' Hw1).
  - exact Hm.
Qed.

Lemma related_try_catch (V : A -> A -> Prop) (m m' : Async A)
  (h h' : Exn -> Async A) :
  related V m m' ->
  (forall e, related V (h e) (h' e)) ->
  related V (try_catch m h) (try_catch m' h').
Proof.
  intros Hm Hh w w' Hw. unfold try_catch. specialize (Hm w w' Hw).
  destruct (m w) as [[a | e] w1], (m' w') as [[a' | e'] w1'];
    try contradiction.
  - exact Hm.
  - destruct Hm as [<- Hw1]. exact (Hh e w1 w1' Hw1).
Qed.

End Relational_rules.

Section Relational_store.

Variables env env' : Env.
Hypothesis Hsame : same_but_images env env'.

Lemma related_statement {A} (V : A -> A -> Prop) op
  (run run' : World -> A * World) :
  (forall w w', same_but_cards w w' ->
     V (fst (run w)) (fst (run' w'))
     /\ same_but_cards (snd (run w)) (snd (run' w'))) ->
  related (fun r r' =>
             match r, r' with
             | PgData a, PgData a' => V a a'
             | PgError m, PgError m' => m = m'
             | _, _ => False
             end)
          (statement env op run) (statement env' op run').
Proof.
  intros Hrun w w' Hw. unfold statement, supabase.
  destruct Hsame as [_ [Hfault _]]. rewrite <- (Hfault op).
  destruct (store_fault env op); cbn; auto.
  specialize (Hrun w w' Hw).
  destruct (run w), (run' w'). exact Hrun.
Qed.

Lemma related_new_Date : related eq new_Date new_Date.
Proof.
  intros w w' Hw. cbn. split; [| exact Hw].
  destruct Hw as [_ [_ [_ [_ [Hclock _]]]]]. exact Hclock.
Qed.

Lemma same_but_cards_issue c w w' :
  same_but_cards w w' -> same_but_cards (snd (issue c w)) (snd (issue c w')).
Proof.
  intros [Hu [Hs [Hg [Hn [Hc [Ha Hj]]]]]]. unfold same_but_cards. cbn.
  rewrite Ha. repeat split; assumption.
Qed.

Lemma related_issue c : related eq (issue c) (issue c).
Proof.
  intros w w' Hw. split; [reflexivity | apply same_but_cards_issue; exact Hw].
Qed.

Lemma related_generateSceneImage scene params :
  related same_but_url (generateSceneImage env scene params)
                       (generateSceneImage env' scene params).
Proof.
  intros w w' Hw. rewrite !generateSceneImage_run.
  split; [repeat split |].
  apply (same_but_cards_issue (image_call params scene) Hw).
Qed.

Lemma related_generateSceneImages scenes params :
  related (Forall2 same_but_url) (generateSceneImages env scenes params)
                                 (generateSceneImages env' scenes params).
Proof.
  induction scenes as [| scene rest IH]; cbn [generateSceneImages].
  - apply related_ret. constructor.
  - apply related_bind with (U := same_but_url);
      [apply related_generateSceneImage |].
    intros s s' Hs.
    apply related_bind with (U := Forall2 same_but_url); [exact IH |].
    intros l l' Hl. apply related_ret. constructor; assumption.
Qed.

Lemma related_generateTextContent prompt cardType params :
  related eq (generateTextContent env prompt cardType params)
             (generateTextContent env' prompt cardType params).
Proof.
  unfold generateTextContent.
  destruct Hsame as [_ [_ [Hchat [Hparse _]]]].
  apply related_bind with (U := eq); [apply related_issue |]. intros _ _ _.
  rewrite <- Hchat.
  destruct (chat_completions_create env cardType prompt params) as [c | m];
    [| apply related_throw].
  destruct (falsy_string (message_content c)); [apply related_throw |].
  rewrite <- Hparse.
  destruct (JSON_parse env _); [apply related_ret; reflexivity | apply related_throw].
Qed.

Lemma related_moderateContent text :
  related eq (moderateContent env text) (moderateContent env' text).
Proof.
  unfold moderateContent.
  destruct Hsame as [_ [_ [_ [_ Hmod]]]].
  apply related_bind with (U := eq); [apply related_issue |]. intros _ _ _.
  rewrite <- Hmod.
  destruct (moderations_create env text) as [[r |] | m];
    [| apply related_ret; reflexivity | apply related_throw].
  destruct (flagged r); [apply related_throw | apply related_ret; reflexivity].
Qed.

Lemma related_generateCardContent prompt cardType params :
  related same_but_urls (generateCardContent env prompt cardType params)
                        (generateCardContent env' prompt cardType params).
Proof.
  unfold generateCardContent.
  apply related_try_catch; [| intros e; apply related_throw].
  apply related_bind with (U := eq); [apply related_generateTextContent |].
  intros textContent _ <-.
  apply related_bind with (U := eq).
  { destruct (TextContent.scenes (fst textContent));
      [apply related_ret; reflexivity | apply related_throw]. }
  intros raw _ <-.
  apply related_bind with (U := eq); [apply related_moderateContent |].
  intros _ _ _.
  apply related_bind with (U := Forall2 same_but_url);
    [apply related_generateSceneImages |].
  intros l l' Hl. apply related_ret.
  unfold same_but_urls. cbn [title costs content scenes].
  rewrite (Forall2_length Hl). repeat split. exact Hl.
Qed.

End Relational_store.

Lemma same_but_cards_update sid patch w w' :
  same_but_cards w w' ->
  same_but_cards (snd (update_session sid patch w))
                 (snd (update_session sid patch w')).
Proof.
  intros [Hu [Hs [Hg [Hn [Hc [Ha Hj]]]]]]. unfold same_but_cards. cbn.
  rewrite Hs, Hj. repeat split; assumption.
Qed.

Lemma same_but_cards_insert_card u s t ct c c' p w w' :
  same_but_cards w w' ->
  FlashCard.id (fst (insert_card u s t ct c p w))
  = FlashCard.id (fst (insert_card u s t ct c' p w'))
  /\ same_but_cards (snd (insert_card u s t ct c p w))
                    (snd (insert_card u s t ct c' p w')).
Proof.
  intros [Hu [Hs [Hg [Hn [Hc [Ha Hj]]]]]]. unfold same_but_cards. cbn.
  rewrite Hn. repeat split; assumption.
Qed.

Lemma same_but_cards_insert_scenes cid cid' (l l' : list Scene.t) w w' :
  List.length l = List.length l' ->
  same_but_cards w w' ->
  same_but_cards (snd (insert_scenes cid l w)) (snd (insert_scenes cid' l' w')).
Proof.
  intros Hl [Hu [Hs [Hg [Hn [Hc [Ha Hj]]]]]]. unfold same_but_cards. cbn.
  rewrite Hn, Hl. repeat split; assumption.
Qed.

Lemma same_but_cards_upsert_usage row w w' :
  same_but_cards w w' ->
  same_but_cards (snd (upsert_usage row w)) (snd (upsert_usage row w')).
Proof.
  intros [Hu [Hs [Hg [Hn [Hc [Ha Hj]]]]]]. unfold same_but_cards. cbn.
  rewrite Hg. repeat split; assumption.
Qed.

Lemma same_but_cards_insert_session uid prompt gt w w' :
  same_but_cards w w' ->
  fst (insert_session uid prompt gt w) = fst (insert_session uid prompt gt w')
  /\ same_but_cards (snd (insert_session uid prompt gt w))
                    (snd (insert_session uid prompt gt w')).
Proof.
  intros [Hu [Hs [Hg [Hn [Hc [Ha Hj]]]]]]. unfold same_but_cards. cbn.
  rewrite Hs, Hn, Hc, Hj. repeat split; assumption.
Qed.

Section Relational_pipeline.

Variables env env' : Env.
Hypothesis Hsame : same_but_images env env'.

Lemma related_updateUserUsage uid costs :
  related eq (updateUserUsage env uid costs) (updateUserUsage env' uid costs).
Proof.
  unfold updateUserUsage.
  apply related_try_catch; [| intros e; apply related_ret; reflexivity].
  apply related_bind with (U := eq); [apply related_new_Date |].
  intros now _ <-.
  eapply related_bind; [| intros r r' _; apply related_ret; reflexivity].
  apply (related_statement Hsame eq).
  intros w w' Hw. split; [reflexivity | apply same_but_cards_upsert_usage, Hw].
Qed.

(** The pipeline, whatever image generation replies: the same outcome,
    the same sessions and the same journal. *)
Lemma related_generateCardAsync sid data uid :
  related eq (generateCardAsync env sid data uid)
             (generateCardAsync env' sid data uid).
Proof.
  unfold generateCardAsync.
  apply related_bind with (U := eq).
  { unfold OpenAIService_new. destruct Hsame as [<- _].
    destruct (falsy_string _); [apply related_throw | apply related_ret; reflexivity]. }
  intros _ _ _.
  apply related_try_catch.
  2:{ intros e.
      apply related_bind with (U := eq); [apply related_new_Date |].
      intros now _ <-.
      eapply related_bind; [| intros r r' _; apply related_throw].
      apply (related_statement Hsame eq).
      intros w w' Hw. split; [reflexivity | apply same_but_cards_update, Hw]. }
  eapply related_bind.
  { apply (related_statement Hsame eq).
    intros w w' Hw. split; [reflexivity | apply same_but_cards_update, Hw]. }
  intros r0 r0' _.
  apply related_bind with (U := same_but_urls);
    [apply related_generateCardContent; exact Hsame |].
  intros g g' [Htitle [Hcosts Hscenes]].
  pose proof (Forall2_length Hscenes) as Hlen.
  eapply related_bind.
  { apply (related_statement Hsame
             (fun c c' => FlashCard.id c = FlashCard.id c')).
    intros w w' Hw. rewrite Htitle. apply same_but_cards_insert_card, Hw. }
  intros inserted inserted' Hins.
  apply related_bind with (U := fun c c' => FlashCard.id c = FlashCard.id c').
  { destruct inserted, inserted'; try contradiction.
    - apply related_ret. exact Hins.
    - subst. apply related_throw. }
  intros card card' Hid.
  apply related_bind with (U := eq).
  { rewrite Hlen. destruct (0 <? _); [| apply related_ret; reflexivity].
    eapply related_bind; [| intros r r' _; apply related_ret; reflexivity].
    apply (related_statement Hsame eq).
    intros w w' Hw. split; [reflexivity |].
    apply same_but_cards_insert_scenes; assumption. }
  intros _ _ _.
  apply related_bind with (U := eq); [apply related_new_Date |].
  intros now _ <-.
  eapply related_bind.
  { apply (related_statement Hsame eq).
    intros w w' Hw. rewrite Hcosts.
    split; [reflexivity | apply same_but_cards_update, Hw]. }
  intros r r' _. rewrite Hcosts. apply related_updateUserUsage.
Qed.

Lemma related_detached sid data uid :
  related eq (detached env sid data uid) (detached env' sid data uid).
Proof.
  unfold detached.
  apply related_try_catch; [apply related_generateCardAsync |].
  intros e.
  apply related_try_catch; [| intros e'; apply related_ret; reflexivity].
  apply related_bind with (U := eq); [apply related_new_Date |].
  intros now _ <-.
  eapply related_bind; [| intros r r' _; apply related_ret; reflexivity].
  apply (related_statement Hsame eq).
  intros w w' Hw. split; [reflexivity | apply same_but_cards_update, Hw].
Qed.

End Relational_pipeline.

(* ================================================================== *)
(** * 15. The timestamp of completion *)
(* ================================================================== *)

Lemma stamped_set_completed costs t s : stamped_iff_terminal (set_completed costs t s).
Proof. unfold stamped_iff_terminal. cbn. tauto. Qed.

Lemma stamped_set_failed msg t s : stamped_iff_terminal (set_failed msg t s).
Proof. unfold stamped_iff_terminal. cbn. tauto. Qed.

Lemma stamped_set_processing s :
  stamped_iff_terminal s -> terminal (Session.status s) = false ->
  stamped_iff_terminal (set_processing s).
Proof.
  unfold stamped_iff_terminal. cbn. intros [H _] Hopen. split; [| discriminate].
  intros Hset. specialize (H Hset). congruence.
Qed.

(** An update whose patch always yields consistent rows keeps the store
    and its journal consistent. *)
Lemma consistent_update sid patch w :
  (forall s, In s (generation_sessions w) -> Session.id s = sid ->
             stamped_iff_terminal (patch s)) ->
  sessions_consistent w ->
  sessions_consistent (snd (update_session sid patch w)).
Proof.
  intros Hpatch [Hrows Hlog]. unfold sessions_consistent. cbn.
  rewrite Forall_forall in Hrows. split.
  - apply Forall_forall. intros s' Hin. apply in_map_iff in Hin.
    destruct Hin as [s [<- Hs]].
    destruct (Session.id s =? sid) eqn:Hid; [| exact (Hrows s Hs)].
    apply Hpatch; [exact Hs | apply Z.eqb_eq; exact Hid].
  - apply Forall_app. split; [| exact Hlog].
    apply Forall_rev. apply Forall_forall. intros s' Hin.
    apply in_map_iff in Hin. destruct Hin as [s [<- Hs]].
    apply filter_In in Hs. destruct Hs as [Hs Hid].
    apply Hpatch; [exact Hs | apply Z.eqb_eq; exact Hid].
Qed.

Lemma consistent_log_blind : log_blind sessions_consistent.
Proof. intros w c H. exact H. Qed.

Lemma consistent_kept_by_store sid : kept_by_store sid sessions_consistent.
Proof.
  constructor; intros; try assumption.
  - apply consistent_update; [intros; apply stamped_set_completed | assumption].
  - apply consistent_update; [intros; apply stamped_set_failed | assumption].
Qed.

(** The processing update keeps an open session open and consistent. *)
Lemma open_update_processing sid w :
  sessions_consistent w /\ session_open sid w ->
  sessions_consistent (snd (update_session sid set_processing w))
  /\ session_open sid (snd (update_session sid set_processing w)).
Proof.
  intros [Hc Ho]. split.
  - apply consistent_update; [| exact Hc].
    intros s Hs Hid. apply stamped_set_processing; [| exact (Ho s Hs Hid)].
    destruct Hc as [Hrows _]. rewrite Forall_forall in Hrows. exact (Hrows s Hs).
  - intros s' Hin Hid. cbn in Hin. apply in_map_iff in Hin.
    destruct Hin as [s [<- Hs]].
    destruct (Session.id s =? sid) eqn:E; [reflexivity |].
    apply (Ho s Hs). exact Hid.
Qed.

(** The session a healthy store inserts is open, and the store stays
    consistent. *)
Lemma open_after_insert uid prompt gt w :
  keys_fresh w -> sessions_consistent w ->
  sessions_consistent (snd (insert_session uid prompt gt w))
  /\ session_open (Session.id (fst (insert_session uid prompt gt w)))
                  (snd (insert_session uid prompt gt w)).
Proof.
  intros Hfresh [Hrows Hlog]. cbn. split; [split |].
  - apply Forall_app. split; [exact Hrows |].
    constructor; [| constructor]. unfold stamped_iff_terminal. cbn.
    split; discriminate.
  - constructor; [| exact Hlog]. unfold stamped_iff_terminal. cbn.
    split; discriminate.
  - intros s Hin Hid. apply in_app_or in Hin. destruct Hin as [Hold | Hnew].
    + unfold keys_fresh in Hfresh. rewrite Forall_forall in Hfresh.
      specialize (Hfresh s Hold). lia.
    + destruct Hnew as [<- | []]. reflexivity.
Qed.

Section Quota_frame.

Variable env : Env.

(** The quota check reads the store and leaves it as it is. *)
Lemma stable_checkUserQuota P uid : stable P (checkUserQuota env uid).
Proof.
  unfold checkUserQuota.
  apply stable_try_catch; [| intros e; apply stable_ret].
  apply stable_bind; [apply stable_query |]. intros user.
  apply stable_bind; [apply stable_new_Date |]. intros now.
  apply stable_bind; [apply stable_statement; auto |]. intros count.
  destruct (ge_undefined _ _); apply stable_ret.
Qed.

Lemma stable_validateRequest {T} P request (schema : Body -> option T) :
  stable P (validateRequest request schema).
Proof.
  unfold validateRequest. destruct (schema _); [| apply stable_throw].
  destruct (auth_user request); [apply stable_ret | apply stable_throw].
Qed.

Lemma consistent_POST request :
  triple (fun w => keys_fresh w /\ sessions_consistent w)
         (POST env request)
         (fun _ => sessions_consistent) (fun _ => sessions_consistent).
Proof.
  unfold POST.
  apply triple_try_catch with (E' := fun _ => sessions_consistent);
    [| intros e; apply stable_ret].
  assert (W : forall w, keys_fresh w /\ sessions_consistent w ->
                       sessions_consistent w) by (intros w0 [_ H0]; exact H0).
  eapply triple_bind;
    [apply stable_rejecting; [apply stable_validateRequest | exact W] |].
  intros validated. cbn beta.
  eapply triple_bind;
    [apply stable_rejecting; [apply stable_checkUserQuota | exact W] |].
  intros quotaCheck. cbn beta.
  eapply triple_bind.
  { apply stable_rejecting; [| exact W].
    destruct (negb _); [apply stable_throw | apply stable_ret]. }
  intros u. cbn beta.
  apply triple_bind with
    (R := fun inserted w =>
            match inserted with
            | PgData s => sessions_consistent w /\ session_open (Session.id s) w
            | PgError _ => sessions_consistent w
            end).
  { apply triple_supabase.
    - intros w [Hf Hc]. cbn [fst snd].
      exact (open_after_insert _ _ _ Hf Hc).
    - intros m w [_ Hc]. exact Hc.
    - intros m w [_ Hc]. exact Hc. }
  intros [session | m]; cbn beta iota.
  2:{ apply triple_bind with (R := fun _ _ => False);
        [apply triple_throw; auto | intros s w0 []]. }
  eapply triple_bind with
    (R := fun s w => sessions_consistent w /\ session_open (Session.id s) w).
  { apply triple_ret. auto. }
  intros s.
  apply triple_bind with (R := fun _ => sessions_consistent);
    [| intros _; apply stable_ret].
  intros w Hw. unfold start. cbn [fst snd].
  pose proof (@detached_triple env (Session.id s)
                (fun w => sessions_consistent w /\ session_open (Session.id s) w)
                sessions_consistent
                (fst validated) (snd validated)) as H.
  assert (T : triple (fun w => sessions_consistent w /\ session_open (Session.id s) w)
                     (detached env (Session.id s) (fst validated) (snd validated))
                     (fun _ => sessions_consistent) (fun _ _ => False)).
  { apply H.
    - intros w0 [Hc _]. exact Hc.
    - intros w0. apply open_update_processing.
    - eapply triple_conseq;
        [apply stable_generateCardContent; apply consistent_log_blind | | |].
      + intros w0 [Hc _]. exact Hc.
      + auto.
      + auto.
    - apply consistent_kept_by_store. }
  specialize (T w Hw).
  destruct (detached env (Session.id s) (fst validated) (snd validated) w)
    as [[a | e] w']; [exact T | contradiction].
Qed.

End Quota_frame.

(** C1. For every generation session the [completed_at] timestamp is set
    if and only if the status is terminal (completed or failed).  The
    session is inserted pending without the timestamp, the update to
    processing leaves the timestamp as it is, and the updates to
    completed and to failed both set it; so, from a consistent store with
    unique keys, every row the generation route and its background
    pipeline write, and every row the store holds afterwards, has the
    timestamp exactly when it is terminal, whatever OpenAI and the store
    answer. *)
Theorem C1_completed_at_iff_terminal (env : Env) (request : Request) (w : World) :
  keys_fresh w ->
  sessions_consistent w ->
  sessions_consistent (snd (POST env request w))
  /\ (forall uid prompt gt,
        let s := fst (insert_session uid prompt gt w) in
        Session.status s = pending /\ Session.completed_at s = None)
  /\ (forall s,
        Session.status (set_processing s) = processing
        /\ Session.completed_at (set_processing s) = Session.completed_at s)
  /\ (forall costs now s,
        Session.status (set_completed costs now s) = completed
        /\ Session.completed_at (set_completed costs now s) = Some now)
  /\ (forall msg now s,
        Session.status (set_failed msg now s) = failed
        /\ Session.completed_at (set_failed msg now s) = Some now).
Proof.
  intros Hfresh Hc. split; [| repeat split].
  pose proof (@consistent_POST env request w (conj Hfresh Hc)) as H.
  destruct (POST env request w) as [[r | e] w']; exact H.
Qed.

(** A run of the route on a store that already holds a completed
    session: the journal shows the new session pending, then processing,
    then completed. *)
Example journal_of_a_run :
  map (fun s => (Session.status s, is_set (Session.completed_at s)))
      (session_writes
         (snd (POST second_image_fails (elephant_request 7) one_session_store)))
  = [(completed, true); (processing, false); (pending, false)].
Proof. vm_compute. reflexivity. Qed.

Lemma C1_witness :
  keys_fresh one_session_store
  /\ sessions_consistent one_session_store
  /\ sessions_consistent
       (snd (POST second_image_fails (elephant_request 7) one_session_store)).
Proof.
  assert (Hfresh : keys_fresh one_session_store).
  { constructor; [reflexivity | constructor]. }
  assert (Hc : sessions_consistent one_session_store).
  { split; [| constructor].
    constructor; [| constructor]. split; reflexivity. }
  split; [exact Hfresh | split; [exact Hc |]].
  exact (proj1 (@C1_completed_at_iff_terminal second_image_fails
                  (elephant_request 7) one_session_store Hfresh Hc)).
Defined.

(* ================================================================== *)
(** * 16. Failures of the pipeline *)
(* ================================================================== *)

(** An update that leaves a column alone leaves it alone in every row. *)
Lemma update_keeps_column {C} (col : Session.t -> C) sid patch w :
  (forall s, col (patch s) = col s) ->
  map col (generation_sessions (snd (update_session sid patch w)))
  = map col (generation_sessions w).
Proof.
  intros H. cbn. rewrite map_map. apply map_ext.
  intros s. destruct (Session.id s =? sid); [apply H | reflexivity].
Qed.

(** What an update makes of the rows it selects. *)
Lemma updated_rows sid patch w s' :
  (forall s, Session.id (patch s) = Session.id s) ->
  In s' (sessions_with_id sid (snd (update_session sid patch w))) ->
  exists s, In s (sessions_with_id sid w) /\ s' = patch s.
Proof.
  intros Hid Hin. unfold sessions_with_id in *. cbn in Hin.
  apply filter_In in Hin. destruct Hin as [Hin Hs'].
  apply in_map_iff in Hin. destruct Hin as [s [Heq Hs]].
  destruct (Session.id s =? sid) eqn:E.
  - exists s. split; [| symmetry; exact Heq].
    apply filter_In. split; assumption.
  - subst s'. congruence.
Qed.

Section Failures.

Variable env : Env.
Variable sid : Uuid.

(** No column but [status], [error_message], [ai_costs] and
    [completed_at] is written by the pipeline. *)
Lemma column_kept_by_store {C} (col : Session.t -> C) (l : list C) :
  (forall costs t s, col (set_completed costs t s) = col s) ->
  (forall msg t s, col (set_failed msg t s) = col s) ->
  kept_by_store sid (fun w => map col (generation_sessions w) = l).
Proof.
  intros Hc Hf. constructor; intros; try assumption.
  - rewrite update_keeps_column; [assumption | apply Hc].
  - rewrite update_keeps_column; [assumption | apply Hf].
Qed.

Lemma detached_keeps_column {C} (col : Session.t -> C) data uid w :
  (forall s, col (set_processing s) = col s) ->
  (forall costs t s, col (set_completed costs t s) = col s) ->
  (forall msg t s, col (set_failed msg t s) = col s) ->
  map col (generation_sessions (snd (detached env sid data uid w)))
  = map col (generation_sessions w).
Proof.
  intros Hp Hc Hf.
  set (P := fun w0 => map col (generation_sessions w0)
                      = map col (generation_sessions w)).
  assert (T : triple P (detached env sid data uid) (fun _ => P) (fun _ _ => False)).
  { apply detached_triple.
    - auto.
    - intros w0 H0. unfold P. rewrite update_keeps_column; [exact H0 | exact Hp].
    - apply stable_generateCardContent. intros w0 c H0. exact H0.
    - apply column_kept_by_store; assumption. }
  specialize (T w eq_refl).
  destruct (detached env sid data uid w) as [[a | e] w']; [exact T | contradiction].
Qed.

(** Text generation is entered at most once. *)
Lemma detached_chat_calls data uid w :
  (chat_calls (snd (detached env sid data uid w)) <= chat_calls w + 1)%nat.
Proof.
  set (n := chat_calls w).
  assert (T : triple (fun w0 => chat_calls w0 = n)
                     (detached env sid data uid)
                     (fun _ w0 => (chat_calls w0 <= n + 1)%nat)
                     (fun _ _ => False)).
  { apply detached_triple.
    - intros w0 H0. lia.
    - intros w0 H0. exact H0.
    - apply triple_generateCardContent.
      + intros w0 [] Hc H0; try discriminate.
        unfold chat_calls in *. cbn. rewrite filter_app, length_app. cbn. lia.
      + intros w0 [] Hc H0; try discriminate.
        unfold chat_calls in *. cbn. rewrite filter_app, length_app. cbn. lia.
      + intros w0 [] Hc H0; try discriminate.
        unfold chat_calls in *. cbn. rewrite filter_app, length_app. cbn. lia.
    - constructor; intros; assumption. }
  specialize (T w eq_refl).
  destruct (detached env sid data uid w) as [[a | e] w']; [exact T | contradiction].
Qed.

End Failures.

(** The sample run in which everything answers: one card, with the
    word asked for and four scenes, and a completed session. *)
Example everything_answers :
  let w' := snd (POST all_well (elephant_request 7) empty_store) in
  map Session.status (generation_sessions w') = [completed]
  /\ map (fun c => (primary_word (FlashCard.content c),
                    List.length (scenes (FlashCard.content c)),
                    FlashCard.status c))
         (flash_cards w')
     = [("elephant", 4%nat, preview)].
Proof. vm_compute. repeat split. Qed.

(** The sample run in which the answer of the model does not parse: the
    session goes to failed with a message, and no card is stored. *)
Example answer_not_parsed :
  let w' := snd (POST answer_does_not_parse (elephant_request 7) empty_store) in
  map (fun s => (Session.status s, Session.error_message s))
      (generation_sessions w')
  = [(failed, Some "Failed to parse AI response")]
  /\ flash_cards w' = []
  /\ image_calls w' = 0%nat.
Proof. vm_compute. repeat split. Qed.

(** A computation settles somehow. *)
Lemma triple_any {A} (P : World -> Prop) (m : Async A) :
  triple P m (fun _ _ => True) (fun _ _ => True).
Proof. intros w _. destruct (m w) as [[a | e] w']; exact I. Qed.

(** The update to failed records the failure on the rows it selects. *)
Lemma set_failed_records sid e now w :
  failure_recorded sid e
    (snd (update_session sid (set_failed (message e) now) w)).
Proof.
  intros s Hs. apply updated_rows in Hs; [| reflexivity].
  destruct Hs as [s0 [_ ->]]. cbn. auto.
Qed.

(** What the handler of the detached promise makes of a rejection. *)
Lemma detached_after_rejection env sid data uid w w1 e :
  generateCardAsync env sid data uid w = (Rejected e, w1) ->
  snd (detached env sid data uid w)
  = match store_fault env UpdateFailedDetached with
    | Healthy =>
        snd (update_session sid (set_failed (message e) (clock w1)) w1)
    | _ => w1
    end.
Proof.
  intros Hrej. unfold detached, try_catch. rewrite Hrej.
  unfold bind, new_Date, statement, supabase.
  destruct (store_fault env UpdateFailedDetached); reflexivity.
Qed.

(** The catch block of the pipeline records the failure it rethrows,
    when the store runs its update. *)
Lemma catch_block_records env sid data uid w w1 e :
  falsy_string (OPENAI_API_KEY env) = false ->
  store_fault env UpdateFailed = Healthy ->
  generateCardAsync env sid data uid w = (Rejected e, w1) ->
  failure_recorded sid e w1.
Proof.
  intros Hkey Hfault Hrej.
  assert (T : triple (fun _ => True) (generateCardAsync env sid data uid)
                     (fun _ _ => True)
                     (fun e0 w0 => failure_recorded sid e0 w0)).
  { unfold generateCardAsync.
    apply triple_bind with (R := fun _ _ => True).
    { unfold OpenAIService_new. rewrite Hkey. apply triple_ret. auto. }
    intros _.
    apply triple_try_catch with (E' := fun _ _ => True); [apply triple_any |].
    intros err.
    apply triple_bind with (R := fun _ _ => True).
    { intros w0 _. exact I. }
    intros now.
    apply triple_bind with (R := fun _ w0 => failure_recorded sid err w0).
    - intros w0 _. rewrite statement_healthy by exact Hfault.
      apply set_failed_records.
    - intros _. apply triple_throw. auto. }
  specialize (T w I). rewrite Hrej in T. exact T.
Qed.

(** A run of the pipeline that rejects without the update of its catch
    block leaves the sessions as they were, or processing. *)
Lemma rejected_at_most_processing env sid data uid w w1 e :
  falsy_string (OPENAI_API_KEY env) = true
  \/ store_fault env UpdateFailed <> Healthy ->
  generateCardAsync env sid data uid w = (Rejected e, w1) ->
  at_most_processing sid w w1.
Proof.
  intros Hnot Hrej.
  set (Q := at_most_processing sid w).
  assert (Q0 : Q w). { intros s Hs. left. exact Hs. }
  assert (Qlog : log_blind Q). { intros w0 c H0. exact H0. }
  assert (T : triple (fun w0 => w0 = w) (generateCardAsync env sid data uid)
                     (fun _ _ => True) (fun _ => Q)).
  { unfold generateCardAsync.
    destruct (falsy_string (OPENAI_API_KEY env)) eqn:Hkey.
    { apply triple_bind with (R := fun _ _ => False);
        [| intros _ w0 []].
      unfold OpenAIService_new. rewrite Hkey.
      apply triple_throw. intros w0 ->. exact Q0. }
    assert (Hfault : store_fault env UpdateFailed <> Healthy).
    { destruct Hnot as [H | H]; [discriminate | exact H]. }
    apply triple_bind with (R := fun _ w0 => w0 = w).
    { unfold OpenAIService_new. rewrite Hkey. apply triple_ret. auto. }
    intros _.
    apply triple_try_catch with (E' := fun _ => Q).
    2:{ intros err.
        apply triple_bind with (R := fun _ => Q); [apply stable_new_Date |].
        intros now.
        apply triple_bind with (R := fun _ => Q);
          [| intros _; apply triple_throw; auto].
        intros w0 H0. unfold statement, supabase.
        destruct (store_fault env UpdateFailed);
          [contradiction Hfault; reflexivity | exact H0 | exact H0]. }
    apply triple_bind with (R := fun _ => Q).
    { unfold statement. apply triple_supabase.
      - intros w0 ->. intros s Hs. right.
        exact (@updated_rows sid set_processing w s (fun _ => eq_refl) Hs).
      - intros m w0 ->. exact Q0.
      - intros m w0 ->. exact Q0. }
    intros _.
    apply triple_bind with (R := fun _ => Q).
    { apply stable_generateCardContent. exact Qlog. }
    intros cardContent.
    apply triple_bind with (R := fun _ => Q).
    { apply stable_statement. intros w0 H0. exact H0. }
    intros inserted.
    apply triple_bind with (R := fun _ => Q).
    { destruct inserted; [apply stable_ret | apply stable_throw]. }
    intros card.
    apply triple_bind with (R := fun _ => Q).
    { destruct (0 <? _); [| apply stable_ret].
      apply stable_bind; [| intros _; apply stable_ret].
      apply stable_statement. intros w0 H0. exact H0. }
    intros _.
    apply triple_bind with (R := fun _ => Q); [apply stable_new_Date |].
    intros now.
    apply triple_bind with (R := fun _ _ => True).
    { unfold statement. apply triple_supabase; auto. }
    intros _. unfold updateUserUsage.
    apply triple_try_catch with (E' := fun _ _ => True);
      [apply triple_any | intros err; apply triple_ret; auto]. }
  specialize (T w eq_refl). rewrite Hrej in T. exact T.
Qed.

(** C2, amended to what the code does.  When an exception escapes the
    pipeline, two updates are there to mark the session failed, with the
    message of the exception and the completion timestamp: the one of
    the catch block of the pipeline, reached when the API key is set,
    and the one of the handler of the detached promise.  The session
    ends failed with that message when the store runs either of them.
    When the store does not run the update of the handler, the handler
    changes nothing; when it runs neither, the session is left as it
    was, or processing.  In every case the pipeline never writes
    [retry_count], which keeps the value it had in every row (so it
    stays within its bound of 3), and text generation is entered at most
    once per session: the pipeline is not run again. *)
Theorem C2_failure_recorded_without_retry
  (env : Env) (sid : Uuid) (data : GenerateCard.t) (uid : Uuid)
  (w w1 : World) (e : Exn) :
  generateCardAsync env sid data uid w = (Rejected e, w1) ->
  let w' := snd (detached env sid data uid w) in
  (store_fault env UpdateFailedDetached = Healthy ->
   forall s, In s (sessions_with_id sid w') ->
             Session.status s = failed
             /\ Session.error_message s = Some (message e)
             /\ is_set (Session.completed_at s) = true)
  /\ (falsy_string (OPENAI_API_KEY env) = false ->
      store_fault env UpdateFailed = Healthy ->
      failure_recorded sid e w')
  /\ (store_fault env UpdateFailedDetached <> Healthy -> w' = w1)
  /\ (store_fault env UpdateFailedDetached <> Healthy ->
      falsy_string (OPENAI_API_KEY env) = true
      \/ store_fault env UpdateFailed <> Healthy ->
      at_most_processing sid w w')
  /\ map Session.id (generation_sessions w')
     = map Session.id (generation_sessions w)
  /\ map Session.retry_count (generation_sessions w')
     = map Session.retry_count (generation_sessions w)
  /\ (Forall (fun s => Session.retry_count s <= 3) (generation_sessions w) ->
      Forall (fun s => Session.retry_count s <= 3) (generation_sessions w'))
  /\ (chat_calls w' <= chat_calls w + 1)%nat.
Proof.
  intros Hrej w'.
  assert (Hw' : w' = match store_fault env UpdateFailedDetached with
                     | Healthy =>
                         snd (update_session sid
                                (set_failed (message e) (clock w1)) w1)
                     | _ => w1
                     end).
  { apply detached_after_rejection. exact Hrej. }
  assert (Hcol : map Session.retry_count (generation_sessions w')
                 = map Session.retry_count (generation_sessions w)).
  { apply detached_keeps_column; reflexivity. }
  assert (Hrec : store_fault env UpdateFailedDetached = Healthy ->
                 failure_recorded sid e w').
  { intros Hfault. rewrite Hw', Hfault. apply set_failed_records. }
  assert (Hsame : store_fault env UpdateFailedDetached <> Healthy -> w' = w1).
  { intros Hfault. rewrite Hw'.
    destruct (store_fault env UpdateFailedDetached);
      [contradiction Hfault; reflexivity | reflexivity | reflexivity]. }
  split; [exact Hrec |].
  split.
  { intros Hkey Hfault.
    destruct (store_fault env UpdateFailedDetached) eqn:Hd;
      [apply Hrec; reflexivity | |];
      (rewrite Hsame by discriminate;
       apply (@catch_block_records env sid data uid w w1 e Hkey Hfault Hrej)). }
  split; [exact Hsame |].
  split.
  { intros Hfault Hnot. rewrite (Hsame Hfault).
    apply (@rejected_at_most_processing env sid data uid w w1 e Hnot Hrej). }
  split; [apply detached_keeps_column; reflexivity |].
  split; [exact Hcol |].
  split; [| apply detached_chat_calls].
  intros Hbound. rewrite Forall_forall in *.
  intros s Hs.
  assert (Hin : In (Session.retry_count s)
                   (map Session.retry_count (generation_sessions w'))).
  { apply in_map. exact Hs. }
  rewrite Hcol in Hin. apply in_map_iff in Hin.
  destruct Hin as [s0 [Heq Hs0]]. rewrite <- Heq. apply Hbound. exact Hs0.
Qed.

Lemma C2_witness :
  let e := Error_new "Failed to save card: null value in column" in
  let w1 := snd (generateCardAsync card_insert_refused 100 elephant_data 7
                                   elephant_pending) in
  let w' := snd (detached card_insert_refused 100 elephant_data 7
                          elephant_pending) in
  generateCardAsync card_insert_refused 100 elephant_data 7 elephant_pending
  = (Rejected e, w1)
  /\ store_fault card_insert_refused UpdateFailedDetached = Healthy
  /\ (forall s, In s (sessions_with_id 100 w') ->
                Session.status s = failed
                /\ Session.error_message s = Some (message e)
                /\ is_set (Session.completed_at s) = true).
Proof.
  intros e w1 w'.
  assert (H1 : generateCardAsync card_insert_refused 100 elephant_data 7
                                 elephant_pending = (Rejected e, w1)).
  { vm_compute. reflexivity. }
  assert (H2 : store_fault card_insert_refused UpdateFailedDetached = Healthy).
  { reflexivity. }
  split; [exact H1 | split; [exact H2 |]].
  exact (proj1 (@C2_failure_recorded_without_retry
                  card_insert_refused 100 elephant_data 7
                  elephant_pending w1 e H1) H2).
Defined.

(** The sample run in which the store refuses the insertion of the card
    and both updates to failed: the exception escapes the pipeline and
    the session stays processing, with no message. *)
Example failure_left_unrecorded :
  let w' := snd (POST failure_not_stored (elephant_request 7) empty_store) in
  fst (generateCardAsync failure_not_stored 100 elephant_data 7
                         elephant_pending)
  = Rejected (Error_new "Failed to save card: null value in column")
  /\ map (fun s => (Session.status s, Session.error_message s,
                    Session.retry_count s))
         (sessions_with_id 100 w')
     = [(processing, None, 0)].
Proof. vm_compute. repeat split. Qed.

(** C2 as the specification states it does not hold: the insertion of
    the card is refused, the exception escapes the pipeline and the
    session ends failed, yet its [retry_count] is still 0 and text
    generation ran once. *)
Lemma C2_retry_count_not_incremented :
  let w' := snd (POST card_insert_refused (elephant_request 7) empty_store) in
  fst (generateCardAsync card_insert_refused 100 elephant_data 7
                         elephant_pending)
  = Rejected (Error_new "Failed to save card: null value in column")
  /\ map (fun s => (Session.status s, Session.retry_count s))
         (sessions_with_id 100 w') = [(failed, 0)]
  /\ chat_calls w' = 1%nat
  /\ ~ failure_counted 100 w'.
Proof.
  intros w'. split; [vm_compute; reflexivity |].
  split; [vm_compute; reflexivity |].
  split; [vm_compute; reflexivity |].
  intros H.
  assert (Hs : exists s, In s (sessions_with_id 100 w')
                         /\ Session.status s = failed
                         /\ Session.retry_count s = 0).
  { eexists. split; [vm_compute; left; reflexivity |]. split; reflexivity. }
  destruct Hs as [s [Hin [Hst Hrc]]].
  specialize (H s Hin Hst). lia.
Qed.

(* ================================================================== *)
(** * 17. Scene images that fail *)
(* ================================================================== *)

(** The sessions do not depend on image generation: two runs of the
    background promise that differ only in the replies to the image
    requests leave the same sessions, with the same journal.  So no
    failure of an image request changes the status a session ends with,
    whatever else happens in the run. *)
Lemma sessions_do_not_depend_on_images
  (env env' : Env) (sid : Uuid) (data : GenerateCard.t) (uid : Uuid) (w : World) :
  same_but_images env env' ->
  generation_sessions (snd (detached env sid data uid w))
  = generation_sessions (snd (detached env' sid data uid w))
  /\ session_writes (snd (detached env sid data uid w))
     = session_writes (snd (detached env' sid data uid w)).
Proof.
  intros Hsame.
  pose proof (related_detached Hsame sid data uid (same_but_cards_refl w)) as H.
  destruct (detached env sid data uid w) as [[a | e] w1],
           (detached env' sid data uid w) as [[a' | e'] w1'];
    try contradiction;
    destruct H as [_ [_ [Hs [_ [_ [_ [_ Hj]]]]]]]; split; assumption.
Qed.

(** C3. In every run of the pipeline in which text generation returns,
    moderation passes and the store runs the statements of the pipeline,
    and whichever of the image requests fail: the pipeline resolves, an
    image is requested for every scene in order, the card is stored with
    all its scenes, a scene whose image request failed being stored with
    the empty [image_url], and the session ends completed.  Nothing is
    assumed of the image requests, so no failure of theirs makes the
    session fail. *)
Theorem C3_image_failures_do_not_fail_the_session
  (env : Env) (sid : Uuid) (data : GenerateCard.t) (uid : Uuid)
  (parsed : TextContent.t) (raw : list RawScene.t) (usage : option float)
  (w : World) :
  falsy_string (OPENAI_API_KEY env) = false ->
  store_runs env [UpdateProcessing; InsertCard; InsertScenes; UpdateCompleted] ->
  text_generated env data parsed raw usage ->
  moderation_passes env (moderated_text raw) ->
  let w' := snd (generateCardAsync env sid data uid w) in
  let log := log_before_images data raw w in
  let params := GenerateCard.generation_params data in
  let card := generated_card env sid data uid parsed raw usage w in
  fst (generateCardAsync env sid data uid w) = Resolved tt
  /\ map Session.id (generation_sessions w')
     = map Session.id (generation_sessions w)
  /\ (forall s, In s (sessions_with_id sid w') ->
                Session.status s = completed)
  /\ api_calls w' = (log ++ map (image_call params) raw)%list
  /\ flash_cards w' = (flash_cards w ++ [card])%list
  /\ card_scenes w'
     = (card_scenes w
        ++ sceneData (FlashCard.id card) 0 (next_uuid w + 1)
                     (scenes (FlashCard.content card)))%list
  /\ (forall i scene,
        nth_error raw i = Some scene ->
        exists stored,
          nth_error (scenes (FlashCard.content card)) i = Some stored
          /\ Scene.id stored = RawScene.id scene
          /\ Scene.description stored = RawScene.description scene
          /\ Scene.image_prompt stored = RawScene.image_prompt scene
          /\ (image_failed env
                (log ++ map (image_call params) (firstn i raw)) params scene
              = true ->
              Scene.image_url stored = "")).
Proof.
  intros Hkey Hstore Htext Hmod w' log params card.
  subst w'. rewrite (generateCardAsync_run sid uid w Hkey Hstore Htext Hmod).
  destruct (updateUserUsage_run env uid
              (costs (generated env data parsed raw usage
                                (log_before_images data raw w)))
              (completed_run env sid data uid parsed raw usage w))
    as [Hres [Hsess [Hcards [Hscenes Hcalls]]]].
  split; [exact Hres |].
  split.
  { rewrite Hsess. unfold completed_run. cbn zeta.
    rewrite update_keeps_column by reflexivity.
    destruct (0 <? Z.of_nat (List.length raw)); cbn [snd insert_scenes insert_card
      generation_sessions with_api_calls];
      rewrite update_keeps_column by reflexivity; reflexivity. }
  split.
  { intros s Hs. unfold sessions_with_id in Hs. rewrite Hsess in Hs.
    unfold completed_run in Hs. cbn zeta in Hs.
    apply (updated_rows sid) in Hs; [| reflexivity].
    destruct Hs as [s0 [_ ->]]. reflexivity. }
  split.
  { rewrite Hcalls. unfold completed_run. cbn zeta.
    destruct (0 <? Z.of_nat (List.length raw)); reflexivity. }
  split.
  { rewrite Hcards. unfold completed_run. cbn zeta.
    destruct (0 <? Z.of_nat (List.length raw)); reflexivity. }
  split.
  { rewrite Hscenes. unfold completed_run. cbn zeta.
    destruct (0 <? Z.of_nat (List.length raw)) eqn:E.
    - reflexivity.
    - destruct raw; [cbn; rewrite app_nil_r; reflexivity |].
      cbn [List.length] in E. apply Z.ltb_ge in E. lia. }
  intros i scene Hi. eexists. split.
  { unfold card, generated_card, generated. cbn [FlashCard.content scenes].
    apply scene_images_nth. exact Hi. }
  cbn [Scene.id Scene.description Scene.image_prompt Scene.image_url].
  repeat split. apply image_failed_empty.
Qed.

Lemma C3_witness :
  falsy_string (OPENAI_API_KEY second_image_fails) = false
  /\ store_runs second_image_fails
                [UpdateProcessing; InsertCard; InsertScenes; UpdateCompleted]
  /\ text_generated second_image_fails elephant_data elephant_content
       [elephant_scene "1"; elephant_scene "2";
        elephant_scene "3"; elephant_scene "4"] (Some 1000%float)
  /\ moderation_passes second_image_fails
       (moderated_text [elephant_scene "1"; elephant_scene "2";
                        elephant_scene "3"; elephant_scene "4"])
  /\ (forall s,
        In s (sessions_with_id 100
                (snd (generateCardAsync second_image_fails 100 elephant_data 7
                                        elephant_pending))) ->
        Session.status s = completed).
Proof.
  assert (H1 : falsy_string (OPENAI_API_KEY second_image_fails) = false)
    by reflexivity.
  assert (H2 : store_runs second_image_fails
                 [UpdateProcessing; InsertCard; InsertScenes; UpdateCompleted])
    by (intros op _; reflexivity).
  assert (H3 : text_generated second_image_fails elephant_data elephant_content
                 [elephant_scene "1"; elephant_scene "2";
                  elephant_scene "3"; elephant_scene "4"] (Some 1000%float)).
  { exists "{...}". repeat split. }
  assert (H4 : moderation_passes second_image_fails
                 (moderated_text [elephant_scene "1"; elephant_scene "2";
                                  elephant_scene "3"; elephant_scene "4"]))
    by reflexivity.
  split; [exact H1 | split; [exact H2 | split; [exact H3 | split; [exact H4 |]]]].
  exact (proj1 (proj2 (proj2
           (@C3_image_failures_do_not_fail_the_session
              second_image_fails 100 elephant_data 7 elephant_content _ _
              elephant_pending H1 H2 H3 H4)))).
Defined.

(** The sample run in which the second of four image requests fails:
    the session is completed and the card has three scenes with an image
    and one, the second, without. *)
Example one_image_of_four_fails :
  let w' := snd (POST second_image_fails (elephant_request 7) empty_store) in
  map Session.status (generation_sessions w') = [completed]
  /\ map (fun c => map (fun s => String.eqb (Scene.image_url s) "")
                       (scenes (FlashCard.content c)))
         (flash_cards w')
     = [[false; true; false; false]]
  /\ map (fun sc => (CardScene.scene_order sc,
                     String.eqb (CardScene.image_url sc) ""))
         (card_scenes w')
     = [(1, false); (2, true); (3, false); (4, false)]
  /\ image_calls w' = 4%nat.
Proof. vm_compute. repeat split. Qed.

(* ================================================================== *)
(** * 18. Content that moderation flags *)
(* ================================================================== *)

Lemma image_calls_after_text data raw w log :
  log = (api_calls w ++ [chat_call data; moderation_call raw])%list ->
  List.length (filter is_image_call log) = image_calls w.
Proof.
  intros ->. unfold image_calls. rewrite filter_app, length_app. cbn. lia.
Qed.

(** C4. In every run of the pipeline in which text generation returns,
    moderation flags the concatenated scene descriptions and the store
    runs the two session updates: the pipeline throws, the session is
    marked failed with the message "Content policy violation: " followed
    by the flagged categories, no image generation request is issued and
    no flash card or scene is stored; the handler of the detached
    promise leaves all of this as it is. *)
Theorem C4_flagged_content_fails_the_session
  (env : Env) (sid : Uuid) (data : GenerateCard.t) (uid : Uuid)
  (parsed : TextContent.t) (raw : list RawScene.t) (usage : option float)
  (result : ModerationResult) (w : World) :
  falsy_string (OPENAI_API_KEY env) = false ->
  store_runs env [UpdateProcessing; UpdateFailed] ->
  text_generated env data parsed raw usage ->
  moderation_flagged env (moderated_text raw) result ->
  let violation :=
    "Content policy violation: "
      ++ join ", " (map fst (filter (fun entry => snd entry)
                                    (categories result))) in
  let settled (w' : World) :=
    map Session.id (generation_sessions w')
    = map Session.id (generation_sessions w)
    /\ (forall s, In s (sessions_with_id sid w') ->
                  Session.status s = failed
                  /\ Session.error_message s = Some violation
                  /\ Session.completed_at s = Some (clock w))
    /\ api_calls w' = (api_calls w ++ [chat_call data; moderation_call raw])%list
    /\ image_calls w' = image_calls w
    /\ flash_cards w' = flash_cards w
    /\ card_scenes w' = card_scenes w in
  fst (generateCardAsync env sid data uid w) = Rejected (Error_new violation)
  /\ settled (snd (generateCardAsync env sid data uid w))
  /\ settled (snd (detached env sid data uid w)).
Proof.
  intros Hkey Hstore Htext Hmod violation settled.
  pose proof (generateCardAsync_flagged sid uid w Hkey Hstore Htext Hmod) as Hrun.
  fold (policy_violation_message result) in violation.
  set (w1 := snd (update_session sid
                    (set_failed (policy_violation_message result) (clock w))
                    (with_api_calls
                       (snd (update_session sid set_processing w))
                       (log_before_images data raw w)))) in *.
  assert (S1 : settled w1).
  { unfold settled, w1. split; [| split; [| split; [| split; [| split]]]].
    - rewrite update_keeps_column by reflexivity.
      cbn [generation_sessions with_api_calls].
      rewrite update_keeps_column by reflexivity. reflexivity.
    - intros s Hs. apply (updated_rows sid) in Hs; [| reflexivity].
      destruct Hs as [s0 [_ ->]]. cbn. auto.
    - reflexivity.
    - cbn [api_calls snd update_session with_api_calls].
      apply (image_calls_after_text data raw w). reflexivity.
    - reflexivity.
    - reflexivity. }
  rewrite Hrun. split; [reflexivity |]. split; [exact S1 |].
  unfold detached, try_catch. rewrite Hrun.
  unfold try_catch, bind, new_Date, statement, supabase.
  destruct (store_fault env UpdateFailedDetached); cbn [fst snd ret]; try exact S1.
  destruct S1 as [Hid [Hrows [Hlog [Himg [Hcards Hscenes]]]]].
  unfold settled. split; [| split; [| split; [| split; [| split]]]].
  - cbn [snd]. rewrite <- Hid.
    apply (update_keeps_column Session.id sid
             (set_failed (message (Error_new (policy_violation_message result)))
                         (clock w1)) w1).
    reflexivity.
  - intros s Hs.
    apply (updated_rows sid
             (set_failed (message (Error_new (policy_violation_message result)))
                         (clock w1)) w1) in Hs; [| reflexivity].
    destruct Hs as [s0 [_ ->]]. cbn. auto.
  - exact Hlog.
  - exact Himg.
  - exact Hcards.
  - exact Hscenes.
Qed.

Lemma C4_witness :
  let raw := [elephant_scene "1"; elephant_scene "2";
              elephant_scene "3"; elephant_scene "4"] in
  let result := mkModeration true
                  [("hate", true); ("sexual", false); ("violence", true)] in
  falsy_string (OPENAI_API_KEY moderation_flags) = false
  /\ store_runs moderation_flags [UpdateProcessing; UpdateFailed]
  /\ text_generated moderation_flags elephant_data elephant_content raw
                    (Some 1000%float)
  /\ moderation_flagged moderation_flags (moderated_text raw) result
  /\ fst (generateCardAsync moderation_flags 100 elephant_data 7 elephant_pending)
     = Rejected (Error_new "Content policy violation: hate, violence").
Proof.
  intros raw result.
  assert (H1 : falsy_string (OPENAI_API_KEY moderation_flags) = false)
    by reflexivity.
  assert (H2 : store_runs moderation_flags [UpdateProcessing; UpdateFailed])
    by (intros op _; reflexivity).
  assert (H3 : text_generated moderation_flags elephant_data elephant_content
                 raw (Some 1000%float)).
  { exists "{...}". repeat split. }
  assert (H4 : moderation_flagged moderation_flags (moderated_text raw) result).
  { split; reflexivity. }
  split; [exact H1 | split; [exact H2 | split; [exact H3 | split; [exact H4 |]]]].
  exact (proj1 (@C4_flagged_content_fails_the_session
                  moderation_flags 100 elephant_data 7 elephant_content raw
                  (Some 1000%float) result elephant_pending H1 H2 H3 H4)).
Defined.

(** The sample run in which moderation flags the text. *)
Example flagged_run :
  let w' := snd (POST moderation_flags (elephant_request 7) empty_store) in
  map (fun s => (Session.status s, Session.error_message s, Session.retry_count s))
      (generation_sessions w')
  = [(failed, Some "Content policy violation: hate, violence", 0)]
  /\ flash_cards w' = []
  /\ image_calls w' = 0%nat.
Proof. vm_compute. repeat split. Qed.

(* ================================================================== *)
(** * 19. Costs *)
(* ================================================================== *)

(** Whatever the image requests did, [image_generations] is the number
    of scenes. *)
Lemma image_generations_counts_every_scene
  (env : Env) (data : GenerateCard.t) (parsed : TextContent.t)
  (raw : list RawScene.t) (usage : option float) (log : list ApiCall) :
  image_generations (costs (generated env data parsed raw usage log))
  = List.length raw.
Proof. reflexivity. Qed.

(** C5 does not hold of the code.  In the sample run the second of the
    four image requests throws, so three images are generated; the
    completed session is billed for four: [image_generations] is 4 and
    the total is the cost of the text and four images, 0.205, where
    three images would give 0.165. *)
Theorem C5_failed_scene_is_billed :
  let w' := snd (POST second_image_fails (elephant_request 7) empty_store) in
  map Session.status (generation_sessions w') = [completed]
  /\ map (fun c => images_generated (scenes (FlashCard.content c)))
         (flash_cards w') = [3%nat]
  /\ map (fun s => image_generations (Session.ai_costs s))
         (generation_sessions w') = [4%nat]
  /\ map (fun s => total_cost_usd (Session.ai_costs s)) (generation_sessions w')
     = [total_cost_usd (calculateCosts 1000 4)]
  /\ total_cost_usd (calculateCosts 1000 4) = 0.205%float
  /\ total_cost_usd (calculateCosts 1000 3) = 0.165%float.
Proof. vm_compute. repeat split. Qed.

(* ================================================================== *)
(** * 20. The quota gate *)
(* ================================================================== *)

(** No count reaches an undefined limit, and a count of zero reaches no
    limit of the table. *)
Lemma ge_undefined_none n : ge_undefined n None = false.
Proof. reflexivity. Qed.

Lemma zero_below_every_limit tier : ge_undefined 0 (quotaLimits tier) = false.
Proof. destruct tier; reflexivity. Qed.

(** The instants of a UTC day. *)
Lemma utc_day_spec t day :
  utc_day t = day <-> day * msPerDay <= t < (day + 1) * msPerDay.
Proof.
  unfold utc_day, msPerDay. split.
  - intros <-. pose proof (Z.mod_pos_bound t 86400000 eq_refl).
    pose proof (Z.div_mod t 86400000). lia.
  - intros H. symmetry. apply (Z.div_unique t 86400000 day (t - day * 86400000)); lia.
Qed.

(** The sessions the quota query counts were created today. *)
Lemma counted_sessions_are_todays uid w :
  let today := utc_day (clock w) in
  count_sessions uid (T00_00_00_000Z today) (T23_59_59_999Z today) w
  <= Z.of_nat (List.length (created_today uid (clock w) w)).
Proof.
  cbn zeta. unfold count_sessions, created_today.
  apply inj_le.
  induction (generation_sessions w) as [| s rest IH]; [apply le_n |].
  cbn [filter].
  destruct (Session.user_id s =? uid); cbn [andb]; [| exact IH].
  destruct ((T00_00_00_000Z (utc_day (clock w)) <=? Session.created_at s)
            && (Session.created_at s <? T23_59_59_999Z (utc_day (clock w))))%bool
    eqn:E.
  - apply andb_prop in E. destruct E as [Elo Ehi].
    apply Z.leb_le in Elo. apply Z.ltb_lt in Ehi.
    unfold T00_00_00_000Z, T23_59_59_999Z in *.
    assert (Hday : utc_day (Session.created_at s) = utc_day (clock w)).
    { apply utc_day_spec. unfold msPerDay in *. lia. }
    rewrite Hday, Z.eqb_refl. cbn [List.length]. lia.
  - destruct (utc_day (Session.created_at s) =? utc_day (clock w));
      cbn [List.length]; lia.
Qed.

Section Quota.

Variable env : Env.

(** The decision of the gate when the store answers both lookups. *)
Lemma checkUserQuota_run uid w :
  store_runs env [SelectUserTier; CountSessionsToday] ->
  let today := utc_day (clock w) in
  let todayCount :=
    count_sessions uid (T00_00_00_000Z today) (T23_59_59_999Z today) w in
  checkUserQuota env uid w
  = (Resolved
       (if ge_undefined todayCount (daily_limit_of uid w)
        then mkQuotaCheck false
               (Some (limit_reached_message (daily_limit_of uid w)))
        else mkQuotaCheck true None),
     w).
Proof.
  intros Hstore. cbn zeta.
  unfold checkUserQuota, try_catch. unfold bind at 1.
  rewrite query_healthy by (apply Hstore; cbn; auto).
  unfold bind at 1. unfold new_Date at 1. unfold bind at 1.
  rewrite statement_healthy by (apply Hstore; cbn; auto).
  cbn [fst snd count_or_zero]. unfold daily_limit_of.
  destruct (ge_undefined _ _); reflexivity.
Qed.

(** The gate fails open: when the count of today's sessions does not
    come back, the check allows the request. *)
Lemma checkUserQuota_fails_open uid w :
  store_fault env CountSessionsToday <> Healthy ->
  checkUserQuota env uid w = (Resolved (mkQuotaCheck true None), w).
Proof.
  intros Hcount.
  unfold checkUserQuota, try_catch, bind, query, statement, supabase, new_Date.
  destruct (store_fault env SelectUserTier);
    destruct (store_fault env CountSessionsToday);
    try contradiction; try reflexivity;
    cbn [ret count_or_zero]; rewrite zero_below_every_limit; reflexivity.
Qed.

(** A user whose tier has no limit is always allowed. *)
Lemma checkUserQuota_no_limit uid w :
  store_fault env SelectUserTier = Healthy ->
  daily_limit_of uid w = None ->
  checkUserQuota env uid w = (Resolved (mkQuotaCheck true None), w).
Proof.
  intros Hselect Hnone.
  unfold checkUserQuota, try_catch. unfold bind at 1.
  rewrite query_healthy by exact Hselect.
  unfold daily_limit_of in Hnone. rewrite Hnone.
  unfold bind, statement, supabase, new_Date.
  destruct (store_fault env CountSessionsToday); reflexivity.
Qed.

(** The route once the gate has let the request through. *)
Lemma POST_admitted request data uid w :
  GenerateCardSchema_parse (body request) = Some data ->
  auth_user request = Some uid ->
  checkUserQuota env uid w = (Resolved (mkQuotaCheck true None), w) ->
  let inserted :=
    insert_session uid (GenerateCard.input_prompt data)
                   (generation_type_of (GenerateCard.card_type data)) w in
  POST env request w
  = match store_fault env InsertSession with
    | Healthy =>
        (Resolved (JsonSession (fst inserted)),
         snd (detached env (next_uuid w) data uid (snd inserted)))
    | _ =>
        (Resolved (JsonError 500 "INTERNAL_SERVER_ERROR"
                             "An unexpected error occurred"), w)
    end.
Proof.
  intros Hparse Hauth Hquota. cbn zeta.
  unfold POST, try_catch. unfold bind at 1.
  unfold validateRequest. rewrite Hparse, Hauth. cbn [ret fst snd].
  unfold bind at 1. rewrite Hquota. cbn [allowed negb].
  unfold bind at 1. cbn [ret].
  unfold bind at 1. unfold statement, supabase.
  destruct (store_fault env InsertSession); reflexivity.
Qed.

(** The route when the gate rejects the request: QUOTA_EXCEEDED, and the
    store is as it was. *)
Lemma POST_rejected request data uid w msg :
  GenerateCardSchema_parse (body request) = Some data ->
  auth_user request = Some uid ->
  checkUserQuota env uid w = (Resolved (mkQuotaCheck false (Some msg)), w) ->
  POST env request w = (Resolved (JsonError 429 "QUOTA_EXCEEDED" msg), w).
Proof.
  intros Hparse Hauth Hquota.
  unfold POST, try_catch. unfold bind at 1.
  unfold validateRequest. rewrite Hparse, Hauth. cbn [ret fst snd].
  unfold bind at 1. rewrite Hquota. reflexivity.
Qed.

(** At the limit, counted in the window of the query, the request is
    rejected and nothing is stored. *)
Lemma quota_reached request data uid w limit :
  store_runs env [SelectUserTier; CountSessionsToday] ->
  GenerateCardSchema_parse (body request) = Some data ->
  auth_user request = Some uid ->
  daily_limit_of uid w = Some limit ->
  let today := utc_day (clock w) in
  limit <= count_sessions uid (T00_00_00_000Z today) (T23_59_59_999Z today) w ->
  POST env request w
  = (Resolved (JsonError 429 "QUOTA_EXCEEDED"
                 (limit_reached_message (Some limit))), w).
Proof.
  intros Hstore Hparse Hauth Hlimit today Hcount.
  apply POST_rejected with (data := data) (uid := uid); try assumption.
  rewrite checkUserQuota_run by exact Hstore. rewrite Hlimit.
  cbn [ge_undefined]. fold today.
  apply Z.leb_le in Hcount. rewrite Hcount. reflexivity.
Qed.

(** Below the limit, counted over the whole day, the gate lets the
    request through. *)
Lemma quota_not_reached uid w limit :
  store_runs env [SelectUserTier; CountSessionsToday] ->
  daily_limit_of uid w = Some limit ->
  Z.of_nat (List.length (created_today uid (clock w) w)) <= limit - 1 ->
  checkUserQuota env uid w = (Resolved (mkQuotaCheck true None), w).
Proof.
  intros Hstore Hlimit Hcount.
  rewrite checkUserQuota_run by exact Hstore. rewrite Hlimit.
  cbn [ge_undefined].
  pose proof (counted_sessions_are_todays uid w) as Hle. cbn zeta in Hle.
  destruct (limit <=? _) eqn:E; [| reflexivity].
  apply Z.leb_le in E. lia.
Qed.

End Quota.

(** The boundary in the sample store, away from midnight: the sixth
    request of the day of a free user is rejected and nothing is stored;
    the fifth creates a pending session. *)
Example sixth_request_of_the_day :
  POST all_well (elephant_request 7) five_sessions_this_morning
  = (Resolved (JsonError 429 "QUOTA_EXCEEDED"
       "Daily limit of 5 cards reached. Upgrade to generate more cards."),
     five_sessions_this_morning).
Proof. vm_compute. reflexivity. Qed.

Example fifth_request_of_the_day :
  let run := POST all_well (elephant_request 7) four_sessions_this_morning in
  (exists s, fst run = Resolved (JsonSession s) /\ Session.status s = pending)
  /\ List.length (generation_sessions (snd run)) = 5%nat.
Proof. split; [eexists; split |]; vm_compute; reflexivity. Qed.

(** C6 does not hold of the code at the end of the day.  The free user
    (limit 5) has created exactly five sessions during the current UTC
    day, the last of them in the last millisecond of the day.  The query
    of the quota check counts the sessions created before 23:59:59.999,
    so it finds four: a request made in that same millisecond is let
    through and a sixth session is created, where QUOTA_EXCEEDED was
    due. *)
Theorem C6_session_of_the_last_millisecond_is_not_counted :
  let w := five_sessions_at_midnight in
  let today := utc_day (clock w) in
  let run := POST all_well (elephant_request 7) w in
  daily_limit_of 7 w = Some 5
  /\ List.length (created_today 7 (clock w) w) = 5%nat
  /\ count_sessions 7 (T00_00_00_000Z today) (T23_59_59_999Z today) w = 4
  /\ fst (checkUserQuota all_well 7 w) = Resolved (mkQuotaCheck true None)
  /\ (exists s, fst run = Resolved (JsonSession s)
                /\ Session.status s = pending
                /\ Session.user_id s = 7)
  /\ List.length (created_today 7 (clock w) (snd run)) = 6%nat.
Proof.
  cbn zeta.
  split; [vm_compute; reflexivity |].
  split; [vm_compute; reflexivity |].
  split; [vm_compute; reflexivity |].
  split; [vm_compute; reflexivity |].
  split; [eexists; split; [| split]; vm_compute; reflexivity |].
  vm_compute; reflexivity.
Qed.

(** C7. When the lookup that counts today's sessions raises an error (or
    comes back with an error object), the quota check allows the
    request; the route is then past the gate: it is never answered with
    QUOTA_EXCEEDED and, the store running the insertion, it answers with
    the new pending session, which is in the store. *)
Theorem C7_quota_gate_fails_open
  (env : Env) (request : Request) (data : GenerateCard.t) (uid : Uuid)
  (w : World) :
  store_fault env CountSessionsToday <> Healthy ->
  GenerateCardSchema_parse (body request) = Some data ->
  auth_user request = Some uid ->
  let session :=
    fst (insert_session uid (GenerateCard.input_prompt data)
           (generation_type_of (GenerateCard.card_type data)) w) in
  checkUserQuota env uid w = (Resolved (mkQuotaCheck true None), w)
  /\ (forall msg,
        fst (POST env request w) <> Resolved (JsonError 429 "QUOTA_EXCEEDED" msg))
  /\ (store_fault env InsertSession = Healthy ->
      fst (POST env request w) = Resolved (JsonSession session)
      /\ Session.status session = pending
      /\ Session.user_id session = uid
      /\ map Session.id (generation_sessions (snd (POST env request w)))
         = (map Session.id (generation_sessions w) ++ [Session.id session])%list).
Proof.
  intros Hcount Hparse Hauth session.
  pose proof (checkUserQuota_fails_open env uid w Hcount) as Hopen.
  pose proof (@POST_admitted env request data uid w Hparse Hauth Hopen) as Hpost.
  cbn zeta in Hpost.
  split; [exact Hopen |]. split.
  - intros msg. rewrite Hpost.
    destruct (store_fault env InsertSession); cbn [fst]; discriminate.
  - intros Hinsert. rewrite Hpost, Hinsert. cbn [fst snd].
    split; [reflexivity |]. split; [reflexivity |]. split; [reflexivity |].
    rewrite detached_keeps_column by reflexivity.
    cbn [insert_session snd generation_sessions]. rewrite map_app. reflexivity.
Qed.

Lemma C7_witness :
  store_fault count_lookup_throws CountSessionsToday <> Healthy
  /\ GenerateCardSchema_parse (body (elephant_request 7)) = Some elephant_data
  /\ auth_user (elephant_request 7) = Some 7
  /\ checkUserQuota count_lookup_throws 7 five_sessions_this_morning
     = (Resolved (mkQuotaCheck true None), five_sessions_this_morning).
Proof.
  assert (H1 : store_fault count_lookup_throws CountSessionsToday <> Healthy)
    by discriminate.
  assert (H2 : GenerateCardSchema_parse (body (elephant_request 7))
               = Some elephant_data) by reflexivity.
  assert (H3 : auth_user (elephant_request 7) = Some 7) by reflexivity.
  split; [exact H1 | split; [exact H2 | split; [exact H3 |]]].
  exact (proj1 (@C7_quota_gate_fails_open
                  count_lookup_throws (elephant_request 7) elephant_data 7
                  five_sessions_this_morning H1 H2 H3)).
Defined.

(** The sample run: the free user is at the limit, the count throws,
    and a sixth session is created. *)
Example count_throws_at_the_limit :
  let run := POST count_lookup_throws (elephant_request 7)
                  five_sessions_this_morning in
  (exists s, fst run = Resolved (JsonSession s) /\ Session.status s = pending)
  /\ List.length (generation_sessions (snd run)) = 6%nat.
Proof. split; [eexists; split |]; vm_compute; reflexivity. Qed.

(** C10. A user whose tier is not a key of the quota table (free,
    educator, premium), such as enterprise, has no limit: the lookup in
    the table yields undefined, no count is greater than or equal to
    undefined, and the check allows the request whatever the store
    holds, that is however many sessions the user created today; the
    route never answers such a user with QUOTA_EXCEEDED. *)
Theorem C10_tier_outside_the_table_is_unlimited
  (env : Env) (uid : Uuid) (tier : Tier) (w : World) :
  tier <> free -> tier <> educator -> tier <> premium ->
  store_fault env SelectUserTier = Healthy ->
  select_user uid w = PgData (User.mk uid (Some tier)) ->
  quotaLimits tier = None
  /\ (forall count, ge_undefined count (quotaLimits tier) = false)
  /\ checkUserQuota env uid w = (Resolved (mkQuotaCheck true None), w)
  /\ (forall request data msg,
        GenerateCardSchema_parse (body request) = Some data ->
        auth_user request = Some uid ->
        fst (POST env request w)
        <> Resolved (JsonError 429 "QUOTA_EXCEEDED" msg)).
Proof.
  intros Hfree Heducator Hpremium Hselect Huser.
  assert (Hnone : quotaLimits tier = None).
  { destruct tier; try reflexivity; contradiction. }
  assert (Hcheck : checkUserQuota env uid w
                   = (Resolved (mkQuotaCheck true None), w)).
  { apply checkUserQuota_no_limit; [exact Hselect |].
    unfold daily_limit_of. rewrite Huser. exact Hnone. }
  split; [exact Hnone |]. split; [intros count; rewrite Hnone; reflexivity |].
  split; [exact Hcheck |].
  intros request data msg Hparse Hauth.
  rewrite (@POST_admitted env request data uid w Hparse Hauth Hcheck).
  destruct (store_fault env InsertSession); cbn [fst]; discriminate.
Qed.

Lemma C10_witness :
  enterprise <> free /\ enterprise <> educator /\ enterprise <> premium
  /\ store_fault all_well SelectUserTier = Healthy
  /\ select_user 9 enterprise_busy_day = PgData (User.mk 9 (Some enterprise))
  /\ List.length (created_today 9 (clock enterprise_busy_day) enterprise_busy_day)
     = 250%nat
  /\ checkUserQuota all_well 9 enterprise_busy_day
     = (Resolved (mkQuotaCheck true None), enterprise_busy_day).
Proof.
  assert (H1 : enterprise <> free) by discriminate.
  assert (H2 : enterprise <> educator) by discriminate.
  assert (H3 : enterprise <> premium) by discriminate.
  assert (H4 : store_fault all_well SelectUserTier = Healthy) by reflexivity.
  assert (H5 : select_user 9 enterprise_busy_day
               = PgData (User.mk 9 (Some enterprise))) by reflexivity.
  split; [exact H1 | split; [exact H2 | split; [exact H3 |
    split; [exact H4 | split; [exact H5 | split; [vm_compute; reflexivity |]]]]]].
  exact (proj1 (proj2 (proj2
           (@C10_tier_outside_the_table_is_unlimited
              all_well 9 enterprise enterprise_busy_day H1 H2 H3 H4 H5)))).
Defined.

(* ================================================================== *)
(** * 21. Approving a card *)
(* ================================================================== *)

Lemma same_card_but_stamp_approved now c :
  FlashCard.status c = approved -> same_card_but_stamp c (set_approved now c).
Proof. intros H. unfold same_card_but_stamp. cbn. rewrite H. repeat split. Qed.

Lemma same_card_but_stamp_again now later c :
  same_card_but_stamp (set_approved now c) (set_approved later c).
Proof. unfold same_card_but_stamp. cbn. repeat split. Qed.

(** The update when the filter selects one card. *)
Lemma update_card_approved_run cid uid card w :
  cards_of cid uid w = [card] ->
  update_card_approved cid uid w
  = (PgData (set_approved (clock w) card), approved_store cid uid w).
Proof.
  intros H. unfold update_card_approved. fold (cards_of cid uid w).
  rewrite H. reflexivity.
Qed.

(** The rows an update selects are still selected after it. *)
Lemma cards_of_approved_store cid uid w :
  cards_of cid uid (approved_store cid uid w)
  = map (set_approved (clock w)) (cards_of cid uid w).
Proof.
  unfold cards_of, approved_store. cbn [flash_cards].
  induction (flash_cards w) as [| c rest IH]; [reflexivity |].
  cbn [map filter].
  destruct ((FlashCard.id c =? cid) && (FlashCard.user_id c =? uid))%bool eqn:E.
  - cbn [FlashCard.id FlashCard.user_id set_approved]. rewrite E.
    cbn [map]. rewrite IH. reflexivity.
  - rewrite E. exact IH.
Qed.

(** Approving what is approved, at the same instant, changes nothing. *)
Lemma approved_store_twice cid uid w :
  approved_store cid uid (approved_store cid uid w) = approved_store cid uid w.
Proof.
  unfold approved_store.
  cbn [users generation_sessions flash_cards card_scenes usage_tracking
       next_uuid clock api_calls session_writes].
  f_equal. rewrite map_map. apply map_ext. intros c.
  destruct ((FlashCard.id c =? cid) && (FlashCard.user_id c =? uid))%bool eqn:E.
  - cbn [FlashCard.id FlashCard.user_id set_approved]. rewrite E. reflexivity.
  - rewrite E. reflexivity.
Qed.

(** C8, amended to what the code does.  For a card that [userId] owns,
    and a store that runs the update, [approveCard] does not error: it
    resolves with the card, its status approved and its [updated_at]
    stamped, every other field as it was.  Approving a card that is
    already approved returns it unchanged but for the stamp.  Approving
    twice yields the same card both times, but for the stamp, and
    exactly the same card and store when no time has passed. *)
Theorem C8_approve_is_idempotent
  (env : Env) (cardId userId : Uuid) (card : FlashCard.t) (w : World) :
  store_fault env UpdateCardApproved = Healthy ->
  cards_of cardId userId w = [card] ->
  let once := approveCard env cardId userId w in
  let approved_card := set_approved (clock w) card in
  fst once = Resolved approved_card
  /\ FlashCard.status approved_card = approved
  /\ (FlashCard.status card = approved ->
      same_card_but_stamp card approved_card)
  /\ (forall later,
        let twice := approveCard env cardId userId (with_clock (snd once) later) in
        exists card2,
          fst twice = Resolved card2
          /\ same_card_but_stamp approved_card card2
          /\ cards_of cardId userId (snd twice) = [card2])
  /\ approveCard env cardId userId (snd once) = (Resolved approved_card, snd once).
Proof.
  intros Hrun Hcard once approved_card.
  assert (Honce : once = (Resolved approved_card,
                          approved_store cardId userId w)).
  { unfold once, approveCard. unfold bind.
    rewrite supabase_healthy by exact Hrun.
    rewrite (update_card_approved_run _ _ _ Hcard). reflexivity. }
  assert (Hafter : cards_of cardId userId (approved_store cardId userId w)
                   = [approved_card]).
  { rewrite cards_of_approved_store, Hcard. reflexivity. }
  rewrite Honce. cbn [fst snd].
  split; [reflexivity |].
  split; [reflexivity |].
  split; [apply same_card_but_stamp_approved |].
  split.
  - intros later.
    set (w1 := with_clock (approved_store cardId userId w) later) in *.
    assert (Hlater : cards_of cardId userId w1 = [approved_card])
      by exact Hafter.
    exists (set_approved later card).
    unfold approveCard. unfold bind.
    rewrite supabase_healthy by exact Hrun.
    rewrite (update_card_approved_run _ _ _ Hlater). cbn [fst snd].
    cbn [ret fst snd].
    split; [reflexivity |]. split; [apply same_card_but_stamp_again |].
    rewrite cards_of_approved_store, Hlater. reflexivity.
  - unfold approveCard. unfold bind.
    rewrite supabase_healthy by exact Hrun.
    rewrite (update_card_approved_run _ _ _ Hafter). cbn [ret fst snd].
    rewrite approved_store_twice. reflexivity.
Qed.

Lemma C8_witness :
  store_fault all_well UpdateCardApproved = Healthy
  /\ cards_of 60 7 (store_with_card preview) = [elephant_card preview]
  /\ fst (approveCard all_well 60 7 (store_with_card preview))
     = Resolved (set_approved (clock (store_with_card preview))
                              (elephant_card preview)).
Proof.
  assert (H1 : store_fault all_well UpdateCardApproved = Healthy) by reflexivity.
  assert (H2 : cards_of 60 7 (store_with_card preview) = [elephant_card preview])
    by reflexivity.
  split; [exact H1 | split; [exact H2 |]].
  exact (proj1 (@C8_approve_is_idempotent all_well 60 7 (elephant_card preview)
                  (store_with_card preview) H1 H2)).
Defined.

(** C8 as the specification states it does not hold: approving a
    downloaded card returns it approved, not unchanged, and the stored
    card has moved back from downloaded to approved. *)
Lemma C8_downloaded_card_moves_back :
  let run := approveCard all_well 60 7 (store_with_card downloaded) in
  map FlashCard.status (flash_cards (store_with_card downloaded)) = [downloaded]
  /\ (exists card, fst run = Resolved card
                   /\ FlashCard.status card = approved
                   /\ ~ same_card_but_stamp (elephant_card downloaded) card)
  /\ map FlashCard.status (flash_cards (snd run)) = [approved].
Proof.
  cbn zeta. split; [reflexivity |]. split; [| vm_compute; reflexivity].
  eexists. split; [vm_compute; reflexivity |]. split; [reflexivity |].
  unfold same_card_but_stamp. cbn. intros H.
  destruct H as [_ [_ [_ [_ [_ [_ [_ [H _]]]]]]]]. discriminate.
Qed.

(* ================================================================== *)
(** * 22. Reading a session *)
(* ================================================================== *)

Lemma nobody_selected sid uid (rows : list Session.t) :
  (forall s, In s rows -> Session.id s = sid -> Session.user_id s <> uid) ->
  filter (fun s => ((Session.id s =? sid) && (Session.user_id s =? uid))%bool)
         rows = [].
Proof.
  intros H. induction rows as [| s rest IH]; [reflexivity |].
  cbn [filter].
  destruct (Session.id s =? sid) eqn:Eid; cbn [andb].
  - destruct (Session.user_id s =? uid) eqn:Euid.
    + exfalso. apply (H s (or_introl eq_refl)).
      * apply Z.eqb_eq. exact Eid.
      * apply Z.eqb_eq. exact Euid.
    + apply IH. intros s' Hs'. apply H. right. exact Hs'.
  - apply IH. intros s' Hs'. apply H. right. exact Hs'.
Qed.

(** The status route answers with a session only to its owner. *)
Lemma GET_answers_the_owner env request sid w s cards :
  fst (GET env request sid w) = Resolved (JsonSessionWithCards s cards) ->
  auth_user request = Some (Session.user_id s)
  /\ Session.id s = sid
  /\ In s (generation_sessions w).
Proof.
  unfold GET, try_catch, bind, validateRequest, query, supabase.
  destruct (any_parse (body request)); [| cbn; discriminate].
  destruct (auth_user request) as [uid |]; [| cbn; discriminate].
  cbn [ret fst snd throw].
  destruct (store_fault env SelectSession); [| cbn; discriminate ..].
  unfold select_session.
  destruct (filter _ (generation_sessions w)) as [| s0 [| s1 rest]] eqn:F;
    cbn; try discriminate.
  intros H. injection H as <- _.
  assert (Hin : In s0 (filter
            (fun s => ((Session.id s =? sid) && (Session.user_id s =? uid))%bool)
            (generation_sessions w))) by (rewrite F; left; reflexivity).
  apply filter_In in Hin. destruct Hin as [Hin Hhit].
  apply andb_prop in Hhit. destruct Hhit as [Hid Huid].
  apply Z.eqb_eq in Hid. apply Z.eqb_eq in Huid.
  split; [rewrite Huid; reflexivity | split; assumption].
Qed.

(** When every session stored under [sessionId] is owned by another
    user than the one the request is authenticated as, the status route
    returns none of the session's data: its answer is an error, which is
    NOT_FOUND with status 404 whenever the request carries a JSON body
    and the query of the store does not throw, and VALIDATION_ERROR
    with status 400 when it carries none; the store is left as it is.
    Conversely, whoever is answered with a session is its owner. *)
Lemma session_of_another_user_is_not_returned
  (env : Env) (request : Request) (sessionId userId : Uuid) (w : World) :
  auth_user request = Some userId ->
  (forall s, In s (generation_sessions w) -> Session.id s = sessionId ->
             Session.user_id s <> userId) ->
  (exists status code msg,
     GET env request sessionId w = (Resolved (JsonError status code msg), w))
  /\ (body request <> NoJson ->
      (forall m, store_fault env SelectSession <> Crashes m) ->
      GET env request sessionId w
      = (Resolved (JsonError 404 "NOT_FOUND" "Session not found"), w))
  /\ (body request = NoJson ->
      GET env request sessionId w
      = (Resolved (JsonError 400 "VALIDATION_ERROR" "Invalid request data"), w))
  /\ (forall other s cards,
        fst (GET env other sessionId w) = Resolved (JsonSessionWithCards s cards) ->
        auth_user other = Some (Session.user_id s)
        /\ Session.user_id s <> userId).
Proof.
  intros Hauth Hother.
  assert (Hrun : GET env request sessionId w
    = match body request with
      | NoJson =>
          (Resolved (JsonError 400 "VALIDATION_ERROR" "Invalid request data"), w)
      | _ =>
          match store_fault env SelectSession with
          | Crashes _ =>
              (Resolved (JsonError 500 "INTERNAL_SERVER_ERROR"
                                   "An unexpected error occurred"), w)
          | _ => (Resolved (JsonError 404 "NOT_FOUND" "Session not found"), w)
          end
      end).
  { unfold GET, try_catch, bind, validateRequest, query, supabase.
    rewrite Hauth.
    destruct (body request); cbn [any_parse ret throw fst snd];
      try reflexivity;
      (destruct (store_fault env SelectSession); [| reflexivity ..];
       unfold select_session; rewrite (nobody_selected _ Hother);
       reflexivity). }
  split; [| split; [| split]].
  - rewrite Hrun.
    destruct (body request); [eauto | |];
      destruct (store_fault env SelectSession); eauto.
  - intros Hbody Hquery. rewrite Hrun.
    destruct (body request); [contradiction | |];
      (destruct (store_fault env SelectSession) as [| m | m];
       [reflexivity | reflexivity | exfalso; exact (Hquery m eq_refl)]).
  - intros Hbody. rewrite Hrun, Hbody. reflexivity.
  - intros other s cards Hget.
    apply GET_answers_the_owner in Hget.
    destruct Hget as [Howner [Hid Hin]].
    split; [exact Howner | exact (Hother s Hin Hid)].
Qed.

(** A status request that carries a JSON body and asks for the sample
    session as another user than its owner is answered 404. *)
Example another_user_with_a_body_gets_404 :
  GET all_well (mkRequest OtherJson (Some 8)) 40 one_session_store
  = (Resolved (JsonError 404 "NOT_FOUND" "Session not found"),
     one_session_store).
Proof. vm_compute. reflexivity. Qed.

(** C9.  The status route does not answer 404 NOT_FOUND to a user who
    asks for the session of another.  It reads a JSON body before it
    looks at the session, and a status request, a GET, carries none:
    whoever sends it, whatever the session asked for and whatever the
    store holds, the answer is 400 VALIDATION_ERROR and the store is
    left as it is.  In the sample store, where session 40 belongs to
    user 7, user 8 asking for session 40 is answered 400 and not 404,
    and user 7, the owner, is answered 400 as well and does not see the
    session.  No data of the session is in either answer. *)
Theorem C9_status_request_without_body_is_rejected :
  (forall (env : Env) (user : option Uuid) (sessionId : Uuid) (w : World),
     GET env (mkRequest NoJson user) sessionId w
     = (Resolved (JsonError 400 "VALIDATION_ERROR" "Invalid request data"), w))
  /\ map (fun s => (Session.id s, Session.user_id s))
         (generation_sessions one_session_store) = [(40, 7)]
  /\ fst (GET all_well (mkRequest NoJson (Some 8)) 40 one_session_store)
     = Resolved (JsonError 400 "VALIDATION_ERROR" "Invalid request data")
  /\ fst (GET all_well (mkRequest NoJson (Some 8)) 40 one_session_store)
     <> Resolved (JsonError 404 "NOT_FOUND" "Session not found")
  /\ fst (GET all_well (mkRequest NoJson (Some 7)) 40 one_session_store)
     = Resolved (JsonError 400 "VALIDATION_ERROR" "Invalid request data").
Proof.
  split; [intros env user sessionId w; reflexivity |].
  split; [reflexivity |].
  split; [reflexivity |].
  split; [vm_compute; discriminate | reflexivity].
Qed.

(** The owner of the sample session reads it, with a request that
    carries a JSON body. *)
Example owner_reads_the_session :
  exists cards,
    fst (GET all_well (mkRequest OtherJson (Some 7)) 40 one_session_store)
    = Resolved (JsonSessionWithCards
                  (session_row 40 7 (new_year + 3600000) completed
                               (Some (new_year + 3660000)))
                  cards).
Proof. eexists. vm_compute. reflexivity. Qed.

(* ================================================================== *)
(** * 23. The generation route, request by request *)
(* ================================================================== *)

Section Route_outcomes.

Variable env : Env.

(** The quota check always resolves and leaves the world as it is. *)
Lemma checkUserQuota_total uid w :
  exists q, checkUserQuota env uid w = (Resolved q, w).
Proof.
  unfold checkUserQuota, try_catch, bind, query, statement, supabase, new_Date.
  destruct (store_fault env SelectUserTier);
    destruct (store_fault env CountSessionsToday); cbn [ret fst snd];
    try (eexists; reflexivity);
    destruct (ge_undefined _ _); eexists; reflexivity.
Qed.

(** The route when the body does not pass the schema. *)
Lemma POST_invalid request w :
  GenerateCardSchema_parse (body request) = None ->
  POST env request w
  = (Resolved (JsonError 400 "VALIDATION_ERROR" "Invalid request data"), w).
Proof.
  intros H. unfold POST, try_catch. unfold bind at 1.
  unfold validateRequest. rewrite H. reflexivity.
Qed.

(** The route when the body is valid and no user is signed in. *)
Lemma POST_unauthenticated request data w :
  GenerateCardSchema_parse (body request) = Some data ->
  auth_user request = None ->
  POST env request w
  = (Resolved (JsonError 401 "UNAUTHORIZED" "Authentication required"), w).
Proof.
  intros H Ha. unfold POST, try_catch. unfold bind at 1.
  unfold validateRequest. rewrite H, Ha. reflexivity.
Qed.

End Route_outcomes.

(** X1. The prompt of a generation request must have between 1 and 200
    UTF-16 code units, which is what [length] counts: a request with an
    empty prompt, or one of more than 200 code units, is answered 400
    VALIDATION_ERROR, whoever sends it (the body is checked before the
    user is looked up), and nothing happens: the store and the log of
    OpenAI requests are as they were. *)
Theorem X1_prompt_out_of_bounds_is_rejected
  (env : Env) (prompt : string) (ct : CardType)
  (params : option GenerationParams) (user : option Uuid) (w : World) :
  (utf16_length prompt = 0 \/ 200 < utf16_length prompt)%nat ->
  POST env (mkRequest (GenerateJson prompt ct params) user) w
  = (Resolved (JsonError 400 "VALIDATION_ERROR" "Invalid request data"), w).
Proof.
  intros H. apply POST_invalid. cbn [body GenerateCardSchema_parse].
  destruct ((1 <=? Z.of_nat (utf16_length prompt))
            && (Z.of_nat (utf16_length prompt) <=? 200))%bool eqn:E;
    [| reflexivity].
  apply andb_prop in E. destruct E as [E1 E2].
  apply Z.leb_le in E1. apply Z.leb_le in E2. lia.
Qed.

Lemma X1_witness :
  (utf16_length (repeated 201 "a") = 0
   \/ 200 < utf16_length (repeated 201 "a"))%nat
  /\ POST all_well
          (mkRequest (GenerateJson (repeated 201 "a") single_word None) (Some 7))
          empty_store
     = (Resolved (JsonError 400 "VALIDATION_ERROR" "Invalid request data"),
        empty_store).
Proof.
  assert (H : (utf16_length (repeated 201 "a") = 0
               \/ 200 < utf16_length (repeated 201 "a"))%nat).
  { right. vm_compute. lia. }
  split; [exact H |].
  exact (@X1_prompt_out_of_bounds_is_rejected all_well (repeated 201 "a")
           single_word None (Some 7) empty_store H).
Defined.

(** The bound is on code units, not on bytes or characters: a prompt of
    67 Han characters, 201 bytes, passes validation, and so does one of
    100 characters outside the basic plane, 200 code units; one of 101
    such characters, 202 code units, does not. *)
Example prompt_length_is_in_code_units :
  String.length (repeated 67 han_elephant) = 201%nat
  /\ utf16_length (repeated 67 han_elephant) = 67%nat
  /\ GenerateCardSchema_parse
       (GenerateJson (repeated 67 han_elephant) single_word None)
     = Some (GenerateCard.mk (repeated 67 han_elephant) single_word
                             default_generation_params)
  /\ utf16_length (repeated 100 emoji_elephant) = 200%nat
  /\ GenerateCardSchema_parse
       (GenerateJson (repeated 100 emoji_elephant) single_word None)
     <> None
  /\ GenerateCardSchema_parse
       (GenerateJson (repeated 101 emoji_elephant) single_word None)
     = None.
Proof.
  split; [vm_compute; reflexivity |]. split; [vm_compute; reflexivity |].
  split; [vm_compute; reflexivity |]. split; [vm_compute; reflexivity |].
  split; [vm_compute; discriminate | vm_compute; reflexivity].
Qed.

(** X2. The generation route always answers, and it is all or nothing.
    Its answer is either the new session, pending and without
    [completed_at], owned by the signed-in user, under the next key of
    the store, which then holds exactly one more session; or an error
    with one of the codes 400 VALIDATION_ERROR, 401 UNAUTHORIZED, 429
    QUOTA_EXCEEDED, 500 INTERNAL_SERVER_ERROR, in which case nothing was
    stored and no OpenAI request was issued. *)
Theorem X2_generation_route_is_all_or_nothing
  (env : Env) (request : Request) (w : World) :
  exists response,
    fst (POST env request w) = Resolved response
    /\ match response with
       | JsonSession s =>
           Session.status s = pending
           /\ Session.completed_at s = None
           /\ auth_user request = Some (Session.user_id s)
           /\ Session.id s = next_uuid w
           /\ map Session.id (generation_sessions (snd (POST env request w)))
              = (map Session.id (generation_sessions w) ++ [Session.id s])%list
       | JsonError status code _ =>
           snd (POST env request w) = w
           /\ In (status, code)
                 [(400, "VALIDATION_ERROR"); (401, "UNAUTHORIZED");
                  (429, "QUOTA_EXCEEDED"); (500, "INTERNAL_SERVER_ERROR")]
       | JsonSessionWithCards _ _ => False
       end.
Proof.
  destruct (GenerateCardSchema_parse (body request)) as [data |] eqn:Hparse.
  2:{ rewrite (POST_invalid env request w Hparse). eexists. split; [reflexivity |].
      cbn. auto. }
  destruct (auth_user request) as [uid |] eqn:Hauth.
  2:{ rewrite (POST_unauthenticated env request w Hparse Hauth).
      eexists. split; [reflexivity |]. cbn. auto. }
  destruct (checkUserQuota_total env uid w) as [[[|] msg] Hq].
  - assert (Hq' : checkUserQuota env uid w
                  = (Resolved (mkQuotaCheck true None), w)).
    { rewrite Hq. f_equal. f_equal.
      revert Hq.
      unfold checkUserQuota, try_catch, bind, query, statement, supabase, new_Date.
      destruct (store_fault env SelectUserTier);
        destruct (store_fault env CountSessionsToday); cbn [ret fst snd];
        try (intros H; injection H as <-; reflexivity);
        destruct (ge_undefined _ _); intros H; injection H as H;
        try discriminate; subst; reflexivity. }
    rewrite (@POST_admitted env request data uid w Hparse Hauth Hq').
    destruct (store_fault env InsertSession).
    + eexists. split; [reflexivity |]. cbn [fst snd].
      repeat split.
      rewrite detached_keeps_column by reflexivity.
      cbn [insert_session snd generation_sessions]. rewrite map_app. reflexivity.
    + eexists. split; [reflexivity |]. cbn. auto 10.
    + eexists. split; [reflexivity |]. cbn. auto 10.
  - exists (JsonError 429 "QUOTA_EXCEEDED"
              (match msg with Some m => m | None => "Generation quota exceeded" end)).
    assert (Hpost : POST env request w
              = (Resolved (JsonError 429 "QUOTA_EXCEEDED"
                   (match msg with
                    | Some m => m
                    | None => "Generation quota exceeded"
                    end)), w)).
    { unfold POST, try_catch. unfold bind at 1.
      unfold validateRequest. rewrite Hparse, Hauth. cbn [ret fst snd].
      unfold bind at 1. rewrite Hq. reflexivity. }
    rewrite Hpost. split; [reflexivity |]. cbn. auto 10.
Qed.

(* ================================================================== *)
(** * 24. The OpenAI service *)
(* ================================================================== *)

Lemma image_url_empty_failed env log params scene :
  image_url_of env log params scene = "" ->
  image_failed env log params scene = true.
Proof.
  unfold image_failed, image_url_of.
  destruct (images_generate env log _ _) as [[url |] | m]; try reflexivity.
  intros ->. reflexivity.
Qed.

(** X3. Image generation never rejects and never gives up on the scenes
    that follow a failure.  It issues one image request per scene, in
    the order of the scenes, touches nothing but the log, and returns
    one scene per scene it was given, with the same id, description and
    prompt; the scene carries the URL OpenAI returned for it, and the
    empty URL exactly when its request threw or returned no URL. *)
Theorem X3_one_image_request_per_scene
  (env : Env) (raw : list RawScene.t) (params : GenerationParams) (w : World) :
  exists scenes,
    generateSceneImages env raw params w
    = (Resolved scenes,
       with_api_calls w (api_calls w ++ map (image_call params) raw))
    /\ List.length scenes = List.length raw
    /\ forall i scene,
         nth_error raw i = Some scene ->
         let log := (api_calls w ++ map (image_call params) (firstn i raw))%list in
         exists stored,
           nth_error scenes i = Some stored
           /\ Scene.id stored = RawScene.id scene
           /\ Scene.description stored = RawScene.description scene
           /\ Scene.image_prompt stored = RawScene.image_prompt scene
           /\ (Scene.image_url stored = ""
               <-> image_failed env log params scene = true)
           /\ (forall url,
                 images_generate env log (enhancedPrompt scene params)
                                 (image_style params) = Returns (Some url) ->
                 Scene.image_url stored = url).
Proof.
  exists (scene_images env (api_calls w) params raw).
  split; [apply generateSceneImages_run |].
  split; [apply scene_images_length |].
  intros i scene Hi log.
  eexists. split; [apply scene_images_nth; exact Hi |].
  cbn [Scene.id Scene.description Scene.image_prompt Scene.image_url].
  repeat split.
  - apply image_url_empty_failed.
  - apply image_failed_empty.
  - intros url Hurl. unfold image_url_of. fold log. rewrite Hurl. reflexivity.
Qed.

Section Moderation_first.

Variable env : Env.

(** When text generation returns and moderation passes, in the terms of
    the pipeline's lemmas. *)
Lemma moderated_content_some data parsed raw usage :
  moderated_content env data = Some (parsed, raw, usage) ->
  text_generated env data parsed raw usage
  /\ moderation_passes env (moderated_text raw).
Proof.
  unfold moderated_content, text_generated, moderation_passes.
  destruct (chat_completions_create env _ _ _) as [[[answer |] u] | m];
    cbn [message_content usage_total_tokens]; try discriminate.
  destruct (String.eqb answer "") eqn:Hne; try discriminate.
  destruct (JSON_parse env answer) as [p |] eqn:Hparse; try discriminate.
  destruct (TextContent.scenes p) as [r |] eqn:Hscenes; try discriminate.
  destruct (moderations_create env (moderated_text r)) as [[result |] | m] eqn:Hmod;
    try discriminate.
  - destruct (flagged result) eqn:Hflag; try discriminate.
    intros H. injection H as <- <- <-. rewrite Hmod.
    split; [| exact Hflag]. exists answer. auto.
  - intros H. injection H as <- <- <-. rewrite Hmod.
    split; [| exact I]. exists answer. auto.
Qed.

(** Otherwise content generation rejects, having logged no image
    request. *)
Lemma moderated_content_none data w :
  moderated_content env data = None ->
  exists e log,
    generateCardContent env (GenerateCard.input_prompt data)
                        (GenerateCard.card_type data)
                        (GenerateCard.generation_params data) w
    = (Rejected e, with_api_calls w log)
    /\ filter is_image_call log = filter is_image_call (api_calls w).
Proof.
  unfold moderated_content. intros H.
  unfold generateCardContent, try_catch. unfold bind at 1.
  unfold generateTextContent. unfold bind at 1. rewrite issue_run.
  destruct (chat_completions_create env _ _ _) as [[[answer |] u] | m];
    cbn [message_content usage_total_tokens falsy_string] in *.
  2,3: eexists; eexists; split; [reflexivity |];
       rewrite filter_app; cbn; apply app_nil_r.
  destruct (String.eqb answer "") eqn:Hne.
  { eexists; eexists; split; [reflexivity |].
    rewrite filter_app; cbn; apply app_nil_r. }
  destruct (JSON_parse env answer) as [p |] eqn:Hparse.
  2:{ eexists; eexists; split; [reflexivity |].
      rewrite filter_app; cbn; apply app_nil_r. }
  cbn [ret fst snd]. unfold bind at 1.
  destruct (TextContent.scenes p) as [r |] eqn:Hscenes.
  2:{ eexists; eexists; split; [reflexivity |].
      rewrite filter_app; cbn; apply app_nil_r. }
  cbn [ret]. unfold bind at 1. unfold moderateContent. unfold bind at 1.
  rewrite issue_run. fold (moderated_text r).
  destruct (moderations_create env (moderated_text r)) as [[result |] | m];
    try discriminate.
  - destruct (flagged result); try discriminate.
    eexists; eexists; split; [reflexivity |].
    cbn [with_api_calls api_calls].
    rewrite !filter_app; cbn; rewrite !app_nil_r; reflexivity.
  - eexists; eexists; split; [reflexivity |].
    cbn [with_api_calls api_calls].
    rewrite !filter_app; cbn; rewrite !app_nil_r; reflexivity.
Qed.

(** Without moderated content the detached pipeline leaves the cards,
    their scenes and the image requests as they were. *)
Lemma detached_without_moderated_content sid data uid w :
  moderated_content env data = None ->
  let w' := snd (detached env sid data uid w) in
  flash_cards w' = flash_cards w
  /\ card_scenes w' = card_scenes w
  /\ filter is_image_call (api_calls w') = filter is_image_call (api_calls w).
Proof.
  intros Hnone. cbn zeta.
  set (Q := fun x => flash_cards x = flash_cards w
                     /\ card_scenes x = card_scenes w
                     /\ filter is_image_call (api_calls x)
                        = filter is_image_call (api_calls w)).
  change (Q (snd (detached env sid data uid w))).
  unfold detached, try_catch, generateCardAsync, OpenAIService_new.
  destruct (falsy_string (OPENAI_API_KEY env)).
  { unfold bind, throw, new_Date, statement, supabase.
    destruct (store_fault env UpdateFailedDetached); unfold Q; cbn; auto. }
  unfold bind at 1. cbn [ret]. unfold try_catch. unfold bind at 1.
  unfold statement at 1, supabase at 1.
  destruct (store_fault env UpdateProcessing) eqn:Fp.
  - cbn [update_session fst snd].
    match goal with
    | |- context [bind (generateCardContent env _ _ _) _ ?w1] =>
        destruct (moderated_content_none data w1 Hnone) as [e [log [Hrun Hlog]]]
    end.
    unfold bind at 1. rewrite Hrun. cbn [api_calls] in Hlog.
    unfold bind, throw, new_Date, statement, supabase.
    destruct (store_fault env UpdateFailed);
      destruct (store_fault env UpdateFailedDetached); unfold Q; cbn; auto.
  - destruct (moderated_content_none data w Hnone) as [e [log [Hrun Hlog]]].
    unfold bind at 1. rewrite Hrun. cbn [api_calls] in Hlog.
    unfold bind, throw, new_Date, statement, supabase.
    destruct (store_fault env UpdateFailed);
      destruct (store_fault env UpdateFailedDetached); unfold Q; cbn; auto.
  - unfold bind, throw, new_Date, statement, supabase.
    destruct (store_fault env UpdateFailed);
      destruct (store_fault env UpdateFailedDetached); unfold Q; cbn; auto.
Qed.

End Moderation_first.

(** X4. Nothing is stored or drawn before moderation.  When a generation
    request leaves a card or a card scene in the store that was not
    there, or makes an image request, then the body passed validation,
    text generation returned content with scenes, and moderation
    answered and did not flag it. *)
Theorem X4_card_only_after_moderation
  (env : Env) (request : Request) (w : World) :
  let w' := snd (POST env request w) in
  flash_cards w' <> flash_cards w
  \/ card_scenes w' <> card_scenes w
  \/ image_calls w' <> image_calls w ->
  exists data parsed raw usage,
    GenerateCardSchema_parse (body request) = Some data
    /\ text_generated env data parsed raw usage
    /\ moderation_passes env (moderated_text raw).
Proof.
  intros w' Hchanged.
  assert (Hsame : forall x : World, x = w ->
            ~ (flash_cards x <> flash_cards w
               \/ card_scenes x <> card_scenes w
               \/ image_calls x <> image_calls w)).
  { intros x -> [H | [H | H]]; apply H; reflexivity. }
  destruct (GenerateCardSchema_parse (body request)) as [data |] eqn:Hparse.
  2:{ exfalso. apply (Hsame w'); [| exact Hchanged].
      unfold w'. rewrite (POST_invalid env request w Hparse). reflexivity. }
  destruct (auth_user request) as [uid |] eqn:Hauth.
  2:{ exfalso. apply (Hsame w'); [| exact Hchanged].
      unfold w'. rewrite (POST_unauthenticated env request w Hparse Hauth).
      reflexivity. }
  destruct (moderated_content env data) as [[[parsed raw] usage] |] eqn:Hmod.
  { exists data, parsed, raw, usage. split; [reflexivity |].
    apply moderated_content_some. exact Hmod. }
  exfalso.
  destruct (checkUserQuota_total env uid w) as [[[|] msg] Hq].
  - assert (Hq' : checkUserQuota env uid w
                  = (Resolved (mkQuotaCheck true None), w)).
    { rewrite Hq. f_equal. f_equal. revert Hq.
      unfold checkUserQuota, try_catch, bind, query, statement, supabase, new_Date.
      destruct (store_fault env SelectUserTier);
        destruct (store_fault env CountSessionsToday); cbn [ret fst snd];
        try (intros H; injection H as <-; reflexivity);
        destruct (ge_undefined _ _); intros H; injection H as H;
        try discriminate; subst; reflexivity. }
    unfold w' in Hchanged.
    rewrite (@POST_admitted env request data uid w Hparse Hauth Hq') in Hchanged.
    destruct (store_fault env InsertSession);
      [| apply (Hsame w eq_refl); exact Hchanged
       | apply (Hsame w eq_refl); exact Hchanged].
    cbn [snd] in Hchanged.
    destruct (detached_without_moderated_content env (next_uuid w) data uid
                (snd (insert_session uid (GenerateCard.input_prompt data)
                        (generation_type_of (GenerateCard.card_type data)) w))
                Hmod) as [Hc [Hs Hi]].
    cbn zeta in Hc, Hs, Hi. unfold image_calls in Hchanged.
    rewrite Hc, Hs, Hi in Hchanged. cbn in Hchanged.
    destruct Hchanged as [H | [H | H]]; apply H; reflexivity.
  - apply (Hsame w'); [| exact Hchanged]. unfold w'.
    unfold POST, try_catch. unfold bind at 1.
    unfold validateRequest. rewrite Hparse, Hauth. cbn [ret fst snd].
    unfold bind at 1. rewrite Hq. reflexivity.
Qed.

Lemma X4_witness :
  (flash_cards (snd (POST all_well (elephant_request 7) empty_store))
   <> flash_cards empty_store
   \/ card_scenes (snd (POST all_well (elephant_request 7) empty_store))
      <> card_scenes empty_store
   \/ image_calls (snd (POST all_well (elephant_request 7) empty_store))
      <> image_calls empty_store)
  /\ exists data parsed raw usage,
       GenerateCardSchema_parse (body (elephant_request 7)) = Some data
       /\ text_generated all_well data parsed raw usage
       /\ moderation_passes all_well (moderated_text raw).
Proof.
  assert (H : flash_cards (snd (POST all_well (elephant_request 7) empty_store))
              <> flash_cards empty_store
              \/ card_scenes (snd (POST all_well (elephant_request 7) empty_store))
                 <> card_scenes empty_store
              \/ image_calls (snd (POST all_well (elephant_request 7) empty_store))
                 <> image_calls empty_store).
  { right. right. vm_compute. discriminate. }
  split; [exact H |].
  exact (@X4_card_only_after_moderation all_well (elephant_request 7)
           empty_store H).
Defined.

(** X5. Content generation touches nothing but the log of OpenAI
    requests, to which it only adds, and whatever goes wrong in it,
    a thrown request, an empty or unparsable answer, flagged content,
    comes out as a plain [Error]: no error of the API classes, with a
    status and a code of their own, leaves the service. *)
Theorem X5_content_generation_only_logs
  (env : Env) (prompt : string) (cardType : CardType)
  (params : GenerationParams) (w : World) :
  let r := generateCardContent env prompt cardType params w in
  with_api_calls (snd r) (api_calls w) = w
  /\ (exists more, api_calls (snd r) = (api_calls w ++ more)%list)
  /\ (forall e, fst r = Rejected e -> class e = Error).
Proof.
  cbn zeta. split; [| split].
  - pose proof (@stable_generateCardContent env
                  (fun w0 => with_api_calls w0 (api_calls w) = w)
                  prompt cardType params) as H.
    specialize (H (fun w0 c H0 => H0) w (with_api_calls_same w)).
    destruct (generateCardContent env prompt cardType params w) as [[g | e] w'];
      exact H.
  - pose proof (@stable_generateCardContent env
                  (fun w0 => exists more, api_calls w0 = (api_calls w ++ more)%list)
                  prompt cardType params) as H.
    assert (Hblind : log_blind
              (fun w0 => exists more, api_calls w0 = (api_calls w ++ more)%list)).
    { intros w0 c [more Hm]. exists (more ++ [c])%list. cbn.
      rewrite Hm, app_assoc. reflexivity. }
    specialize (H Hblind w (ex_intro _ [] (eq_sym (app_nil_r _)))).
    destruct (generateCardContent env prompt cardType params w) as [[g | e] w'];
      exact H.
  - unfold generateCardContent, try_catch.
    match goal with
    | |- context [let (o, w') := ?m w in _] => destruct (m w) as [[g | e0] w1]
    end; cbn; intros e H; [discriminate |].
    injection H as <-. reflexivity.
Qed.

(* ================================================================== *)
(** * 25. Quota and usage *)
(* ================================================================== *)

(** X6. The quota check never rejects and changes nothing.  It denies a
    request only when the count of today's sessions was answered, the
    tier lookup did not throw, and the count has reached the daily
    limit, 5, 50 or 200, that the table gives the tier found (the limit
    of the free tier when the lookup was answered with an error); its
    message then names that limit. *)
Theorem X6_quota_denies_only_at_the_limit
  (env : Env) (uid : Uuid) (w : World) :
  exists q,
    checkUserQuota env uid w = (Resolved q, w)
    /\ (allowed q = false ->
        store_fault env CountSessionsToday = Healthy
        /\ (forall m, store_fault env SelectUserTier <> Crashes m)
        /\ exists limit,
             In limit [5; 50; 200]
             /\ limit <= counted_today uid w
             /\ quota_message q = Some (limit_reached_message (Some limit))
             /\ (store_fault env SelectUserTier = Healthy ->
                 daily_limit_of uid w = Some limit)
             /\ (store_fault env SelectUserTier <> Healthy -> limit = 5)).
Proof.
  assert (Hin : forall tier limit, quotaLimits tier = Some limit ->
                                   In limit [5; 50; 200]).
  { intros [| | | | ] limit H; cbn in H; try discriminate;
      injection H as <-; cbn; auto. }
  unfold checkUserQuota, try_catch, bind, query, statement, supabase, new_Date.
  destruct (store_fault env SelectUserTier) eqn:Fs;
    destruct (store_fault env CountSessionsToday) eqn:Fc; cbn [ret fst snd];
    try (eexists; split; [reflexivity | cbn; discriminate]).
  - fold (counted_today uid w). fold (daily_limit_of uid w).
    destruct (daily_limit_of uid w) as [limit |] eqn:Hl;
      cbn [ge_undefined count_or_zero];
      [| eexists; split; [reflexivity | cbn; discriminate]].
    destruct (limit <=? counted_today uid w) eqn:Hle;
      [| eexists; split; [reflexivity | cbn; discriminate]].
    eexists; split; [reflexivity |]. intros _.
    split; [reflexivity |]. split; [discriminate |].
    exists limit. apply Z.leb_le in Hle.
    repeat split; auto.
    + eapply Hin. exact Hl.
    + intros H. contradiction H. reflexivity.
  - cbn [count_or_zero tier_or_free]. rewrite zero_below_every_limit.
    eexists; split; [reflexivity | cbn; discriminate].
  - fold (counted_today uid w).
    cbn [tier_or_free quotaLimits ge_undefined count_or_zero].
    destruct (5 <=? counted_today uid w) eqn:Hle;
      [| eexists; split; [reflexivity | cbn; discriminate]].
    eexists; split; [reflexivity |]. intros _.
    split; [reflexivity |]. split; [discriminate |].
    exists 5. apply Z.leb_le in Hle.
    repeat split; cbn; auto. intros H. discriminate.
Qed.

Lemma limit_of_the_free_tier :
  limit_reached_message (Some 5)
  = "Daily limit of 5 cards reached. Upgrade to generate more cards.".
Proof. reflexivity. Qed.

(** X7. A user whose tier cannot be read is held to the limit of the
    free tier.  When the tier lookup is answered with an error, finds no
    row for the user, or finds a row without a tier, and the count of
    today's sessions is answered, the request is rejected with 429 and
    the message of the limit of 5 cards as soon as the count is 5, and
    nothing is stored; below 5 the check lets it through. *)
Theorem X7_unreadable_tier_counts_as_free
  (env : Env) (request : Request) (data : GenerateCard.t) (uid : Uuid)
  (w : World) :
  GenerateCardSchema_parse (body request) = Some data ->
  auth_user request = Some uid ->
  store_fault env CountSessionsToday = Healthy ->
  tier_unreadable env uid w ->
  (5 <= counted_today uid w ->
   POST env request w
   = (Resolved (JsonError 429 "QUOTA_EXCEEDED"
        "Daily limit of 5 cards reached. Upgrade to generate more cards."), w))
  /\ (counted_today uid w < 5 ->
      checkUserQuota env uid w = (Resolved (mkQuotaCheck true None), w)).
Proof.
  intros Hparse Hauth Fc Htier.
  assert (Hq : checkUserQuota env uid w
               = (Resolved (if 5 <=? counted_today uid w
                            then mkQuotaCheck false
                                   (Some (limit_reached_message (Some 5)))
                            else mkQuotaCheck true None), w)).
  { unfold checkUserQuota, try_catch, bind, query, statement, supabase, new_Date.
    rewrite Fc. destruct Htier as [[m Fs] | [Fs Hnone]]; rewrite Fs;
      cbn [ret fst snd tier_or_free quotaLimits count_or_zero ge_undefined].
    - fold (counted_today uid w).
      destruct (5 <=? counted_today uid w); reflexivity.
    - fold (counted_today uid w).
      assert (Hfree : tier_or_free (select_user uid w) = free).
      { destruct (select_user uid w) as [u | m] eqn:Hsel; [| reflexivity].
        cbn. rewrite (Hnone u eq_refl). reflexivity. }
      rewrite Hfree. cbn [quotaLimits ge_undefined].
      destruct (5 <=? counted_today uid w); reflexivity. }
  split; intros Hcount.
  - apply (@POST_rejected env request data uid w _ Hparse Hauth).
    rewrite Hq. apply Z.leb_le in Hcount. rewrite Hcount. reflexivity.
  - rewrite Hq. apply Z.leb_gt in Hcount. rewrite Hcount. reflexivity.
Qed.

Lemma X7_witness :
  GenerateCardSchema_parse (body (elephant_request 77)) = Some elephant_data
  /\ auth_user (elephant_request 77) = Some 77
  /\ store_fault all_well CountSessionsToday = Healthy
  /\ tier_unreadable all_well 77 five_sessions_of_a_stranger
  /\ 5 <= counted_today 77 five_sessions_of_a_stranger
  /\ POST all_well (elephant_request 77) five_sessions_of_a_stranger
     = (Resolved (JsonError 429 "QUOTA_EXCEEDED"
          "Daily limit of 5 cards reached. Upgrade to generate more cards."),
        five_sessions_of_a_stranger).
Proof.
  assert (Ht : tier_unreadable all_well 77 five_sessions_of_a_stranger).
  { right. split; [reflexivity |]. intros u H. vm_compute in H. discriminate. }
  assert (Hc : 5 <= counted_today 77 five_sessions_of_a_stranger)
    by (vm_compute; discriminate).
  split; [reflexivity |]. split; [reflexivity |]. split; [reflexivity |].
  split; [exact Ht |]. split; [exact Hc |].
  exact (proj1 (@X7_unreadable_tier_counts_as_free all_well
                  (elephant_request 77) elephant_data 77
                  five_sessions_of_a_stranger eq_refl eq_refl eq_refl Ht) Hc).
Defined.

Lemma filter_of_the_others {A} (f g : A -> bool) (l : list A) :
  (forall x, g x = negb (f x)) ->
  filter f (filter g l) = [] /\ filter g (filter g l) = filter g l.
Proof.
  intros H. induction l as [| x rest [IH1 IH2]]; [split; reflexivity |].
  cbn [filter]. destruct (g x) eqn:G.
  - cbn [filter]. rewrite G. rewrite H in G.
    destruct (f x); [discriminate |]. split; [exact IH1 | f_equal; exact IH2].
  - split; assumption.
Qed.

(** X8. Usage tracking overwrites the row of the day instead of adding
    to it.  When the store runs the upsert, the user's row for the
    current UTC day afterwards counts exactly one card and holds the
    cost of this run alone, whatever the row held before; the rows of
    other days and of other users, and every other table, are as they
    were, and the call resolves. *)
Theorem X8_usage_row_is_overwritten
  (env : Env) (uid : Uuid) (costs : Costs) (w : World) :
  store_fault env UpsertUsage = Healthy ->
  let today := utc_day (clock w) in
  let w' := snd (updateUserUsage env uid costs w) in
  fst (updateUserUsage env uid costs w) = Resolved tt
  /\ filter (usage_of uid today) (usage_tracking w')
     = [Usage.mk uid today today 1 (total_cost_usd costs)]
  /\ filter (fun r => negb (usage_of uid today r)) (usage_tracking w')
     = filter (fun r => negb (usage_of uid today r)) (usage_tracking w)
  /\ generation_sessions w' = generation_sessions w
  /\ flash_cards w' = flash_cards w
  /\ card_scenes w' = card_scenes w
  /\ users w' = users w.
Proof.
  intros F. cbn zeta.
  unfold updateUserUsage, try_catch, bind, new_Date, statement, supabase.
  rewrite F.
  cbn [upsert_usage ret fst snd usage_tracking generation_sessions flash_cards
       card_scenes users Usage.user_id Usage.period_start].
  split; [reflexivity |].
  set (today := utc_day (clock w)).
  set (others := fun r : Usage.t =>
         negb ((Usage.user_id r =? uid) && (Usage.period_start r =? today))).
  destruct (@filter_of_the_others _ (usage_of uid today) others
              (usage_tracking w) (fun r => eq_refl)) as [H1 H2].
  assert (Hmine : usage_of uid today
                    (Usage.mk uid today today 1 (total_cost_usd costs)) = true).
  { unfold usage_of. cbn. rewrite !Z.eqb_refl. reflexivity. }
  split; [| split; [| auto]].
  - rewrite filter_app, H1. cbn [filter app]. rewrite Hmine. reflexivity.
  - change (fun r => negb (usage_of uid today r)) with others.
    rewrite filter_app, H2. cbn [filter]. unfold others at 2.
    cbn [Usage.user_id Usage.period_start]. rewrite !Z.eqb_refl.
    cbn [andb negb]. apply app_nil_r.
Qed.

Lemma X8_witness :
  store_fault all_well UpsertUsage = Healthy
  /\ filter (usage_of 7 19723) (usage_tracking store_with_usage)
     = [Usage.mk 7 19723 19723 4 0.82%float]
  /\ filter (usage_of 7 19723)
       (usage_tracking
          (snd (updateUserUsage all_well 7 (mkCosts 1000 4 0.205%float)
                                store_with_usage)))
     = [Usage.mk 7 19723 19723 1 0.205%float].
Proof.
  split; [reflexivity |]. split; [reflexivity |].
  exact (proj1 (proj2 (@X8_usage_row_is_overwritten all_well 7
                         (mkCosts 1000 4 0.205%float) store_with_usage eq_refl))).
Defined.

(* ================================================================== *)
(** * 26. The status route *)
(* ================================================================== *)

(** The cards embedded in a session are the stored cards of that
    session, each with the stored scenes of that card. *)
Lemma embed_cards_sound w s :
  Forall (fun cs : CardWithScenes =>
            In (fst cs) (flash_cards w)
            /\ FlashCard.session_id (fst cs) = Some (Session.id s)
            /\ Forall (fun sc => In sc (card_scenes w)
                                 /\ CardScene.card_id sc = FlashCard.id (fst cs))
                      (snd cs))
         (snd (embed_cards w s)).
Proof.
  unfold embed_cards. cbn [snd]. apply Forall_forall. intros cs Hcs.
  apply in_map_iff in Hcs. destruct Hcs as [c [<- Hc]].
  apply filter_In in Hc. destruct Hc as [Hin Hsid].
  cbn [embed_scenes fst snd]. split; [exact Hin |]. split.
  - destruct (FlashCard.session_id c) as [k |]; [| discriminate].
    apply Z.eqb_eq in Hsid. rewrite Hsid. reflexivity.
  - apply Forall_forall. intros sc Hsc. apply filter_In in Hsc.
    destruct Hsc as [Hsc Hid]. apply Z.eqb_eq in Hid. auto.
Qed.

Lemma embed_cards_complete w s c :
  In c (flash_cards w) ->
  FlashCard.session_id c = Some (Session.id s) ->
  In (c, filter (fun sc => CardScene.card_id sc =? FlashCard.id c) (card_scenes w))
     (snd (embed_cards w s)).
Proof.
  intros Hin Hsid. unfold embed_cards. cbn [snd].
  apply in_map_iff. exists c. split; [reflexivity |].
  apply filter_In. split; [exact Hin |]. rewrite Hsid. apply Z.eqb_refl.
Qed.

(** X9. The status route only reads.  Whatever the request and the
    state of the store, it answers and leaves the world as it is.  When
    it answers with a session, that is a stored session with the
    requested id, owned by the signed-in user, and the cards it comes
    with are exactly the stored cards of that session, each with stored
    scenes of that card only; otherwise the answer is an error 400, 401,
    404 or 500. *)
Theorem X9_status_route_only_reads
  (env : Env) (request : Request) (sessionId : Uuid) (w : World) :
  exists response,
    GET env request sessionId w = (Resolved response, w)
    /\ match response with
       | JsonSessionWithCards s cards =>
           In s (generation_sessions w)
           /\ Session.id s = sessionId
           /\ auth_user request = Some (Session.user_id s)
           /\ Forall (fun cs : CardWithScenes =>
                        In (fst cs) (flash_cards w)
                        /\ FlashCard.session_id (fst cs) = Some sessionId
                        /\ Forall (fun sc =>
                                     In sc (card_scenes w)
                                     /\ CardScene.card_id sc
                                        = FlashCard.id (fst cs))
                                  (snd cs))
                     cards
           /\ (forall c, In c (flash_cards w) ->
                         FlashCard.session_id c = Some sessionId ->
                         In c (map fst cards))
       | JsonError status code _ =>
           In (status, code)
              [(400, "VALIDATION_ERROR"); (401, "UNAUTHORIZED");
               (404, "NOT_FOUND"); (500, "INTERNAL_SERVER_ERROR")]
       | JsonSession _ => False
       end.
Proof.
  unfold GET, try_catch. unfold bind at 1. unfold validateRequest.
  destruct (any_parse (body request)) as [b |];
    [| eexists; split; [reflexivity | cbn; auto]].
  destruct (auth_user request) as [uid |] eqn:Hauth;
    [| eexists; split; [reflexivity | cbn; auto]].
  cbn [ret fst snd]. unfold bind at 1, query, supabase.
  destruct (store_fault env SelectSession);
    [| eexists; split; [reflexivity | cbn; auto 10]
     | eexists; split; [reflexivity | cbn; auto 10]].
  unfold select_session.
  destruct (single _) as [s | m] eqn:Hsingle;
    [| eexists; split; [reflexivity | cbn; auto 10]].
  eexists; split; [reflexivity |].
  assert (Hs : In s (filter (fun s => ((Session.id s =? sessionId)
                                       && (Session.user_id s =? uid))%bool)
                            (generation_sessions w))).
  { unfold single in Hsingle.
    destruct (filter _ (generation_sessions w)) as [| s0 [| s1 rest]];
      try discriminate.
    injection Hsingle as <-. left. reflexivity. }
  apply filter_In in Hs. destruct Hs as [Hin Hhit].
  apply andb_prop in Hhit. destruct Hhit as [Hid Huid].
  apply Z.eqb_eq in Hid. apply Z.eqb_eq in Huid.
  change (fst (embed_cards w s)) with s.
  split; [exact Hin |]. split; [exact Hid |].
  split; [rewrite Huid; reflexivity |].
  split.
  - rewrite <- Hid. apply embed_cards_sound.
  - intros c Hc Hsid. rewrite <- Hid in Hsid.
    apply in_map_iff. eexists. split; [| apply (embed_cards_complete w s c Hc Hsid)].
    reflexivity.
Qed.

(** The status route when the store holds exactly one session with the
    id for the user. *)
Lemma GET_found env request sid uid s w :
  body request <> NoJson ->
  auth_user request = Some uid ->
  store_fault env SelectSession = Healthy ->
  filter (fun s => ((Session.id s =? sid) && (Session.user_id s =? uid))%bool)
         (generation_sessions w) = [s] ->
  GET env request sid w
  = (Resolved (JsonSessionWithCards s (snd (embed_cards w s))), w).
Proof.
  intros Hbody Hauth F Hs.
  unfold GET, try_catch. unfold bind at 1. unfold validateRequest.
  destruct (body request) eqn:Hb; [contradiction Hbody; reflexivity | |];
    cbn [any_parse]; rewrite Hauth; cbn [ret fst snd];
    unfold bind at 1; rewrite query_healthy by exact F;
    unfold select_session; rewrite Hs; reflexivity.
Qed.

(** The status route for a signed-in user, when the store runs the
    query: the body is read first, and a request without one is
    refused. *)
Lemma GET_run env request sid uid w :
  auth_user request = Some uid ->
  store_fault env SelectSession = Healthy ->
  GET env request sid w
  = (Resolved
       match body request with
       | NoJson => JsonError 400 "VALIDATION_ERROR" "Invalid request data"
       | _ =>
           match select_session sid uid w with
           | PgData session =>
               JsonSessionWithCards (fst session) (snd session)
           | PgError _ => JsonError 404 "NOT_FOUND" "Session not found"
           end
       end, w).
Proof.
  intros Hauth F.
  unfold GET, try_catch. unfold bind at 1. unfold validateRequest.
  destruct (body request) eqn:Hb; [reflexivity | |];
    cbn [any_parse]; rewrite Hauth; cbn [ret fst snd];
    unfold bind at 1; rewrite query_healthy by exact F;
    destruct (select_session sid uid w); reflexivity.
Qed.

(** Rows below a key are not selected by it. *)
Lemma filter_below {A} (key : A -> Z) (k : Z) (g : A -> bool) (l : list A) :
  Forall (fun x => key x < k) l ->
  filter (fun x => ((key x =? k) && g x)%bool) l = [].
Proof.
  induction 1 as [| x rest Hx _ IH]; [reflexivity |].
  cbn [filter]. destruct (Z.eqb_spec (key x) k) as [E | _]; [lia | exact IH].
Qed.

Lemma filter_key_below {A} (key : A -> Z) (k : Z) (l : list A) :
  Forall (fun x => key x < k) l ->
  filter (fun x => key x =? k) l = [].
Proof.
  induction 1 as [| x rest Hx _ IH]; [reflexivity |].
  cbn [filter]. destruct (Z.eqb_spec (key x) k) as [E | _]; [lia | exact IH].
Qed.

Lemma map_below {A} (key : A -> Z) (k : Z) (f : A -> A) (l : list A) :
  Forall (fun x => key x < k) l ->
  map (fun x => if key x =? k then f x else x) l = l.
Proof.
  induction 1 as [| x rest Hx _ IH]; [reflexivity |].
  cbn [map]. destruct (Z.eqb_spec (key x) k) as [E | _]; [lia |].
  rewrite IH. reflexivity.
Qed.

(** Every row of [sceneData] names the card. *)
Lemma sceneData_card_id cid index key scenes :
  filter (fun sc => CardScene.card_id sc =? cid) (sceneData cid index key scenes)
  = sceneData cid index key scenes.
Proof.
  revert index key. induction scenes as [| scene rest IH]; intros index key;
    [reflexivity |].
  cbn [sceneData filter CardScene.card_id]. rewrite Z.eqb_refl, IH. reflexivity.
Qed.

Section Round_trip.

Variable env : Env.

(** The store a successful run leaves, in a store whose keys are in
    order: the sessions that were there, then the new one, completed;
    the cards that were there, then the new one; the scenes that were
    there, then those of the new card. *)
Lemma completed_run_tables data uid parsed raw usage w :
  keys_unused w ->
  let sid := next_uuid w in
  let wi := pending_store uid data w in
  let g := generated env data parsed raw usage (log_before_images data raw wi) in
  let card := generated_card env sid data uid parsed raw usage wi in
  let w' := completed_run env sid data uid parsed raw usage wi in
  generation_sessions w'
  = (generation_sessions w
     ++ [set_completed (costs g) (clock w)
           (set_processing
              (fst (insert_session uid (GenerateCard.input_prompt data)
                      (generation_type_of (GenerateCard.card_type data)) w)))])%list
  /\ flash_cards w' = (flash_cards w ++ [card])%list
  /\ card_scenes w'
     = (card_scenes w
        ++ sceneData (FlashCard.id card) 0 (sid + 2)
                     (scenes (FlashCard.content card)))%list.
Proof.
  intros [Hs [Hc Hsc]]. cbn zeta.
  unfold completed_run, pending_store. cbn zeta.
  split; [| split].
  - destruct (0 <? Z.of_nat (List.length raw));
      cbn [insert_session insert_card insert_scenes update_session snd
           generation_sessions with_api_calls clock next_uuid];
      rewrite !map_app, !(@map_below _ Session.id _ _ _ Hs);
      cbn [map Session.id]; rewrite !Z.eqb_refl;
      cbn [set_processing Session.id]; rewrite ?Z.eqb_refl; reflexivity.
  - destruct (0 <? Z.of_nat (List.length raw)); reflexivity.
  - destruct (0 <? Z.of_nat (List.length raw)) eqn:E.
    + cbn [insert_session insert_card insert_scenes update_session snd
           card_scenes with_api_calls next_uuid generated_card FlashCard.id
           FlashCard.content].
      replace (next_uuid w + 1 + 1) with (next_uuid w + 2) by lia. reflexivity.
    + cbn [insert_session insert_card insert_scenes update_session snd
           card_scenes with_api_calls next_uuid generated_card FlashCard.id
           FlashCard.content generated content scenes].
      destruct raw; [cbn; symmetry; apply app_nil_r | discriminate].
Qed.

End Round_trip.

(** X10. What a generation request stores, the query of the status
    route finds.  After a request that passes the quota check, in a
    store whose keys are in order, when the API key is set, text
    generation returns, moderation passes and the store runs the
    statements, the query of the status route for the owner and the id
    the route answered selects the session completed, stamped with the
    instant of the run and with its costs, together with exactly one
    card, the generated one, and the scene rows of that card, numbered
    from 1, one per scene.  The status route answers the owner with
    exactly that when the request carries a JSON body, and with 400
    VALIDATION_ERROR when it carries none, as a GET does. *)
Theorem X10_status_route_after_generation
  (env : Env) (request status_request : Request) (data : GenerateCard.t)
  (uid : Uuid) (parsed : TextContent.t) (raw : list RawScene.t)
  (usage : option float) (w : World) :
  GenerateCardSchema_parse (body request) = Some data ->
  auth_user request = Some uid ->
  checkUserQuota env uid w = (Resolved (mkQuotaCheck true None), w) ->
  falsy_string (OPENAI_API_KEY env) = false ->
  store_runs env [InsertSession; UpdateProcessing; InsertCard; InsertScenes;
                  UpdateCompleted; SelectSession] ->
  text_generated env data parsed raw usage ->
  moderation_passes env (moderated_text raw) ->
  keys_unused w ->
  auth_user status_request = Some uid ->
  let sid := next_uuid w in
  let wi := pending_store uid data w in
  let card := generated_card env sid data uid parsed raw usage wi in
  let rows := sceneData (FlashCard.id card) 0 (sid + 2)
                        (scenes (FlashCard.content card)) in
  let w' := snd (POST env request w) in
  exists session,
    select_session sid uid w' = PgData (session, [(card, rows)])
    /\ GET env status_request sid w'
       = (Resolved
            match body status_request with
            | NoJson =>
                JsonError 400 "VALIDATION_ERROR" "Invalid request data"
            | _ => JsonSessionWithCards session [(card, rows)]
            end, w')
    /\ Session.id session = sid
    /\ Session.user_id session = uid
    /\ Session.input_prompt session = GenerateCard.input_prompt data
    /\ Session.status session = completed
    /\ Session.completed_at session = Some (clock w)
    /\ Session.ai_costs session
       = calculateCosts (number_or_zero usage) (List.length raw)
    /\ map CardScene.scene_order rows
       = map Z.of_nat (seq 1 (List.length raw)).
Proof.
  intros Hparse Hauth Hquota Hkey Hstore Htext Hmod Hkeys Hauth'.
  cbn zeta.
  set (sid := next_uuid w). set (wi := pending_store uid data w).
  set (card := generated_card env sid data uid parsed raw usage wi).
  set (g := generated env data parsed raw usage (log_before_images data raw wi)).
  assert (Hpost : snd (POST env request w)
                  = snd (updateUserUsage env uid (costs g)
                           (completed_run env sid data uid parsed raw usage wi))).
  { rewrite (@POST_admitted env request data uid w Hparse Hauth Hquota).
    rewrite (Hstore InsertSession) by (cbn; auto). cbn [snd].
    unfold detached, try_catch. fold sid.
    rewrite (@generateCardAsync_run env sid data uid parsed raw usage
               (snd (insert_session uid (GenerateCard.input_prompt data)
                       (generation_type_of (GenerateCard.card_type data)) w)))
      by (try assumption; intros op Hop; apply Hstore; cbn in Hop |- *; tauto).
    fold (pending_store uid data w). fold wi. fold g.
    destruct (updateUserUsage_run env uid (costs g)
                (completed_run env sid data uid parsed raw usage wi)) as [Hres _].
    destruct (updateUserUsage env uid (costs g)
                (completed_run env sid data uid parsed raw usage wi))
      as [[[] | e] wu]; [reflexivity | discriminate]. }
  destruct (updateUserUsage_run env uid (costs g)
              (completed_run env sid data uid parsed raw usage wi))
    as [_ [Hsess [Hcards [Hscenes _]]]].
  destruct (@completed_run_tables env data uid parsed raw usage w Hkeys)
    as [Ts [Tc Tsc]].
  cbn zeta in Ts, Tc, Tsc. fold sid wi g card in Ts, Tc, Tsc.
  rewrite <- Hpost in Hsess, Hcards, Hscenes.
  rewrite Ts in Hsess. rewrite Tc in Hcards. rewrite Tsc in Hscenes.
  destruct Hkeys as [Ks [Kc Ksc]].
  set (session := set_completed (costs g) (clock w)
         (set_processing
            (fst (insert_session uid (GenerateCard.input_prompt data)
                    (generation_type_of (GenerateCard.card_type data)) w)))) in *.
  assert (Hrow : filter (fun s => ((Session.id s =? sid)
                                   && (Session.user_id s =? uid))%bool)
                        (generation_sessions (snd (POST env request w)))
                 = [session]).
  { rewrite Hsess, filter_app, (@filter_below _ Session.id _ _ _ Ks).
    cbn [filter app insert_session fst set_processing set_completed
         Session.id Session.user_id].
    fold sid. rewrite !Z.eqb_refl. reflexivity. }
  assert (Hfound : JsonSessionWithCards session
                     (snd (embed_cards (snd (POST env request w)) session))
                   = JsonSessionWithCards session
                       [(card, sceneData (FlashCard.id card) 0 (sid + 2)
                                         (scenes (FlashCard.content card)))]).
  2:{ injection Hfound as Hfound.
      assert (Hsel : select_session sid uid (snd (POST env request w))
                     = PgData (session,
                               [(card, sceneData (FlashCard.id card) 0 (sid + 2)
                                         (scenes (FlashCard.content card)))])).
      { unfold select_session. rewrite Hrow. cbn [single].
        apply (f_equal (fun l => @PgData SessionWithCards (session, l)))
          in Hfound.
        exact Hfound. }
      exists session. split; [exact Hsel |]. split; [| repeat split].
      - rewrite (@GET_run env status_request sid uid
                   (snd (POST env request w)) Hauth'
                   (Hstore SelectSession ltac:(cbn; auto 10))).
        rewrite Hsel. destruct (body status_request); reflexivity.
      - unfold card. cbn [generated_card FlashCard.content generated content scenes].
        generalize (FlashCard.id card) (sid + 2).
        rewrite <- (scene_images_length env (log_before_images data raw wi)
                      (GenerateCard.generation_params data) raw).
        generalize (scene_images env (log_before_images data raw wi)
                      (GenerateCard.generation_params data) raw).
        intros l cid key.
        change 1%nat with (S O). change 0 with (Z.of_nat 0).
        generalize 0%nat. revert key.
        induction l as [| sc rest IH]; intros key n; [reflexivity |].
        cbn [sceneData map CardScene.scene_order List.length seq]. f_equal.
        * lia.
        * replace (Z.of_nat n + 1) with (Z.of_nat (S n)) by lia. apply IH. }
  - unfold embed_cards. cbn [snd].
    change (Session.id session) with (next_uuid w).
    rewrite Hcards, filter_app.
    replace (filter _ (flash_cards w)) with (@nil FlashCard.t).
    2:{ symmetry. clear -Kc.
        induction Kc as [| c rest Hc _ IH]; [reflexivity |].
        cbn [filter]. destruct (FlashCard.session_id c) as [k |] eqn:E;
          [| exact IH].
        specialize (Hc k eq_refl).
        destruct (Z.eqb_spec k (next_uuid w)) as [E' | _]; [lia | exact IH]. }
    cbn [filter app generated_card FlashCard.session_id set_completed
         set_processing insert_session fst Session.id card].
    change (sid =? next_uuid w) with (next_uuid w =? next_uuid w).
    rewrite Z.eqb_refl. cbn [map embed_scenes].
    f_equal. f_equal. unfold embed_scenes. f_equal.
    rewrite Hscenes, filter_app.
    replace (filter _ (card_scenes w)) with (@nil CardScene.t).
    2:{ symmetry. clear -Ksc.
        change (FlashCard.id card) with (next_uuid w + 1).
        induction Ksc as [| sc rest Hsc _ IH]; [reflexivity |].
        cbn [filter].
        destruct (Z.eqb_spec (CardScene.card_id sc) (next_uuid w + 1)) as [E | _];
          [lia | exact IH]. }
    cbn [app]. apply sceneData_card_id.
Qed.

Lemma X10_witness :
  let w' := snd (POST all_well (elephant_request 7) empty_store) in
  let card := generated_card all_well 100 elephant_data 7 elephant_content
                             elephant_scenes (Some 1000%float)
                             (pending_store 7 elephant_data empty_store) in
  GenerateCardSchema_parse (body (elephant_request 7)) = Some elephant_data
  /\ checkUserQuota all_well 7 empty_store
     = (Resolved (mkQuotaCheck true None), empty_store)
  /\ text_generated all_well elephant_data elephant_content elephant_scenes
                    (Some 1000%float)
  /\ moderation_passes all_well (moderated_text elephant_scenes)
  /\ keys_unused empty_store
  /\ exists session,
       select_session 100 7 w'
       = PgData (session,
                 [(card, sceneData 101 0 102 (scenes (FlashCard.content card)))])
       /\ fst (GET all_well (mkRequest NoJson (Some 7)) 100 w')
          = Resolved (JsonError 400 "VALIDATION_ERROR" "Invalid request data")
       /\ Session.status session = completed.
Proof.
  intros w' card.
  assert (H1 : GenerateCardSchema_parse (body (elephant_request 7))
               = Some elephant_data) by reflexivity.
  assert (H2 : checkUserQuota all_well 7 empty_store
               = (Resolved (mkQuotaCheck true None), empty_store))
    by reflexivity.
  assert (H3 : store_runs all_well
                 [InsertSession; UpdateProcessing; InsertCard; InsertScenes;
                  UpdateCompleted; SelectSession])
    by (intros op _; reflexivity).
  assert (H4 : text_generated all_well elephant_data elephant_content
                 elephant_scenes (Some 1000%float)).
  { exists "{...}". repeat split. }
  assert (H5 : moderation_passes all_well (moderated_text elephant_scenes))
    by reflexivity.
  assert (H6 : keys_unused empty_store).
  { repeat split; constructor. }
  split; [exact H1 |]. split; [exact H2 |]. split; [exact H4 |].
  split; [exact H5 |]. split; [exact H6 |].
  destruct (@X10_status_route_after_generation all_well (elephant_request 7)
              (mkRequest NoJson (Some 7)) elephant_data 7 elephant_content
              elephant_scenes (Some 1000%float) empty_store
              H1 eq_refl H2 eq_refl H3 H4 H5 H6 eq_refl)
    as [session [Hsel [Hget [_ [_ [_ [Hstatus _]]]]]]].
  exists session. split; [exact Hsel |]. split; [| exact Hstatus].
  exact (f_equal fst Hget).
Defined.

(** With a JSON body, the owner of the sample run reads the completed
    session and its card. *)
Example owner_reads_the_generated_session :
  let w' := snd (POST all_well (elephant_request 7) empty_store) in
  match fst (GET all_well (mkRequest OtherJson (Some 7)) 100 w') with
  | Resolved (JsonSessionWithCards session cards) =>
      Some (Session.id session, Session.status session,
            map (fun cs : CardWithScenes =>
                   (FlashCard.id (fst cs), List.length (snd cs))) cards)
  | _ => None
  end
  = Some (100, completed, [(101, 4%nat)]).
Proof. vm_compute. reflexivity. Qed.

(* ================================================================== *)
(** * 27. The life of a session *)
(* ================================================================== *)

Lemma last_default {A} (x : A) (l : list A) (d d' : A) :
  last (x :: l) d = last (x :: l) d'.
Proof.
  revert x. induction l as [| y rest IH]; intros x; [reflexivity |].
  change (last (y :: rest) d = last (y :: rest) d'). apply IH.
Qed.

Lemma status_path_app from l st :
  status_path from (l ++ [st])
  = (status_path from l && status_step (last l from) st)%bool.
Proof.
  revert from. induction l as [| x rest IH]; intros from.
  - cbn. rewrite andb_true_r. reflexivity.
  - cbn [app status_path]. rewrite IH, andb_assoc.
    destruct rest as [| y rest]; [reflexivity |].
    rewrite (last_default y rest x from). reflexivity.
Qed.

Lemma sessions_with_id_update sid patch w :
  (forall s, Session.id (patch s) = Session.id s) ->
  sessions_with_id sid (snd (update_session sid patch w))
  = map patch (sessions_with_id sid w).
Proof.
  intros Hid. unfold sessions_with_id. cbn [update_session snd generation_sessions].
  induction (generation_sessions w) as [| s rest IH]; [reflexivity |].
  cbn [map filter]. destruct (Session.id s =? sid) eqn:E.
  - rewrite Hid, E. cbn [map]. rewrite IH. reflexivity.
  - rewrite E. exact IH.
Qed.

Section Journal.

Variable env : Env.
Variable sid : Uuid.
Variable J : list Session.t.

Lemma journal_since_weaken (allowed allowed' : SessionStatus -> bool) w :
  (forall st, allowed st = true -> allowed' st = true) ->
  journal_since J sid allowed w -> journal_since J sid allowed' w.
Proof.
  intros H [new [cur [H1 [H2 [H3 H4]]]]]. exists new, cur. auto.
Qed.

(** An update of the session that takes a step. *)
Lemma journal_since_update (allowed allowed' : SessionStatus -> bool)
  (patch : Session.t -> Session.t) (st' : SessionStatus) w :
  (forall s, Session.id (patch s) = Session.id s) ->
  (forall s, Session.status (patch s) = st') ->
  (forall st, allowed st = true -> status_step st st' = true) ->
  allowed' st' = true ->
  journal_since J sid allowed w ->
  journal_since J sid allowed' (snd (update_session sid patch w)).
Proof.
  intros Hid Hst Hstep Hok [new [cur [HJ [Hcur [Hal [Hnew [Hpath Hlast]]]]]]].
  exists (patch cur :: new), (patch cur).
  split.
  { cbn [update_session snd session_writes].
    fold (sessions_with_id sid w). rewrite Hcur, HJ. reflexivity. }
  split; [rewrite sessions_with_id_update, Hcur by exact Hid; reflexivity |].
  split; [rewrite Hst; exact Hok |].
  split.
  { constructor; [| exact Hnew]. rewrite Hid.
    assert (Hin : In cur (sessions_with_id sid w)) by (rewrite Hcur; left; reflexivity).
    apply filter_In in Hin. apply Z.eqb_eq. apply Hin. }
  cbn [rev]. rewrite map_app. cbn [map].
  split.
  - rewrite status_path_app, Hpath, Hlast, Hst. cbn [andb].
    apply Hstep. exact Hal.
  - rewrite last_last. reflexivity.
Qed.

Lemma journal_since_log_blind allowed : log_blind (journal_since J sid allowed).
Proof. intros w c H. exact H. Qed.

(** Every statement of the pipeline on the session, from any of the
    statuses it can be sent in. *)
Lemma journal_update_triple (allowed after : SessionStatus -> bool)
  (op : StoreOp) (patch : Session.t -> Session.t) (st' : SessionStatus) :
  (forall s, Session.id (patch s) = Session.id s) ->
  (forall s, Session.status (patch s) = st') ->
  (forall st, allowed st = true -> status_step st st' = true) ->
  (forall st, allowed st = true -> after st = true) ->
  after st' = true ->
  triple (journal_since J sid allowed)
         (statement env op (update_session sid patch))
         (fun _ => journal_since J sid after)
         (fun _ => journal_since J sid allowed).
Proof.
  intros Hid Hst Hstep Hsub Hok. unfold statement.
  apply triple_supabase.
  - intros w Hw. cbn [fst snd].
    pose proof (@journal_since_update allowed after patch st' w
                  Hid Hst Hstep Hok Hw) as H.
    destruct (update_session sid patch w). exact H.
  - intros m w Hw. apply (journal_since_weaken _ Hsub Hw).
  - intros m w Hw. exact Hw.
Qed.

(** The detached pipeline takes the session along a path of steps. *)
Lemma detached_journal data uid :
  triple (journal_since J sid is_pending)
         (detached env sid data uid)
         (fun _ => journal_since J sid any_status)
         (fun _ _ => False).
Proof.
  unfold detached.
  apply triple_try_catch
    with (E' := fun _ => journal_since J sid not_completed).
  2:{ intros e.
      apply triple_try_catch
        with (E' := fun _ => journal_since J sid not_completed).
      - apply triple_bind with (R := fun _ => journal_since J sid not_completed);
          [apply stable_new_Date |]. intros now.
        apply triple_bind with (R := fun _ => journal_since J sid not_completed).
        + apply journal_update_triple with (st' := failed); try reflexivity; auto;
            try (intros [] H; try reflexivity; discriminate).
        + intros _. apply triple_ret. intros w.
          apply journal_since_weaken. reflexivity.
      - intros _. apply triple_ret. intros w.
        apply journal_since_weaken. reflexivity. }
  unfold generateCardAsync.
  apply triple_bind with (R := fun _ => journal_since J sid is_pending).
  { unfold OpenAIService_new. destruct (falsy_string _);
      [apply triple_throw | apply triple_ret]; auto.
    intros w. apply journal_since_weaken. intros [] H; try reflexivity; discriminate. }
  intros _.
  apply triple_try_catch
    with (E' := fun _ => journal_since J sid not_completed).
  2:{ intros e.
      apply triple_bind with (R := fun _ => journal_since J sid not_completed);
        [apply stable_new_Date |]. intros now.
      apply triple_bind with (R := fun _ => journal_since J sid not_completed);
        [| intros _; apply triple_throw; auto].
      apply journal_update_triple with (st' := failed); try reflexivity; auto;
        try (intros [] H; try reflexivity; discriminate). }
  assert (Hopen : forall w, journal_since J sid open_status w ->
                            journal_since J sid not_completed w).
  { intros w. apply journal_since_weaken.
    intros [] H; try reflexivity; discriminate. }
  apply triple_bind with (R := fun _ => journal_since J sid open_status).
  { eapply triple_conseq.
    - apply journal_update_triple
        with (allowed := is_pending) (after := open_status) (st' := processing);
        try reflexivity.
      + intros [] H; try reflexivity; discriminate.
      + intros [] H; try reflexivity; discriminate.
    - auto.
    - auto.
    - intros e w H. cbn beta in H. apply Hopen.
      revert H. apply journal_since_weaken.
      intros [] H; try reflexivity; discriminate. }
  intros _.
  apply triple_bind with (R := fun _ => journal_since J sid open_status).
  { apply stable_rejecting; [| exact Hopen].
    apply stable_generateCardContent. apply journal_since_log_blind. }
  intros cardContent.
  apply triple_bind with (R := fun _ => journal_since J sid open_status).
  { apply stable_rejecting; [| exact Hopen].
    apply stable_statement. intros w H. exact H. }
  intros inserted.
  apply triple_bind with (R := fun _ => journal_since J sid open_status).
  { destruct inserted; [apply triple_ret | apply triple_throw]; auto. }
  intros card.
  apply triple_bind with (R := fun _ => journal_since J sid open_status).
  { apply stable_rejecting; [| exact Hopen].
    destruct (0 <? _); [| apply stable_ret].
    apply stable_bind; [| intros _; apply stable_ret].
    apply stable_statement. intros w H. exact H. }
  intros _.
  apply triple_bind with (R := fun _ => journal_since J sid open_status).
  { apply stable_rejecting; [apply stable_new_Date | exact Hopen]. }
  intros now.
  apply triple_bind with (R := fun _ => journal_since J sid any_status).
  { eapply triple_conseq.
    - apply journal_update_triple
        with (allowed := open_status) (after := any_status) (st' := completed);
        try reflexivity.
      intros [] H; try reflexivity; discriminate.
    - auto.
    - auto.
    - intros e w H. apply Hopen. exact H. }
  intros _.
  intros w Hw.
  destruct (updateUserUsage_run env uid (costs cardContent) w)
    as [Hres [Hsess _]].
  assert (Hwrites : session_writes (snd (updateUserUsage env uid
                                           (costs cardContent) w))
                    = session_writes w).
  { unfold updateUserUsage, try_catch, bind, new_Date, statement, supabase.
    destruct (store_fault env UpsertUsage); reflexivity. }
  destruct (updateUserUsage env uid (costs cardContent) w) as [[[] | e] w'];
    [| discriminate].
  cbn [snd] in Hsess, Hwrites.
  destruct Hw as [new [cur [H1 [H2 H3]]]]. exists new, cur.
  split; [rewrite Hwrites; exact H1 |].
  split; [unfold sessions_with_id in *; rewrite Hsess; exact H2 | exact H3].
Qed.

End Journal.

(** X11. The status of a session only moves forward.  From a store that
    holds the session once, pending, the pipeline the route starts
    always settles, and the versions of the session it writes, in the
    order it writes them, take only the steps pending to processing,
    pending or processing to completed or failed, and failed to failed:
    nothing is written after completed, and a failed session is never
    taken up again.  The row ends as the last version written. *)
Theorem X11_status_only_moves_forward
  (env : Env) (sid : Uuid) (data : GenerateCard.t) (uid : Uuid)
  (s : Session.t) (w : World) :
  sessions_with_id sid w = [s] ->
  Session.status s = pending ->
  let w' := snd (detached env sid data uid w) in
  fst (detached env sid data uid w) = Resolved tt
  /\ exists new cur,
       session_writes w' = (new ++ session_writes w)%list
       /\ Forall (fun v => Session.id v = sid) new
       /\ status_path pending (map Session.status (rev new)) = true
       /\ sessions_with_id sid w' = [cur]
       /\ Session.status cur = last (map Session.status (rev new)) pending.
Proof.
  intros Hs Hst. cbn zeta.
  split; [apply detached_resolves |].
  pose proof (@detached_journal env sid (session_writes w) data uid w) as T.
  assert (Hw : journal_since (session_writes w) sid is_pending w).
  { exists [], s. rewrite Hst. repeat split; auto. }
  specialize (T Hw).
  destruct (detached env sid data uid w) as [[[] | e] w']; [| contradiction].
  destruct T as [new [cur [H1 [H2 [_ [H4 [H5 H6]]]]]]].
  exists new, cur. auto.
Qed.

Lemma X11_witness :
  sessions_with_id 100 elephant_pending
  = [Session.mk 100 7 "elephant" single_word_card pending None
                default_ai_costs 0 (clock empty_store) None]
  /\ map Session.status
         (session_writes (snd (detached all_well 100 elephant_data 7
                                        elephant_pending)))
     = [completed; processing; pending]
  /\ exists new cur,
       session_writes (snd (detached all_well 100 elephant_data 7
                                     elephant_pending))
       = (new ++ session_writes elephant_pending)%list
       /\ Forall (fun v => Session.id v = 100) new
       /\ status_path pending (map Session.status (rev new)) = true
       /\ sessions_with_id 100
            (snd (detached all_well 100 elephant_data 7 elephant_pending))
          = [cur]
       /\ Session.status cur = last (map Session.status (rev new)) pending.
Proof.
  split; [reflexivity |]. split; [vm_compute; reflexivity |].
  exact (proj2 (@X11_status_only_moves_forward all_well 100 elephant_data 7 _
                  elephant_pending eq_refl eq_refl)).
Defined.

(* ================================================================== *)
(** * 28. The card and its scene rows *)
(* ================================================================== *)

Section Scene_rows.

Variable env : Env.

(** The pipeline up to the insertion of the scene rows. *)
Lemma generateCardAsync_to_scene_rows sid data uid parsed raw usage w :
  falsy_string (OPENAI_API_KEY env) = false ->
  store_runs env [UpdateProcessing; InsertCard] ->
  text_generated env data parsed raw usage ->
  moderation_passes env (moderated_text raw) ->
  let g := generated env data parsed raw usage (log_before_images data raw w) in
  let card := generated_card env sid data uid parsed raw usage w in
  let w3 := card_without_scene_rows env sid data uid parsed raw usage w in
  generateCardAsync env sid data uid w
  = try_catch
      ((if 0 <? Z.of_nat (List.length raw)
        then statement env InsertScenes
               (insert_scenes (FlashCard.id card) (scenes (content g))) ;;;
             ret tt
        else ret tt) ;;;
       now <- new_Date ;;
       statement env UpdateCompleted
         (update_session sid (set_completed (costs g) now)) ;;;
       updateUserUsage env uid (costs g))
      (fun error =>
         now <- new_Date ;;
         statement env UpdateFailed
           (update_session sid (set_failed (message error) now)) ;;;
         throw error)
      w3.
Proof.
  intros Hkey Hstore Htext Hmod. cbn zeta.
  unfold generateCardAsync, OpenAIService_new. rewrite Hkey.
  unfold bind at 1. cbn [ret]. unfold try_catch.
  unfold bind at 1. rewrite statement_healthy by (apply Hstore; cbn; auto).
  unfold bind at 1. rewrite (generateCardContent_run _ Htext Hmod).
  cbn zeta.
  unfold bind at 1. rewrite statement_healthy by (apply Hstore; cbn; auto).
  cbn [title content costs scenes].
  unfold bind at 1. cbn [fst snd ret insert_card].
  rewrite scene_images_length. reflexivity.
Qed.

End Scene_rows.

(** X12. An error the store answers to the insertion of the scene rows
    goes unnoticed.  When text generation returns, moderation passes,
    the store runs the other statements and refuses that one, the run
    resolves and the session is completed as if nothing had happened:
    the card is stored, with its scenes in its content, and no row of
    [card_scenes] exists for it. *)
Theorem X12_refused_scene_rows_go_unnoticed
  (env : Env) (sid : Uuid) (data : GenerateCard.t) (uid : Uuid)
  (parsed : TextContent.t) (raw : list RawScene.t) (usage : option float)
  (m : string) (w : World) :
  falsy_string (OPENAI_API_KEY env) = false ->
  store_runs env [UpdateProcessing; InsertCard; UpdateCompleted] ->
  store_fault env InsertScenes = Refuses m ->
  text_generated env data parsed raw usage ->
  moderation_passes env (moderated_text raw) ->
  let w' := snd (generateCardAsync env sid data uid w) in
  let card := generated_card env sid data uid parsed raw usage w in
  fst (generateCardAsync env sid data uid w) = Resolved tt
  /\ (forall s, In s (sessions_with_id sid w') ->
                Session.status s = completed)
  /\ flash_cards w' = (flash_cards w ++ [card])%list
  /\ List.length (scenes (FlashCard.content card)) = List.length raw
  /\ card_scenes w' = card_scenes w.
Proof.
  intros Hkey Hstore Hrefuse Htext Hmod. cbn zeta.
  rewrite (@generateCardAsync_to_scene_rows env sid data uid parsed raw usage w)
    by (try assumption; intros op Hop; apply Hstore; cbn in Hop |- *; tauto).
  set (g := generated env data parsed raw usage (log_before_images data raw w)).
  set (w3 := card_without_scene_rows env sid data uid parsed raw usage w).
  set (w4 := snd (update_session sid (set_completed (costs g) (clock w3)) w3)).
  assert (Hrun : try_catch
            ((if 0 <? Z.of_nat (List.length raw)
              then statement env InsertScenes
                     (insert_scenes
                        (FlashCard.id
                           (generated_card env sid data uid parsed raw usage w))
                        (scenes (content g))) ;;;
                   ret tt
              else ret tt) ;;;
             now <- new_Date ;;
             statement env UpdateCompleted
               (update_session sid (set_completed (costs g) now)) ;;;
             updateUserUsage env uid (costs g))
            (fun error =>
               now <- new_Date ;;
               statement env UpdateFailed
                 (update_session sid (set_failed (message error) now)) ;;;
               throw error)
            w3
          = updateUserUsage env uid (costs g) w4).
  { unfold try_catch. unfold bind at 1.
    assert (Hscenes :
              (if 0 <? Z.of_nat (List.length raw)
               then statement env InsertScenes
                      (insert_scenes
                         (FlashCard.id
                            (generated_card env sid data uid parsed raw usage w))
                         (scenes (content g))) ;;;
                    ret tt
               else ret tt) w3 = (Resolved tt, w3)).
    { destruct (0 <? Z.of_nat (List.length raw)); [| reflexivity].
      unfold bind, statement. rewrite supabase_refused with (m := m) by exact Hrefuse.
      reflexivity. }
    rewrite Hscenes. unfold bind at 1. unfold new_Date at 1.
    unfold bind at 1. rewrite statement_healthy by (apply Hstore; cbn; auto).
    cbn [fst snd]. fold w4.
    apply settle_resolved. exists tt. apply updateUserUsage_run. }
  rewrite Hrun.
  destruct (updateUserUsage_run env uid (costs g) w4)
    as [Hres [Hsess [Hcards [Hsc _]]]].
  split; [exact Hres |].
  split.
  { intros s Hs. unfold sessions_with_id in Hs. rewrite Hsess in Hs.
    apply (updated_rows sid) in Hs; [| reflexivity].
    destruct Hs as [s0 [Hs0 ->]].
    unfold w3, card_without_scene_rows in Hs0. cbn zeta in Hs0.
    change (In s0 (sessions_with_id sid
                     (snd (update_session sid set_processing w)))) in Hs0.
    apply (updated_rows sid) in Hs0; [| reflexivity].
    destruct Hs0 as [s1 [_ ->]]. reflexivity. }
  split; [rewrite Hcards; reflexivity |].
  split; [apply scene_images_length |].
  rewrite Hsc. reflexivity.
Qed.

Lemma X12_witness :
  store_fault scene_insert_refused InsertScenes
  = Refuses "permission denied for table card_scenes"
  /\ text_generated scene_insert_refused elephant_data elephant_content
                    elephant_scenes (Some 1000%float)
  /\ moderation_passes scene_insert_refused (moderated_text elephant_scenes)
  /\ fst (generateCardAsync scene_insert_refused 100 elephant_data 7
                            elephant_pending) = Resolved tt
  /\ card_scenes (snd (generateCardAsync scene_insert_refused 100
                         elephant_data 7 elephant_pending))
     = card_scenes elephant_pending.
Proof.
  assert (H1 : falsy_string (OPENAI_API_KEY scene_insert_refused) = false)
    by reflexivity.
  assert (H2 : store_runs scene_insert_refused
                 [UpdateProcessing; InsertCard; UpdateCompleted]).
  { intros op [<- | [<- | [<- | []]]]; reflexivity. }
  assert (H3 : text_generated scene_insert_refused elephant_data
                 elephant_content elephant_scenes (Some 1000%float)).
  { exists "{...}". repeat split. }
  assert (H4 : moderation_passes scene_insert_refused
                 (moderated_text elephant_scenes)) by reflexivity.
  split; [reflexivity |]. split; [exact H3 |]. split; [exact H4 |].
  pose proof (@X12_refused_scene_rows_go_unnoticed scene_insert_refused 100
                elephant_data 7 elephant_content elephant_scenes
                (Some 1000%float) _ elephant_pending H1 H2 eq_refl H3 H4) as H.
  cbn zeta in H. destruct H as [Hres [_ [_ [_ Hsc]]]].
  split; [exact Hres | exact Hsc].
Defined.

(** X13. The card and its scene rows are not stored as one.  When text
    generation returns scenes, moderation passes and the insertion of
    the scene rows throws after the card was inserted, the run rejects
    with that error and the session is marked failed with its message,
    yet the card stays in the store, without scene rows: nothing undoes
    the insertion of the card. *)
Theorem X13_card_stays_when_scene_rows_throw
  (env : Env) (sid : Uuid) (data : GenerateCard.t) (uid : Uuid)
  (parsed : TextContent.t) (raw : list RawScene.t) (usage : option float)
  (m : string) (w : World) :
  falsy_string (OPENAI_API_KEY env) = false ->
  store_runs env [UpdateProcessing; InsertCard; UpdateFailed] ->
  store_fault env InsertScenes = Crashes m ->
  text_generated env data parsed raw usage ->
  moderation_passes env (moderated_text raw) ->
  raw <> [] ->
  let w' := snd (generateCardAsync env sid data uid w) in
  let card := generated_card env sid data uid parsed raw usage w in
  fst (generateCardAsync env sid data uid w) = Rejected (Error_new m)
  /\ (forall s, In s (sessions_with_id sid w') ->
                Session.status s = failed
                /\ Session.error_message s = Some m)
  /\ flash_cards w' = (flash_cards w ++ [card])%list
  /\ card_scenes w' = card_scenes w.
Proof.
  intros Hkey Hstore Hcrash Htext Hmod Hraw. cbn zeta.
  assert (Hrun : generateCardAsync env sid data uid w
                 = (Rejected (Error_new m),
                    snd (update_session sid (set_failed m (clock w))
                           (card_without_scene_rows env sid data uid parsed raw
                                                    usage w)))).
  { rewrite (@generateCardAsync_to_scene_rows env sid data uid parsed raw usage w)
      by (try assumption; intros op Hop; apply Hstore; cbn in Hop |- *; tauto).
    assert (Hlen : (0 <? Z.of_nat (List.length raw)) = true).
    { destruct raw; [contradiction Hraw; reflexivity | reflexivity]. }
    rewrite Hlen.
    unfold try_catch. unfold bind at 1. unfold bind at 1.
    unfold statement at 1. rewrite supabase_crashed with (m := m) by exact Hcrash.
    unfold bind at 1. unfold new_Date at 1.
    unfold bind at 1. rewrite statement_healthy by (apply Hstore; cbn; auto).
    reflexivity. }
  rewrite Hrun. cbn [fst snd].
  split; [reflexivity |].
  split.
  { intros s Hs.
    apply (updated_rows sid) in Hs; [| reflexivity].
    destruct Hs as [s0 [_ ->]]. split; reflexivity. }
  split; reflexivity.
Qed.

Lemma X13_witness :
  store_fault scene_insert_throws InsertScenes = Crashes "fetch failed"
  /\ elephant_scenes <> []
  /\ fst (generateCardAsync scene_insert_throws 100 elephant_data 7
                            elephant_pending)
     = Rejected (Error_new "fetch failed")
  /\ flash_cards (snd (generateCardAsync scene_insert_throws 100
                         elephant_data 7 elephant_pending))
     = (flash_cards elephant_pending
        ++ [generated_card scene_insert_throws 100 elephant_data 7
                           elephant_content elephant_scenes (Some 1000%float)
                           elephant_pending])%list.
Proof.
  assert (H1 : falsy_string (OPENAI_API_KEY scene_insert_throws) = false)
    by reflexivity.
  assert (H2 : store_runs scene_insert_throws
                 [UpdateProcessing; InsertCard; UpdateFailed]).
  { intros op [<- | [<- | [<- | []]]]; reflexivity. }
  assert (H3 : text_generated scene_insert_throws elephant_data
                 elephant_content elephant_scenes (Some 1000%float)).
  { exists "{...}". repeat split. }
  assert (H4 : moderation_passes scene_insert_throws
                 (moderated_text elephant_scenes)) by reflexivity.
  assert (H5 : elephant_scenes <> []) by discriminate.
  split; [reflexivity |]. split; [exact H5 |].
  pose proof (@X13_card_stays_when_scene_rows_throw scene_insert_throws 100
                elephant_data 7 elephant_content elephant_scenes
                (Some 1000%float) _ elephant_pending H1 H2 eq_refl H3 H4 H5) as H.
  cbn zeta in H. destruct H as [Hres [_ [Hcards _]]].
  split; [exact Hres | exact Hcards].
Defined.

(* ================================================================== *)
(** * 29. What a generation request leaves *)
(* ================================================================== *)

Section Request_effects.

Variable env : Env.

(** The two ways the route goes: an error and nothing done, or the
    pending session and the detached pipeline. *)
Lemma POST_cases request w :
  (exists status code msg,
     POST env request w = (Resolved (JsonError status code msg), w))
  \/ (exists data uid,
        GenerateCardSchema_parse (body request) = Some data
        /\ auth_user request = Some uid
        /\ checkUserQuota env uid w = (Resolved (mkQuotaCheck true None), w)
        /\ store_fault env InsertSession = Healthy
        /\ POST env request w
           = (Resolved (JsonSession
                (fst (insert_session uid (GenerateCard.input_prompt data)
                        (generation_type_of (GenerateCard.card_type data)) w))),
              snd (detached env (next_uuid w) data uid (pending_store uid data w)))).
Proof.
  destruct (GenerateCardSchema_parse (body request)) as [data |] eqn:Hparse.
  2:{ left. do 3 eexists. apply POST_invalid. exact Hparse. }
  destruct (auth_user request) as [uid |] eqn:Hauth.
  2:{ left. do 3 eexists. eapply POST_unauthenticated; eassumption. }
  destruct (checkUserQuota_total env uid w) as [[[|] msg] Hq].
  - assert (Hq' : checkUserQuota env uid w
                  = (Resolved (mkQuotaCheck true None), w)).
    { rewrite Hq. f_equal. f_equal. revert Hq.
      unfold checkUserQuota, try_catch, bind, query, statement, supabase, new_Date.
      destruct (store_fault env SelectUserTier);
        destruct (store_fault env CountSessionsToday); cbn [ret fst snd];
        try (intros H; injection H as <-; reflexivity);
        destruct (ge_undefined _ _); intros H; injection H as H;
        try discriminate; subst; reflexivity. }
    pose proof (@POST_admitted env request data uid w Hparse Hauth Hq') as Hpost.
    cbn zeta in Hpost.
    destruct (store_fault env InsertSession) eqn:F.
    + right. exists data, uid. auto.
    + left. do 3 eexists. exact Hpost.
    + left. do 3 eexists. exact Hpost.
  - left. do 3 eexists.
    unfold POST, try_catch. unfold bind at 1.
    unfold validateRequest. rewrite Hparse, Hauth. cbn [ret fst snd].
    unfold bind at 1. rewrite Hq. reflexivity.
Qed.

(** Appending is kept by every statement of the pipeline on a session
    whose key is above the keys of the sessions that were there. *)
Lemma appended_kept_by_store w sid :
  Forall (fun s => Session.id s < sid) (generation_sessions w) ->
  kept_by_store sid (appended_to w sid)
  /\ (forall w0, appended_to w sid w0 ->
                 appended_to w sid (snd (update_session sid set_processing w0)))
  /\ log_blind (appended_to w sid).
Proof.
  intros Hold.
  assert (Hupdate : forall patch w0,
            (forall s, Session.id (patch s) = Session.id s) ->
            appended_to w sid w0 ->
            appended_to w sid (snd (update_session sid patch w0))).
  { intros patch w0 Hid [ss [cs [rs [calls [H1 [H2 [H3 [H4 [H5 [H6 H7]]]]]]]]]].
    exists (map (fun s => if Session.id s =? sid then patch s else s) ss),
           cs, rs, calls.
    cbn [update_session snd generation_sessions flash_cards card_scenes
         api_calls users clock].
    rewrite H1, map_app, (@map_below _ Session.id _ _ _ Hold).
    repeat split; auto.
    clear -H2 Hid. induction H2 as [| s rest Hs _ IH]; constructor; auto.
    destruct (Session.id s =? sid); [rewrite Hid |]; exact Hs. }
  split; [constructor |]; [| | | | | split].
  - intros u s t ct c p w0 [ss [cs [rs [calls [H1 [H2 [H3 [H4 [H5 [H6 H7]]]]]]]]]].
    exists ss, (cs ++ [fst (insert_card u s t ct c p w0)])%list, rs, calls.
    cbn [insert_card fst snd generation_sessions flash_cards card_scenes
         api_calls users clock].
    rewrite H3, app_assoc. auto 10.
  - intros cid sc w0 [ss [cs [rs [calls [H1 [H2 [H3 [H4 [H5 [H6 H7]]]]]]]]]].
    exists ss, cs, (rs ++ sceneData cid 0 (next_uuid w0) sc)%list, calls.
    cbn [insert_scenes snd generation_sessions flash_cards card_scenes
         api_calls users clock].
    rewrite H4, app_assoc. auto 10.
  - intros costs t w0. apply Hupdate. reflexivity.
  - intros msg t w0. apply Hupdate. reflexivity.
  - intros row w0 [ss [cs [rs [calls H]]]]. exists ss, cs, rs, calls. exact H.
  - intros w0. apply Hupdate. reflexivity.
  - intros w0 c [ss [cs [rs [calls [H1 [H2 [H3 [H4 [H5 [H6 H7]]]]]]]]]].
    exists ss, cs, rs, (calls ++ [c])%list.
    cbn [issue snd generation_sessions flash_cards card_scenes api_calls
         users clock].
    rewrite H5, app_assoc. auto 10.
Qed.

(** The detached pipeline leaves the columns the quota query reads. *)
Lemma detached_counted sid data uid who lo hi w :
  count_sessions who lo hi (snd (detached env sid data uid w))
  = count_sessions who lo hi w.
Proof.
  pose proof (@detached_keeps_column env sid _
                (fun s => (Session.user_id s, Session.created_at s))
                data uid w (fun s => eq_refl) (fun _ _ s => eq_refl)
                (fun _ _ s => eq_refl)) as H.
  unfold count_sessions. f_equal.
  revert H.
  generalize (generation_sessions (snd (detached env sid data uid w))).
  induction (generation_sessions w) as [| s rest IH]; intros [| s' rest'] H;
    try discriminate; [reflexivity |].
  cbn [map] in H. injection H as Hu Hc Hrest.
  cbn [filter]. rewrite Hu, Hc.
  destruct ((Session.user_id s =? who) && (lo <=? Session.created_at s)
            && (Session.created_at s <? hi))%bool;
    cbn [List.length]; rewrite (IH rest' Hrest); reflexivity.
Qed.

End Request_effects.

(** X14. A generation request only adds.  In a store whose session keys
    are below the counter, whatever the request, the replies of OpenAI
    and the faults of the store, every session, card, card scene and
    logged request that was there before the request is there after it,
    unchanged and in place; what is new comes after, the users and the
    clock are as they were, and a new session has the key the counter
    gave. *)
Theorem X14_generation_request_only_adds
  (env : Env) (request : Request) (w : World) :
  keys_fresh w ->
  appended_to w (next_uuid w) (snd (POST env request w)).
Proof.
  intros Hfresh.
  assert (Hsame : appended_to w (next_uuid w) w).
  { exists [], [], [], []. rewrite !app_nil_r. auto 10. }
  destruct (POST_cases env request w)
    as [[status [code [msg Hpost]]] | [data [uid [_ [_ [_ [_ Hpost]]]]]]];
    rewrite Hpost; cbn [snd]; [exact Hsame |].
  destruct (@appended_kept_by_store w (next_uuid w) Hfresh) as [K [Hproc Hblind]].
  pose proof (@detached_triple env (next_uuid w)
                (appended_to w (next_uuid w)) (appended_to w (next_uuid w))
                data uid (fun _ H => H) Hproc
                (stable_generateCardContent env _ _ _ Hblind) K) as T.
  assert (Hw : appended_to w (next_uuid w) (pending_store uid data w)).
  { exists [fst (insert_session uid (GenerateCard.input_prompt data)
                   (generation_type_of (GenerateCard.card_type data)) w)],
           [], [], [].
    unfold pending_store. cbn [insert_session fst snd generation_sessions
      flash_cards card_scenes api_calls users clock].
    rewrite !app_nil_r. repeat split; auto. }
  specialize (T _ Hw).
  destruct (detached env (next_uuid w) data uid (pending_store uid data w))
    as [[[] | e] w']; [exact T | contradiction].
Qed.

Lemma X14_witness :
  keys_fresh one_session_store
  /\ appended_to one_session_store (next_uuid one_session_store)
       (snd (POST moderation_flags (elephant_request 7) one_session_store)).
Proof.
  assert (H : keys_fresh one_session_store).
  { constructor; [reflexivity | constructor]. }
  split; [exact H |].
  exact (@X14_generation_request_only_adds moderation_flags (elephant_request 7)
           one_session_store H).
Defined.

(** X15. Every admitted request counts against the quota, whatever
    becomes of its generation.  When the route answers with a session,
    and the clock is not at the last millisecond of the UTC day, the
    number of sessions the quota query counts for the user is one more
    after the request than before it, be the session completed, failed
    or still pending in the end. *)
Theorem X15_admitted_request_counts_against_the_quota
  (env : Env) (request : Request) (s : Session.t) (w : World) :
  fst (POST env request w) = Resolved (JsonSession s) ->
  clock w < T23_59_59_999Z (utc_day (clock w)) ->
  let w' := snd (POST env request w) in
  clock w' = clock w
  /\ counted_today (Session.user_id s) w'
     = counted_today (Session.user_id s) w + 1.
Proof.
  intros Hres Hclock. cbn zeta.
  destruct (POST_cases env request w)
    as [[status [code [msg Hpost]]] | [data [uid [_ [_ [_ [_ Hpost]]]]]]];
    rewrite Hpost in Hres |- *; cbn [fst snd] in *; [discriminate |].
  injection Hres as <-. cbn [insert_session fst Session.user_id].
  assert (Hc : clock (snd (detached env (next_uuid w) data uid
                             (pending_store uid data w))) = clock w).
  { pose proof (@detached_triple env (next_uuid w)
                  (fun w0 => clock w0 = clock w) (fun w0 => clock w0 = clock w)
                  data uid (fun _ H => H) (fun _ H => H)
                  (@stable_generateCardContent env
                     (fun w0 => clock w0 = clock w) _ _ _ (fun _ _ H => H))
                  ltac:(constructor; intros; assumption)) as T.
    specialize (T (pending_store uid data w) eq_refl).
    destruct (detached env (next_uuid w) data uid (pending_store uid data w))
      as [[[] | e] w']; [exact T | contradiction]. }
  split; [exact Hc |].
  unfold counted_today. rewrite Hc, detached_counted.
  unfold pending_store, count_sessions.
  cbn [insert_session snd generation_sessions].
  rewrite filter_app, length_app. cbn [filter Session.user_id Session.created_at].
  rewrite Z.eqb_refl.
  assert (Hlo : (T00_00_00_000Z (utc_day (clock w)) <=? clock w) = true).
  { apply Z.leb_le. unfold T00_00_00_000Z.
    pose proof (proj1 (utc_day_spec (clock w) (utc_day (clock w))) eq_refl). lia. }
  rewrite Hlo. apply Z.ltb_lt in Hclock. rewrite Hclock.
  cbn [andb List.length]. lia.
Qed.

Lemma X15_witness :
  (exists s,
     fst (POST moderation_flags (elephant_request 7) one_session_store)
     = Resolved (JsonSession s) /\ Session.user_id s = 7)
  /\ clock one_session_store
     < T23_59_59_999Z (utc_day (clock one_session_store))
  /\ map Session.status
         (generation_sessions
            (snd (POST moderation_flags (elephant_request 7) one_session_store)))
     = [completed; failed]
  /\ counted_today 7
       (snd (POST moderation_flags (elephant_request 7) one_session_store))
     = counted_today 7 one_session_store + 1.
Proof.
  assert (H2 : clock one_session_store
               < T23_59_59_999Z (utc_day (clock one_session_store)))
    by reflexivity.
  split; [eexists; split; reflexivity |]. split; [exact H2 |].
  split; [vm_compute; reflexivity |].
  exact (proj2 (@X15_admitted_request_counts_against_the_quota moderation_flags
                  (elephant_request 7) _ one_session_store eq_refl H2)).
Defined.

(** X16. Without an API key the route still answers with a pending
    session, and the session ends failed.  The constructor of the
    service throws before the pipeline marks the session as processing,
    the handler of the detached promise records the failure, and no
    request is sent to OpenAI: the session goes from pending straight to
    failed, with the message of the constructor, and no card is
    stored. *)
Theorem X16_missing_api_key_fails_the_session
  (env : Env) (request : Request) (data : GenerateCard.t) (uid : Uuid)
  (w : World) :
  GenerateCardSchema_parse (body request) = Some data ->
  auth_user request = Some uid ->
  checkUserQuota env uid w = (Resolved (mkQuotaCheck true None), w) ->
  falsy_string (OPENAI_API_KEY env) = true ->
  store_runs env [InsertSession; UpdateFailedDetached] ->
  keys_fresh w ->
  let row := fst (insert_session uid (GenerateCard.input_prompt data)
                    (generation_type_of (GenerateCard.card_type data)) w) in
  let w' := snd (POST env request w) in
  fst (POST env request w) = Resolved (JsonSession row)
  /\ Session.status row = pending
  /\ generation_sessions w'
     = (generation_sessions w
        ++ [set_failed api_key_required (clock w) row])%list
  /\ map Session.status (session_writes w')
     = (failed :: pending :: map Session.status (session_writes w))%list
  /\ api_calls w' = api_calls w
  /\ flash_cards w' = flash_cards w.
Proof.
  intros Hparse Hauth Hquota Hkey Hstore Hfresh. cbn zeta.
  rewrite (@POST_admitted env request data uid w Hparse Hauth Hquota).
  rewrite (Hstore InsertSession) by (cbn; auto). cbn [fst snd].
  assert (Hrun : forall w0,
            detached env (next_uuid w) data uid w0
            = (Resolved tt,
               snd (update_session (next_uuid w)
                      (set_failed api_key_required (clock w0)) w0))).
  { intros w0. unfold detached, try_catch, generateCardAsync, OpenAIService_new.
    rewrite Hkey. unfold bind at 1. unfold throw at 1.
    unfold bind at 1. unfold new_Date at 1.
    unfold bind at 1. rewrite statement_healthy by (apply Hstore; cbn; auto).
    reflexivity. }
  rewrite Hrun.
  cbn [insert_session update_session fst snd generation_sessions session_writes
       api_calls flash_cards clock].
  split; [reflexivity |]. split; [reflexivity |].
  split.
  { rewrite map_app, (@map_below _ Session.id _ _ _ Hfresh).
    cbn [map Session.id]. rewrite Z.eqb_refl. reflexivity. }
  split; [| split; reflexivity].
  rewrite filter_app, (@filter_key_below _ Session.id _ _ Hfresh).
  cbn [filter Session.id app]. rewrite Z.eqb_refl. reflexivity.
Qed.

Lemma X16_witness :
  GenerateCardSchema_parse (body (elephant_request 7)) = Some elephant_data
  /\ checkUserQuota no_api_key 7 one_session_store
     = (Resolved (mkQuotaCheck true None), one_session_store)
  /\ falsy_string (OPENAI_API_KEY no_api_key) = true
  /\ keys_fresh one_session_store
  /\ map Session.status
         (generation_sessions
            (snd (POST no_api_key (elephant_request 7) one_session_store)))
     = [completed; failed]
  /\ api_calls (snd (POST no_api_key (elephant_request 7) one_session_store))
     = api_calls one_session_store.
Proof.
  assert (H1 : GenerateCardSchema_parse (body (elephant_request 7))
               = Some elephant_data) by reflexivity.
  assert (H2 : checkUserQuota no_api_key 7 one_session_store
               = (Resolved (mkQuotaCheck true None), one_session_store))
    by reflexivity.
  assert (H3 : falsy_string (OPENAI_API_KEY no_api_key) = true) by reflexivity.
  assert (H4 : store_runs no_api_key [InsertSession; UpdateFailedDetached])
    by (intros op _; reflexivity).
  assert (H5 : keys_fresh one_session_store).
  { constructor; [reflexivity | constructor]. }
  pose proof (@X16_missing_api_key_fails_the_session no_api_key
                (elephant_request 7) elephant_data 7 one_session_store
                H1 eq_refl H2 H3 H4 H5) as H.
  cbn zeta in H. destruct H as [_ [_ [Hsess [_ [Hcalls _]]]]].
  split; [exact H1 |]. split; [exact H2 |]. split; [exact H3 |].
  split; [exact H5 |]. split; [| exact Hcalls].
  rewrite Hsess. reflexivity.
Defined.

(* ================================================================== *)
(** * 30. Approval *)
(* ================================================================== *)

(** X17. Only the owner approves a card.  When no card with the given
    id belongs to the user, the approval rejects with an error whose
    message starts with [Failed to approve card: ], unless the call
    itself throws, and in every case the store is left as it was: no
    card changes status. *)
Theorem X17_only_the_owner_approves
  (env : Env) (cardId userId : Uuid) (w : World) :
  (forall c, In c (flash_cards w) -> FlashCard.id c = cardId ->
             FlashCard.user_id c <> userId) ->
  exists e,
    approveCard env cardId userId w = (Rejected e, w)
    /\ class e = Error
    /\ ((forall m, store_fault env UpdateCardApproved <> Crashes m) ->
        exists m, message e = "Failed to approve card: " ++ m).
Proof.
  intros Hnot.
  assert (Hnone : cards_of cardId userId w = []).
  { unfold cards_of. induction (flash_cards w) as [| c rest IH]; [reflexivity |].
    cbn [filter].
    destruct (Z.eqb_spec (FlashCard.id c) cardId) as [Eid | _];
      destruct (Z.eqb_spec (FlashCard.user_id c) userId) as [Eu | _];
      cbn [andb];
      try (apply IH; intros c' Hc'; apply Hnot; right; exact Hc').
    exfalso. apply (Hnot c (or_introl eq_refl) Eid Eu). }
  unfold approveCard, bind, supabase.
  destruct (store_fault env UpdateCardApproved) as [| m | m] eqn:F.
  - unfold update_card_approved. fold (cards_of cardId userId w).
    rewrite Hnone. cbn [single].
    eexists. split; [reflexivity |]. split; [reflexivity |].
    intros _. eexists. reflexivity.
  - eexists. split; [reflexivity |]. split; [reflexivity |].
    intros _. exists m. reflexivity.
  - eexists. split; [reflexivity |]. split; [reflexivity |].
    intros H. exfalso. apply (H m). reflexivity.
Qed.

Lemma X17_witness :
  (forall c, In c (flash_cards (store_with_card preview)) ->
             FlashCard.id c = 60 -> FlashCard.user_id c <> 8)
  /\ exists e,
       approveCard all_well 60 8 (store_with_card preview)
       = (Rejected e, store_with_card preview)
       /\ class e = Error
       /\ ((forall m, store_fault all_well UpdateCardApproved <> Crashes m) ->
           exists m, message e = "Failed to approve card: " ++ m).
Proof.
  assert (H : forall c, In c (flash_cards (store_with_card preview)) ->
                        FlashCard.id c = 60 -> FlashCard.user_id c <> 8).
  { intros c [<- | []] _. discriminate. }
  split; [exact H |].
  exact (@X17_only_the_owner_approves all_well 60 8 (store_with_card preview) H).
Defined.

(* ================================================================== *)
(** * 31. Retrying with backoff *)
(* ================================================================== *)

Section Retry.

Context {A : Type}.
Variable fn : nat -> Attempt A.
Variable maxRetries : Z.

(** The loop from turn [i], when the turns before [k] are rate limited
    and turn [k] is not retried. *)
Lemma retry_from_spec turns i k :
  (i <= k)%nat ->
  Z.of_nat k < maxRetries ->
  (k - i < turns)%nat ->
  (forall j, (i <= j < k)%nat -> rate_limited (fn j)) ->
  (rate_limited (fn k) -> Z.of_nat k = maxRetries - 1) ->
  retry_from fn maxRetries turns i = (backoff_events i k, settle (fn k)).
Proof.
  revert i. induction turns as [| turns IH]; intros i Hik Hk Hturns Hbefore Hlast;
    [lia |].
  cbn [retry_from].
  assert (Hi : (Z.of_nat i <? maxRetries) = true) by (apply Z.ltb_lt; lia).
  rewrite Hi.
  destruct (Nat.eq_dec i k) as [-> | Hne].
  - unfold backoff_events. rewrite Nat.sub_diag. cbn [seq flat_map app].
    destruct (fn k) as [value | error] eqn:Hfn; [reflexivity |].
    destruct (status_is (error_status error) 429) eqn:Hs; [| reflexivity].
    assert (Hrl : rate_limited (@Threw A error)).
    { exists error. split; [reflexivity |].
      unfold status_is in Hs. destruct (error_status error) as [s |];
        [| discriminate].
      apply Z.eqb_eq in Hs. subst s. reflexivity. }
    specialize (Hlast Hrl).
    assert (Hl : (Z.of_nat k <? maxRetries - 1) = false) by (apply Z.ltb_ge; lia).
    rewrite Hl. reflexivity.
  - assert (Hii : (i <= i < k)%nat) by lia.
    destruct (Hbefore i Hii) as [error [Hfn Hs]].
    rewrite Hfn, Hs. cbn [status_is]. rewrite Z.eqb_refl.
    assert (Hl : (Z.of_nat i <? maxRetries - 1) = true) by (apply Z.ltb_lt; lia).
    rewrite Hl. cbn [andb].
    rewrite (IH (S i));
      [| lia | lia | lia | intros j Hj; apply Hbefore; lia | exact Hlast].
    unfold backoff_events.
    replace (k - i)%nat with (S (k - S i)) by lia.
    reflexivity.
Qed.

(** From a turn the loop enters there is a turn it does not retry. *)
Lemma decisive_turn turns i :
  Z.of_nat i < maxRetries ->
  (Z.to_nat maxRetries - i <= turns)%nat ->
  exists k,
    (i <= k)%nat /\ Z.of_nat k < maxRetries
    /\ (forall j, (i <= j < k)%nat -> rate_limited (fn j))
    /\ (rate_limited (fn k) -> Z.of_nat k = maxRetries - 1).
Proof.
  revert i. induction turns as [| turns IH]; intros i Hi Hturns; [lia |].
  destruct (fn i) as [value | error] eqn:Hfn.
  { exists i. repeat split; try lia.
    intros [e [He _]]. rewrite Hfn in He. discriminate. }
  destruct (status_is (error_status error) 429) eqn:Hs.
  2:{ exists i. repeat split; try lia.
      intros [e [He Hst]]. rewrite Hfn in He. injection He as <-.
      rewrite Hst in Hs. discriminate. }
  destruct (Z.eq_dec (Z.of_nat i) (maxRetries - 1)) as [Hlast | Hmore].
  { exists i. repeat split; try lia. }
  assert (Hnext : Z.of_nat (S i) < maxRetries) by lia.
  assert (Hleft : (Z.to_nat maxRetries - S i <= turns)%nat) by lia.
  destruct (IH (S i) Hnext Hleft) as [k [Hk1 [Hk2 [Hk3 Hk4]]]].
  exists k. repeat split; try lia; [| exact Hk4].
  intros j Hj. destruct (Nat.eq_dec j i) as [-> | Hne]; [| apply Hk3; lia].
  exists error. split; [exact Hfn |].
  unfold status_is in Hs. destruct (error_status error) as [s |]; [| discriminate].
  apply Z.eqb_eq in Hs. subst s. reflexivity.
Qed.

Lemma backoff_events_calls k : calls_made (backoff_events 0 k) = S k.
Proof.
  unfold backoff_events, calls_made. rewrite Nat.sub_0_r.
  rewrite filter_app, length_app. cbn [filter List.length].
  assert (H : forall n i,
            List.length
              (filter (fun e => match e with Called _ => true | _ => false end)
                 (flat_map (fun j => [Called j; Waited (2 ^ Z.of_nat j * 1000)])
                           (seq i n))) = n).
  { induction n as [| n IH]; intros i; [reflexivity |].
    cbn [seq flat_map app filter List.length]. rewrite IH. reflexivity. }
  rewrite H. lia.
Qed.

Lemma backoff_events_wait k :
  total_wait (backoff_events 0 k) = (2 ^ Z.of_nat k - 1) * 1000.
Proof.
  unfold backoff_events. rewrite Nat.sub_0_r.
  assert (H : forall n i,
            total_wait (flat_map (fun j => [Called j; Waited (2 ^ Z.of_nat j * 1000)])
                                 (seq i n) ++ [Called (i + n)])
            = (2 ^ Z.of_nat (i + n) - 2 ^ Z.of_nat i) * 1000).
  { induction n as [| n IH]; intros i.
    - cbn. rewrite Nat.add_0_r. lia.
    - cbn [seq flat_map app total_wait].
      replace (i + S n)%nat with (S i + n)%nat by lia. rewrite IH.
      replace (Z.of_nat (S i)) with (Z.of_nat i + 1) by lia.
      rewrite Z.pow_add_r by lia. lia. }
  specialize (H k 0%nat). cbn [Nat.add] in H. rewrite H. cbn. lia.
Qed.

End Retry.

(** X18. Retrying settles with the first call that is not rate limited,
    or with the last call allowed.  When the calls before call [k] all
    throw an error of status 429, and call [k], one of the [maxRetries]
    allowed, fulfils, throws another error, or is the last one allowed,
    then [fn] is called [k + 1] times and no more, the outcome is the
    one of call [k], its value returned or its error rethrown, and
    before it the loop has waited 1000, 2000, 4000, ... milliseconds
    after the calls that failed, [(2^k - 1) * 1000] in all. *)
Theorem X18_retry_settles_with_the_decisive_call
  (A : Type) (fn : nat -> Attempt A) (maxRetries : Z) (k : nat) :
  Z.of_nat k < maxRetries ->
  (forall j, (j < k)%nat -> rate_limited (fn j)) ->
  (rate_limited (fn k) -> Z.of_nat k = maxRetries - 1) ->
  retryWithBackoff fn maxRetries = (backoff_events 0 k, settle (fn k))
  /\ calls_made (fst (retryWithBackoff fn maxRetries)) = S k
  /\ total_wait (fst (retryWithBackoff fn maxRetries))
     = (2 ^ Z.of_nat k - 1) * 1000.
Proof.
  intros Hk Hbefore Hlast.
  assert (Hrun : retryWithBackoff fn maxRetries
                 = (backoff_events 0 k, settle (fn k))).
  { unfold retryWithBackoff. apply retry_from_spec; try lia; auto.
    intros j Hj. apply Hbefore. lia. }
  rewrite Hrun. cbn [fst].
  split; [reflexivity |].
  split; [apply backoff_events_calls | apply backoff_events_wait].
Qed.

Lemma X18_witness :
  2 < 3
  /\ (forall j, (j < 2)%nat -> rate_limited (third_time_lucky j))
  /\ retryWithBackoff third_time_lucky 3
     = ([Called 0; Waited 1000; Called 1; Waited 2000; Called 2],
        Returned "done").
Proof.
  assert (H1 : Z.of_nat 2 < 3) by reflexivity.
  assert (H2 : forall j, (j < 2)%nat -> rate_limited (third_time_lucky j)).
  { intros j Hj. exists (mkThrown (Some 429) "Rate limit exceeded").
    destruct j as [| [| j]]; [split; reflexivity | split; reflexivity | lia]. }
  assert (H3 : rate_limited (third_time_lucky 2) -> Z.of_nat 2 = 3 - 1)
    by (intros _; reflexivity).
  split; [reflexivity |]. split; [exact H2 |].
  exact (proj1 (@X18_retry_settles_with_the_decisive_call string
                  third_time_lucky 3 2 H1 H2 H3)).
Defined.

(** X19. Retrying is bounded.  Whatever [fn] does, it is called at most
    [maxRetries] times.  With a [maxRetries] of 0 or less it is never
    called and [undefined] is returned.  With a [maxRetries] of at least
    1 it is called at least once, the loop never falls through, and it
    waits less than [2^(maxRetries - 1)] seconds in all; a value that is
    returned is the value of the last call, and an error that is
    rethrown is the error of the last call. *)
Theorem X19_retry_is_bounded
  (A : Type) (fn : nat -> Attempt A) (maxRetries : Z) :
  let events := fst (retryWithBackoff fn maxRetries) in
  let settled := snd (retryWithBackoff fn maxRetries) in
  (calls_made events <= Z.to_nat maxRetries)%nat
  /\ (maxRetries <= 0 -> events = [] /\ settled = ReturnedUndefined)
  /\ (1 <= maxRetries ->
      (1 <= calls_made events)%nat
      /\ settled = settle (fn (calls_made events - 1)%nat)
      /\ total_wait events <= (2 ^ (maxRetries - 1) - 1) * 1000).
Proof.
  cbn zeta.
  destruct (Z_le_gt_dec maxRetries 0) as [Hle | Hgt].
  - assert (Hrun : retryWithBackoff fn maxRetries = ([], ReturnedUndefined)).
    { unfold retryWithBackoff. cbn [retry_from].
      assert (H : (Z.of_nat 0 <? maxRetries) = false) by (apply Z.ltb_ge; lia).
      rewrite H. reflexivity. }
    rewrite Hrun. cbn. split; [lia |]. split; [auto | lia].
  - destruct (@decisive_turn A fn maxRetries (S (Z.to_nat maxRetries)) 0)
      as [k [_ [Hk [Hbefore Hlast]]]]; try lia.
    assert (Hrun : retryWithBackoff fn maxRetries
                   = (backoff_events 0 k, settle (fn k))).
    { unfold retryWithBackoff. apply retry_from_spec; try lia; auto. }
    rewrite Hrun. cbn [fst snd].
    rewrite backoff_events_calls, backoff_events_wait.
    split; [lia |]. split; [lia |]. intros _.
    split; [lia |].
    split; [replace (S k - 1)%nat with k by lia; reflexivity |].
    assert (H : 2 ^ Z.of_nat k <= 2 ^ (maxRetries - 1))
      by (apply Z.pow_le_mono_r; lia).
    lia.
Qed.

Lemma X19_witness :
  1 <= 3
  /\ (calls_made (fst (retryWithBackoff always_rate_limited 3)) <= Z.to_nat 3)%nat
  /\ snd (retryWithBackoff always_rate_limited 3)
     = Rethrown (mkThrown (Some 429) "Rate limit exceeded")
  /\ total_wait (fst (retryWithBackoff always_rate_limited 3))
     <= (2 ^ (3 - 1) - 1) * 1000.
Proof.
  assert (H : 1 <= 3) by lia.
  pose proof (@X19_retry_is_bounded string always_rate_limited 3) as B.
  cbn zeta in B. destruct B as [Hcalls [_ Hsome]].
  destruct (Hsome H) as [_ [Hlast Hwait]].
  split; [exact H |]. split; [exact Hcalls |]. split; [| exact Hwait].
  rewrite Hlast. reflexivity.
Defined.

(* ================================================================== *)
(** * 32. The card repository *)
(* ================================================================== *)

(** The rows [sceneData] builds: their orders, and what they carry. *)
Lemma sceneData_columns cid index key scenes :
  map CardScene.scene_order (sceneData cid index key scenes)
  = map (fun n => index + Z.of_nat n) (seq 1 (List.length scenes))
  /\ map CardScene.description (sceneData cid index key scenes)
     = map Scene.description scenes
  /\ map CardScene.image_url (sceneData cid index key scenes)
     = map Scene.image_url scenes.
Proof.
  revert index key. induction scenes as [| scene rest IH]; intros index key;
    [repeat split |].
  destruct (IH (index + 1) (key + 1)) as [H1 [H2 H3]].
  cbn [sceneData map List.length seq CardScene.scene_order
       CardScene.description CardScene.image_url].
  rewrite H1, H2, H3. repeat split.
  f_equal.
  rewrite <- (seq_shift (List.length rest) 1), map_map.
  apply map_ext. intros n. lia.
Qed.

(** X20. Creating a card is not atomic either, but here the failure is
    seen.  When the repository has inserted the card and the store
    answers the insertion of its scene rows with an error, or the call
    throws, [createFlashCard] rejects, in the first case with the
    message [Failed to create scenes: ] followed by the error, and the
    card it has inserted stays in the store, without scene rows. *)
Theorem X20_created_card_stays_when_scenes_fail
  (faults : RepoOp -> Fault) (cardData : CardData.t) (c : CardContent)
  (w : World) :
  faults RepoInsertCard = Healthy ->
  CardData.content cardData = Some c ->
  faults RepoInsertScenes <> Healthy ->
  exists e card,
    fst (createFlashCard faults cardData w) = Rejected e
    /\ (forall m, faults RepoInsertScenes = Refuses m ->
                  e = Error_new ("Failed to create scenes: " ++ m))
    /\ (forall m, faults RepoInsertScenes = Crashes m -> e = Error_new m)
    /\ flash_cards (snd (createFlashCard faults cardData w))
       = (flash_cards w ++ [card])%list
    /\ FlashCard.id card = next_uuid w
    /\ FlashCard.content card = c
    /\ card_scenes (snd (createFlashCard faults cardData w)) = card_scenes w.
Proof.
  intros Hcard Hcontent Hscenes.
  unfold createFlashCard, createCardScenes, bind, answered, insert_card_data.
  rewrite Hcard, Hcontent.
  destruct (faults RepoInsertScenes) as [| m | m] eqn:F;
    [contradiction Hscenes; reflexivity | |];
    cbn [fst snd throw flash_cards card_scenes FlashCard.id];
    eexists; eexists; (split; [reflexivity |]);
    (split; [intros m' H; try discriminate; injection H as <-; reflexivity |]);
    (split; [intros m' H; try discriminate; injection H as <-; reflexivity |]);
    repeat split.
Qed.

Lemma X20_witness :
  repo_scenes_refused RepoInsertCard = Healthy
  /\ repo_scenes_refused RepoInsertScenes <> Healthy
  /\ exists e card,
       fst (createFlashCard repo_scenes_refused elephant_draft empty_store)
       = Rejected e
       /\ (forall m, repo_scenes_refused RepoInsertScenes = Refuses m ->
                     e = Error_new ("Failed to create scenes: " ++ m))
       /\ flash_cards (snd (createFlashCard repo_scenes_refused elephant_draft
                              empty_store))
          = (flash_cards empty_store ++ [card])%list.
Proof.
  assert (H : repo_scenes_refused RepoInsertScenes <> Healthy) by discriminate.
  split; [reflexivity |]. split; [exact H |].
  destruct (@X20_created_card_stays_when_scenes_fail repo_scenes_refused
              elephant_draft _ empty_store eq_refl eq_refl H)
    as [e [card [H1 [H2 [_ [H3 _]]]]]].
  exists e, card. auto.
Defined.

(** X21. A card that was created comes with its scene rows.  When the
    store runs both insertions, [createFlashCard] resolves with the
    card, stored under the next key with the content it was given, and
    the scene rows the store then holds for that card are one per scene
    of the content, in the order of the scenes, numbered from 1, each
    with the description and the image URL of its scene. *)
Theorem X21_created_card_has_its_scene_rows
  (faults : RepoOp -> Fault) (cardData : CardData.t) (c : CardContent)
  (w : World) :
  faults RepoInsertCard = Healthy ->
  faults RepoInsertScenes = Healthy ->
  CardData.content cardData = Some c ->
  Forall (fun sc => CardScene.card_id sc < next_uuid w) (card_scenes w) ->
  exists card,
    fst (createFlashCard faults cardData w) = Resolved card
    /\ FlashCard.id card = next_uuid w
    /\ FlashCard.user_id card = CardData.user_id cardData
    /\ FlashCard.content card = c
    /\ flash_cards (snd (createFlashCard faults cardData w))
       = (flash_cards w ++ [card])%list
    /\ let rows := snd (embed_summaries
                          (snd (createFlashCard faults cardData w)) card) in
       map SceneSummary.scene_order rows
       = map Z.of_nat (seq 1 (List.length (scenes c)))
       /\ map SceneSummary.description rows = map Scene.description (scenes c)
       /\ map SceneSummary.image_url rows = map Scene.image_url (scenes c).
Proof.
  intros Hcard Hscenes Hcontent Hfresh.
  unfold createFlashCard, createCardScenes, bind, answered, insert_card_data.
  rewrite Hcard, Hscenes, Hcontent.
  cbn [insert_scenes fst snd ret flash_cards card_scenes FlashCard.id
       FlashCard.user_id FlashCard.content next_uuid].
  eexists. split; [reflexivity |].
  cbn [FlashCard.id FlashCard.user_id FlashCard.content].
  repeat split.
  all: unfold embed_summaries; cbn [snd card_scenes FlashCard.id];
    rewrite filter_app, (@filter_key_below _ CardScene.card_id _ _ Hfresh);
    cbn [app]; rewrite sceneData_card_id, !map_map;
    destruct (sceneData_columns (next_uuid w) 0 (next_uuid w + 1) (scenes c))
      as [H1 [H2 H3]].
  - change (fun x => SceneSummary.scene_order (scene_summary x))
      with CardScene.scene_order.
    rewrite H1. apply map_ext. intros n. lia.
  - exact H2.
  - exact H3.
Qed.

Lemma X21_witness :
  repo_well RepoInsertCard = Healthy
  /\ CardData.content elephant_draft
     = Some (mkContent "elephant"
               [Scene.mk "scene_1" "An elephant" "https://images.example/1"
                         "elephant";
                Scene.mk "scene_2" "A herd" "" "herd of elephants"]
               None (mkLayout "3:4" "portrait" "colorful"))
  /\ Forall (fun sc => CardScene.card_id sc < next_uuid empty_store)
            (card_scenes empty_store)
  /\ exists card,
       fst (createFlashCard repo_well elephant_draft empty_store) = Resolved card
       /\ FlashCard.id card = 100
       /\ map SceneSummary.scene_order
              (snd (embed_summaries
                      (snd (createFlashCard repo_well elephant_draft empty_store))
                      card))
          = [1; 2].
Proof.
  assert (H : Forall (fun sc => CardScene.card_id sc < next_uuid empty_store)
                     (card_scenes empty_store)) by constructor.
  split; [reflexivity |]. split; [reflexivity |]. split; [exact H |].
  destruct (@X21_created_card_has_its_scene_rows repo_well elephant_draft _
              empty_store eq_refl eq_refl eq_refl H)
    as [card [H1 [H2 [_ [_ [_ [H3 _]]]]]]].
  exists card. split; [exact H1 |]. split; [exact H2 | exact H3].
Defined.

Section Library.

Lemma insert_newest_first_perm c l :
  Permutation (insert_newest_first c l) (c :: l).
Proof.
  induction l as [| x rest IH]; [reflexivity |].
  cbn [insert_newest_first].
  destruct (FlashCard.created_at x <? FlashCard.created_at c); [reflexivity |].
  rewrite IH. apply perm_swap.
Qed.

Lemma newest_first_perm l : Permutation (newest_first l) l.
Proof.
  induction l as [| c rest IH]; [reflexivity |].
  cbn [newest_first fold_right]. fold (newest_first rest).
  rewrite insert_newest_first_perm. constructor. exact IH.
Qed.

Lemma insert_newest_first_sorted c l :
  Sorted not_older l -> Sorted not_older (insert_newest_first c l).
Proof.
  induction l as [| x rest IH]; intros Hs; [repeat constructor |].
  cbn [insert_newest_first].
  destruct (FlashCard.created_at x <? FlashCard.created_at c) eqn:E.
  - constructor; [exact Hs |]. constructor. unfold not_older.
    apply Z.ltb_lt in E. lia.
  - apply Z.ltb_ge in E. inversion Hs as [| ? ? Hrest Hhd]; subst.
    constructor; [apply IH; exact Hrest |].
    destruct rest as [| y rest']; cbn [insert_newest_first].
    + constructor. exact E.
    + destruct (FlashCard.created_at y <? FlashCard.created_at c);
        constructor; [exact E |].
      inversion Hhd; assumption.
Qed.

Lemma newest_first_sorted l : StronglySorted not_older (newest_first l).
Proof.
  apply Sorted_StronglySorted.
  - intros a b c Hab Hbc. unfold not_older in *. lia.
  - induction l as [| c rest IH]; [constructor |].
    cbn [newest_first fold_right]. apply insert_newest_first_sorted. exact IH.
Qed.

Lemma filter_sorted {A} (R : A -> A -> Prop) (f : A -> bool) l :
  StronglySorted R l -> StronglySorted R (filter f l).
Proof.
  induction 1 as [| x rest Hs IH Hall]; [constructor |].
  cbn [filter]. destruct (f x); [| exact IH].
  constructor; [exact IH |].
  apply Forall_forall. intros y Hy. apply filter_In in Hy.
  rewrite Forall_forall in Hall. apply Hall. apply Hy.
Qed.

(** The cards the query selects are the stored cards the user asks
    for, each once, newest first. *)
Lemma user_cards_spec userId card_type w :
  Permutation (user_cards userId card_type w)
              (filter (asked_for userId card_type) (flash_cards w))
  /\ StronglySorted not_older (user_cards userId card_type w).
Proof.
  unfold user_cards. split.
  - destruct card_type as [t |].
    + assert (H : forall l l' : list FlashCard.t, Permutation l l' ->
                Permutation
                  (filter (fun c => CardType_eqb (FlashCard.card_type c) t) l)
                  (filter (fun c => CardType_eqb (FlashCard.card_type c) t) l')).
      { induction 1 as [| x l l' _ IH | x y l | l l' l'' _ IH1 _ IH2];
          cbn [filter].
        - constructor.
        - destruct (CardType_eqb _ t); [constructor |]; exact IH.
        - destruct (CardType_eqb (FlashCard.card_type x) t);
            destruct (CardType_eqb (FlashCard.card_type y) t);
            try reflexivity. apply perm_swap.
        - etransitivity; eassumption. }
      rewrite (H _ _ (newest_first_perm _)).
      unfold asked_for.
      induction (flash_cards w) as [| c rest IH]; [reflexivity |].
      cbn [filter]. destruct (FlashCard.user_id c =? userId); cbn [andb filter];
        [| exact IH].
      destruct (CardType_eqb (FlashCard.card_type c) t); [constructor |]; exact IH.
    + rewrite newest_first_perm. unfold asked_for.
      induction (flash_cards w) as [| c rest IH]; [reflexivity |].
      cbn [filter]. rewrite andb_true_r.
      destruct (FlashCard.user_id c =? userId); [constructor |]; exact IH.
  - destruct card_type as [t |]; [apply filter_sorted |]; apply newest_first_sorted.
Qed.

Lemma in_firstn_or_skipn {A} (n : nat) (l : list A) (x : A) :
  In x (firstn n l) \/ In x (skipn n l) -> In x l.
Proof.
  intros H. rewrite <- (firstn_skipn n l). apply in_or_app. exact H.
Qed.

Lemma firstn_add {A} (a b : nat) (l : list A) :
  firstn (a + b) l = (firstn a l ++ firstn b (skipn a l))%list.
Proof.
  revert l. induction a as [| a IH]; intros l; [reflexivity |].
  destruct l as [| x rest]; [cbn; rewrite firstn_nil; reflexivity |].
  cbn [Nat.add firstn skipn app]. rewrite IH. reflexivity.
Qed.

Variable faults : RepoOp -> Fault.
Hypothesis store_answers : faults RepoSelectCards = Healthy.

(** A page, when the store answers. *)
Lemma getUserCards_run userId page limit card_type w :
  getUserCards faults userId page limit card_type w
  = (Resolved
       (CardPage.mk
          (map (embed_summaries w)
               (range ((page - 1) * limit) (page * limit - 1)
                      (user_cards userId card_type w)))
          page limit 0 (ceil_div 0 limit)),
     w).
Proof.
  unfold getUserCards, bind, answered. rewrite store_answers. reflexivity.
Qed.

Lemma page_of_run userId limit card_type w page :
  (1 <= page)%nat -> 1 <= limit ->
  page_of faults userId limit card_type w page
  = firstn (Z.to_nat limit)
           (skipn ((page - 1) * Z.to_nat limit)
                  (user_cards userId card_type w)).
Proof.
  intros Hp Hl. unfold page_of. rewrite getUserCards_run. cbn [fst CardPage.cards].
  rewrite map_map. cbn [embed_summaries fst]. rewrite map_id. unfold range.
  f_equal; [f_equal; lia |]. f_equal. nia.
Qed.

End Library.

(** X22. A page of cards holds only cards of the user.  When the store
    answers the query, [getUserCards] resolves and changes nothing; the
    page holds at most [limit] cards; each is a stored card that belongs
    to the user and, when a card type is asked for, has that type; each
    comes with the scene rows of that card and of no other; and the
    cards are in the order newest first. *)
Theorem X22_page_holds_only_cards_of_the_user
  (faults : RepoOp -> Fault) (userId : Uuid) (page limit : Z)
  (card_type : option CardType) (w : World) :
  faults RepoSelectCards = Healthy ->
  1 <= page -> 1 <= limit ->
  exists result,
    getUserCards faults userId page limit card_type w = (Resolved result, w)
    /\ Z.of_nat (List.length (CardPage.cards result)) <= limit
    /\ Forall (fun cs : CardWithSummaries =>
                 In (fst cs) (flash_cards w)
                 /\ FlashCard.user_id (fst cs) = userId
                 /\ (forall t, card_type = Some t ->
                               FlashCard.card_type (fst cs) = t)
                 /\ snd cs
                    = map scene_summary
                          (filter (fun sc => CardScene.card_id sc
                                             =? FlashCard.id (fst cs))
                                  (card_scenes w)))
              (CardPage.cards result)
    /\ StronglySorted not_older (map fst (CardPage.cards result)).
Proof.
  intros Hstore Hpage Hlimit.
  eexists. split; [apply getUserCards_run; exact Hstore |].
  cbn [CardPage.cards]. unfold range.
  replace (page * limit - 1 - (page - 1) * limit + 1) with limit by lia.
  destruct (user_cards_spec userId card_type w) as [Hperm Hsorted].
  set (window := firstn (Z.to_nat limit)
                   (skipn (Z.to_nat ((page - 1) * limit))
                          (user_cards userId card_type w))).
  assert (Hin : forall c, In c window -> In c (user_cards userId card_type w)).
  { intros c Hc. unfold window in Hc.
    apply (in_firstn_or_skipn (Z.to_nat ((page - 1) * limit))). right.
    apply (in_firstn_or_skipn (Z.to_nat limit)). left. exact Hc. }
  split; [| split].
  - rewrite length_map. unfold window.
    pose proof (firstn_le_length (Z.to_nat limit)
                  (skipn (Z.to_nat ((page - 1) * limit))
                         (user_cards userId card_type w))). lia.
  - apply Forall_forall. intros cs Hcs. apply in_map_iff in Hcs.
    destruct Hcs as [c [<- Hc]]. cbn [embed_summaries fst snd].
    apply Hin in Hc. apply (Permutation_in _ Hperm) in Hc.
    apply filter_In in Hc. destruct Hc as [Hstored Hasked].
    unfold asked_for in Hasked. apply andb_prop in Hasked.
    destruct Hasked as [Hu Ht]. apply Z.eqb_eq in Hu.
    repeat split; auto.
    intros t ->. destruct (FlashCard.card_type c), t; try discriminate; reflexivity.
  - rewrite map_map. cbn [embed_summaries fst]. rewrite map_id.
    unfold window.
    assert (Hskip : forall n (l : list FlashCard.t),
              StronglySorted not_older l -> StronglySorted not_older (skipn n l)).
    { induction n as [| n IH]; intros l Hl; [exact Hl |].
      destruct l as [| x rest]; [constructor |].
      cbn [skipn]. apply IH. inversion Hl; assumption. }
    assert (Hfirst : forall n (l : list FlashCard.t),
              StronglySorted not_older l -> StronglySorted not_older (firstn n l)).
    { induction n as [| n IH]; intros l Hl; [constructor |].
      destruct l as [| x rest]; [constructor |].
      cbn [firstn]. inversion Hl as [| ? ? Hrest Hall]; subst.
      constructor; [apply IH; exact Hrest |].
      apply Forall_forall. intros y Hy.
      rewrite Forall_forall in Hall. apply Hall.
      apply (in_firstn_or_skipn n). left. exact Hy. }
    apply Hfirst, Hskip, Hsorted.
Qed.

Lemma X22_witness :
  repo_well RepoSelectCards = Healthy
  /\ 1 <= 2 /\ 1 <= 2
  /\ exists result,
       getUserCards repo_well 7 2 2 None library = (Resolved result, library)
       /\ map (fun cs : CardWithSummaries => FlashCard.id (fst cs))
              (CardPage.cards result) = [64; 62]
       /\ Forall (fun cs : CardWithSummaries =>
                    In (fst cs) (flash_cards library)
                    /\ FlashCard.user_id (fst cs) = 7
                    /\ (forall t, None = Some t ->
                                  FlashCard.card_type (fst cs) = t)
                    /\ snd cs
                       = map scene_summary
                             (filter (fun sc => CardScene.card_id sc
                                                =? FlashCard.id (fst cs))
                                     (card_scenes library)))
                 (CardPage.cards result).
Proof.
  split; [reflexivity |]. split; [lia |]. split; [lia |].
  destruct (@X22_page_holds_only_cards_of_the_user repo_well 7 2 2 None library
              eq_refl ltac:(lia) ltac:(lia))
    as [result [Hrun [_ [Hall _]]]].
  exists result. split; [exact Hrun |]. split; [| exact Hall].
  assert (Hres : Resolved result
                 = fst (getUserCards repo_well 7 2 2 None library))
    by (rewrite Hrun; reflexivity).
  vm_compute in Hres. injection Hres as ->. reflexivity.
Defined.

(** X23. The pages partition the cards of the user.  When the store
    answers, the pages 1 to [n] of a user's cards, one after the other,
    are the first [n * limit] of the stored cards the user asks for,
    newest first; these are each of the user's cards of the type asked
    for exactly once, so no card is on two pages and, once [n * limit]
    reaches their number, none is missing. *)
Theorem X23_pages_partition_the_cards
  (faults : RepoOp -> Fault) (userId : Uuid) (limit : Z)
  (card_type : option CardType) (w : World) (n : nat) :
  faults RepoSelectCards = Healthy ->
  1 <= limit ->
  let all := user_cards userId card_type w in
  flat_map (page_of faults userId limit card_type w) (seq 1 n)
  = firstn (n * Z.to_nat limit) all
  /\ Permutation all (filter (asked_for userId card_type) (flash_cards w))
  /\ StronglySorted not_older all
  /\ ((List.length (filter (asked_for userId card_type) (flash_cards w))
       <= n * Z.to_nat limit)%nat ->
      flat_map (page_of faults userId limit card_type w) (seq 1 n) = all).
Proof.
  intros Hstore Hlimit. cbn zeta.
  destruct (user_cards_spec userId card_type w) as [Hperm Hsorted].
  assert (Hpages : flat_map (page_of faults userId limit card_type w) (seq 1 n)
                   = firstn (n * Z.to_nat limit) (user_cards userId card_type w)).
  { induction n as [| n IH]; [reflexivity |].
    rewrite seq_S, flat_map_app, IH. cbn [flat_map Nat.add].
    rewrite app_nil_r.
    rewrite page_of_run by (exact Hstore || lia).
    replace (S n - 1)%nat with n by lia.
    replace (S n * Z.to_nat limit)%nat
      with (n * Z.to_nat limit + Z.to_nat limit)%nat by lia.
    rewrite firstn_add. reflexivity. }
  split; [exact Hpages |]. split; [exact Hperm |]. split; [exact Hsorted |].
  intros Hlen. rewrite Hpages. apply firstn_all2.
  rewrite (Permutation_length Hperm). exact Hlen.
Qed.

Lemma X23_witness :
  repo_well RepoSelectCards = Healthy
  /\ 1 <= 2
  /\ map FlashCard.id
         (flat_map (page_of repo_well 7 2 None library) (seq 1 3))
     = [66; 65; 64; 62; 61]
  /\ flat_map (page_of repo_well 7 2 None library) (seq 1 3)
     = firstn (3 * Z.to_nat 2) (user_cards 7 None library).
Proof.
  split; [reflexivity |]. split; [lia |]. split; [reflexivity |].
  exact (proj1 (@X23_pages_partition_the_cards repo_well 7 2 None library 3
                  eq_refl ltac:(lia))).
Defined.

(* ================================================================== *)
(** * 33. Failures of content generation *)
(* ================================================================== *)

Section Generation_failures.

Variable env : Env.

(** Content generation rejects with the message of the first step that
    fails, having logged no image request. *)
Lemma generateCardContent_fails data msg w :
  generation_error env data = Some msg ->
  exists log,
    generateCardContent env (GenerateCard.input_prompt data)
                        (GenerateCard.card_type data)
                        (GenerateCard.generation_params data) w
    = (Rejected (Error_new msg), with_api_calls w log)
    /\ filter is_image_call log = filter is_image_call (api_calls w).
Proof.
  unfold generation_error. intros H.
  unfold generateCardContent, try_catch. unfold bind at 1.
  unfold generateTextContent. unfold bind at 1. rewrite issue_run.
  destruct (chat_completions_create env _ _ _) as [[[answer |] u] | m];
    cbn [message_content usage_total_tokens falsy_string] in *.
  2,3: injection H as <-; eexists; split; [reflexivity |];
       rewrite filter_app; cbn; apply app_nil_r.
  destruct (String.eqb answer "") eqn:Hne.
  { injection H as <-. eexists; split; [reflexivity |].
    rewrite filter_app; cbn; apply app_nil_r. }
  destruct (JSON_parse env answer) as [p |] eqn:Hparse.
  2:{ injection H as <-. eexists; split; [reflexivity |].
      rewrite filter_app; cbn; apply app_nil_r. }
  cbn [ret fst snd]. unfold bind at 1.
  destruct (TextContent.scenes p) as [r |] eqn:Hscenes.
  2:{ injection H as <-. eexists; split; [reflexivity |].
      rewrite filter_app; cbn; apply app_nil_r. }
  cbn [ret]. unfold bind at 1. unfold moderateContent. unfold bind at 1.
  rewrite issue_run. fold (moderated_text r).
  destruct (moderations_create env (moderated_text r)) as [[result |] | m];
    try discriminate.
  - destruct (flagged result); try discriminate. injection H as <-.
    eexists; split; [reflexivity |].
    cbn [with_api_calls api_calls].
    rewrite !filter_app; cbn; rewrite !app_nil_r; reflexivity.
  - injection H as <-. eexists; split; [reflexivity |].
    cbn [with_api_calls api_calls].
    rewrite !filter_app; cbn; rewrite !app_nil_r; reflexivity.
Qed.

End Generation_failures.

(** X24. Every failure of text generation or moderation is recorded in
    the session.  Whether the chat request throws, the answer is empty,
    does not parse or has no scenes, or the moderation request throws or
    flags the text, when the store runs the two updates the run rejects
    with the message of that failure, every session stored under the id
    ends failed with that message and is stamped with the instant of the
    run, and no image is requested, no card or card scene stored, and no
    usage tracked. *)
Theorem X24_generation_failure_is_recorded
  (env : Env) (sid : Uuid) (data : GenerateCard.t) (uid : Uuid)
  (msg : string) (w : World) :
  falsy_string (OPENAI_API_KEY env) = false ->
  store_runs env [UpdateProcessing; UpdateFailed] ->
  generation_error env data = Some msg ->
  let w' := snd (generateCardAsync env sid data uid w) in
  fst (generateCardAsync env sid data uid w) = Rejected (Error_new msg)
  /\ (forall s, In s (sessions_with_id sid w') ->
                Session.status s = failed
                /\ Session.error_message s = Some msg
                /\ Session.completed_at s = Some (clock w))
  /\ image_calls w' = image_calls w
  /\ flash_cards w' = flash_cards w
  /\ card_scenes w' = card_scenes w
  /\ usage_tracking w' = usage_tracking w.
Proof.
  intros Hkey Hstore Herr. cbn zeta.
  destruct (generateCardContent_fails env data
              (snd (update_session sid set_processing w)) Herr)
    as [log [Hgen Hlog]].
  assert (Hrun : generateCardAsync env sid data uid w
                 = (Rejected (Error_new msg),
                    snd (update_session sid (set_failed msg (clock w))
                           (with_api_calls
                              (snd (update_session sid set_processing w)) log)))).
  { unfold generateCardAsync, OpenAIService_new. rewrite Hkey.
    unfold bind at 1. cbn [ret]. unfold try_catch.
    unfold bind at 1. rewrite statement_healthy by (apply Hstore; cbn; auto).
    unfold bind at 1. rewrite Hgen.
    unfold bind at 1. unfold new_Date at 1.
    unfold bind at 1. rewrite statement_healthy by (apply Hstore; cbn; auto).
    reflexivity. }
  rewrite Hrun. cbn [fst snd].
  split; [reflexivity |].
  split.
  { intros s Hs. apply (updated_rows sid) in Hs; [| reflexivity].
    destruct Hs as [s0 [_ ->]]. repeat split. }
  split.
  { unfold image_calls. cbn [update_session snd api_calls with_api_calls].
    rewrite Hlog. reflexivity. }
  repeat split.
Qed.

Lemma X24_witness :
  falsy_string (OPENAI_API_KEY answer_does_not_parse) = false
  /\ generation_error answer_does_not_parse elephant_data
     = Some "Failed to parse AI response"
  /\ fst (generateCardAsync answer_does_not_parse 100 elephant_data 7
                            elephant_pending)
     = Rejected (Error_new "Failed to parse AI response")
  /\ (forall s,
        In s (sessions_with_id 100
                (snd (generateCardAsync answer_does_not_parse 100
                        elephant_data 7 elephant_pending))) ->
        Session.status s = failed
        /\ Session.error_message s = Some "Failed to parse AI response"
        /\ Session.completed_at s = Some (clock elephant_pending)).
Proof.
  assert (H2 : store_runs answer_does_not_parse [UpdateProcessing; UpdateFailed])
    by (intros op _; reflexivity).
  split; [reflexivity |]. split; [reflexivity |].
  pose proof (@X24_generation_failure_is_recorded answer_does_not_parse 100
                elephant_data 7 _ elephant_pending eq_refl H2 eq_refl) as H.
  cbn zeta in H. destruct H as [H3 [H4 _]].
  split; [exact H3 | exact H4].
Defined.

(* ================================================================== *)
(** * 34. The card store of the client *)
(* ================================================================== *)

Section Client_store.

Variable outside : Client.Outside.

(** Approval does nothing unless the card is the one under preview. *)
Lemma client_approveCard_elsewhere cardId u :
  ~ Client.previews cardId (Client.store u) ->
  Client.approveCard outside cardId u = (Resolved tt, u).
Proof.
  intros Hnot. unfold Client.approveCard, Client.bind, Client.get.
  destruct (Client.previewCard (Client.store u)) as [card |] eqn:Hcard;
    [| reflexivity].
  destruct (String.eqb_spec (Client.Card.id card) cardId) as [E | _];
    [| reflexivity].
  exfalso. apply Hnot. exists card. auto.
Qed.

(** Approval of the card under preview. *)
Lemma client_approveCard_run cardId card u :
  Client.previewCard (Client.store u) = Some card ->
  Client.Card.id card = cardId ->
  let s0 := Client.store u in
  let s1 := Client.with_isDownloading true s0 in
  let approved_card := Client.with_status approved (Client.now u) card in
  let s2 := Client.with_previewCard (Some approved_card) s1 in
  let later := Client.fires outside 1000 (Client.now u) in
  let downloaded_card := Client.with_status downloaded later approved_card in
  let s3 := Client.with_previewCard (Some downloaded_card) s2 in
  let s4 := Client.with_isDownloading false s3 in
  Client.approveCard outside cardId u
  = (Resolved tt,
     Client.mkUi s4 later (s4 :: s3 :: s2 :: s1 :: Client.rendered u)).
Proof.
  intros Hcard Hid. cbn zeta.
  unfold Client.approveCard, Client.bind at 1, Client.get.
  rewrite Hcard, Hid, String.eqb_refl. reflexivity.
Qed.

(** Completion of a generation when the preview is skipped and the card
    is not under preview. *)
Lemma client_completion_skipped card u :
  Client.skips_preview outside (Client.now u) ->
  ~ Client.previews (Client.Card.id card) (Client.store u) ->
  Client.handleGenerationComplete outside card u = (Resolved tt, u).
Proof.
  intros [preferences [Hget Hskip]] Hnot.
  unfold Client.handleGenerationComplete, Client.try_catch.
  unfold Client.bind, Client.preferencesApi_getPreferences.
  rewrite Hget, Hskip.
  rewrite (@client_approveCard_elsewhere _ u Hnot). reflexivity.
Qed.

(** Completion of a generation when the preview is shown. *)
Lemma client_completion_shown card u :
  Client.shows_preview outside (Client.now u) ->
  Client.handleGenerationComplete outside card u
  = Client.openPreview card u.
Proof.
  unfold Client.shows_preview. intros Hshow.
  unfold Client.handleGenerationComplete, Client.try_catch.
  unfold Client.bind, Client.preferencesApi_getPreferences.
  destruct (Client.getPreferences outside (Client.now u)) as [preferences | m];
    [rewrite Hshow |]; reflexivity.
Qed.

(** Regeneration of the card under preview, up to the completion. *)
Lemma client_regenerateCard_run cardId card u :
  Client.previewCard (Client.store u) = Some card ->
  Client.Card.id card = cardId ->
  let s0 := Client.store u in
  let s1 := Client.with_isRegenerating true s0 in
  let s2 := Client.mkState None false (Client.isGenerating s1)
                           (Client.isDownloading s1) (Client.isRegenerating s1) in
  let later := Client.fires outside 2000 (Client.now u) in
  let newCard :=
    Client.Card.mk (String_of_Z later) (Client.Card.user_id card)
                   (Client.Card.title card) (Client.Card.card_type card)
                   (Client.Card.content card)
                   (Client.Card.generation_params card)
                   preview later later in
  Client.regenerateCard outside cardId u
  = Client.finally
      (Client.handleGenerationComplete outside newCard)
      (Client.set_ (Client.with_isRegenerating false))
      (Client.mkUi s2 later (s2 :: s1 :: Client.rendered u)).
Proof.
  intros Hcard Hid. cbn zeta.
  unfold Client.regenerateCard, Client.bind at 1, Client.get.
  rewrite Hcard, Hid, String.eqb_refl. cbn [negb].
  unfold Client.finally, Client.try_catch.
  unfold Client.bind at 1. unfold Client.set_ at 1.
  unfold Client.bind at 1. unfold Client.closePreview, Client.set_ at 1.
  unfold Client.bind at 1. unfold Client.sleep at 1.
  unfold Client.bind at 1. unfold Client.new_Date at 1.
  unfold Client.bind at 1. unfold Client.new_Date at 1.
  unfold Client.bind at 1. unfold Client.new_Date at 1.
  cbn [Client.store Client.now Client.rendered].
  destruct (Client.handleGenerationComplete outside _ _) as [[[] | e] u'];
    reflexivity.
Qed.

End Client_store.

(** X25. With the preview skipped, a generated card is dropped.  When
    the preferences say to skip the preview, and the card that was
    generated is not the one the store has under preview, completing
    the generation changes nothing: the approval it calls looks for the
    card under preview, does not find it, and returns, so the card is
    neither shown nor approved nor downloaded, and no component is
    rendered again. *)
Theorem X25_skipped_preview_drops_the_card
  (outside : Client.Outside) (card : Client.Card.t) (u : Client.Ui) :
  Client.skips_preview outside (Client.now u) ->
  ~ Client.previews (Client.Card.id card) (Client.store u) ->
  Client.handleGenerationComplete outside card u = (Resolved tt, u).
Proof.
  intros Hskip Hnot. apply client_completion_skipped; assumption.
Qed.

Lemma X25_witness :
  Client.skips_preview Client.skipping 0
  /\ ~ Client.previews "card-1" Client.initial
  /\ Client.handleGenerationComplete Client.skipping Client.lion
       (Client.mkUi Client.initial 0 [])
     = (Resolved tt, Client.mkUi Client.initial 0 []).
Proof.
  assert (H1 : Client.skips_preview Client.skipping 0).
  { eexists. split; reflexivity. }
  assert (H2 : ~ Client.previews "card-1" Client.initial).
  { intros [card [H _]]. discriminate. }
  split; [exact H1 |]. split; [exact H2 |].
  exact (@X25_skipped_preview_drops_the_card Client.skipping Client.lion
           (Client.mkUi Client.initial 0 []) H1 H2).
Defined.

(** X26. With the preview skipped, regenerating loses the card.  When
    the card under preview is regenerated and the preferences, read
    when the timer of the regeneration has fired, say to skip the
    preview, the action resolves with the preview closed and no card in
    the store: the new card is dropped, and the one that was shown is
    gone. *)
Theorem X26_regenerating_with_preview_skipped_loses_the_card
  (outside : Client.Outside) (cardId : string) (u : Client.Ui) :
  Client.previews cardId (Client.store u) ->
  Client.skips_preview outside (Client.fires outside 2000 (Client.now u)) ->
  let u' := snd (Client.regenerateCard outside cardId u) in
  fst (Client.regenerateCard outside cardId u) = Resolved tt
  /\ Client.previewCard (Client.store u') = None
  /\ Client.isPreviewOpen (Client.store u') = false
  /\ Client.isRegenerating (Client.store u') = false
  /\ Client.isDownloading (Client.store u')
     = Client.isDownloading (Client.store u).
Proof.
  intros [card [Hcard Hid]] Hskip. cbn zeta.
  rewrite (@client_regenerateCard_run outside cardId card u Hcard Hid).
  cbn zeta. unfold Client.finally.
  rewrite client_completion_skipped.
  - cbn. auto.
  - exact Hskip.
  - intros [c [Hc _]]. discriminate.
Qed.

Lemma X26_witness :
  Client.previews "card-1" (Client.store Client.showing_lion)
  /\ Client.skips_preview Client.skipping
       (Client.fires Client.skipping 2000 (Client.now Client.showing_lion))
  /\ Client.store (snd (Client.regenerateCard Client.skipping "card-1"
                          Client.showing_lion))
     = Client.initial.
Proof.
  assert (H1 : Client.previews "card-1" (Client.store Client.showing_lion)).
  { exists Client.lion. split; reflexivity. }
  assert (H2 : Client.skips_preview Client.skipping
                 (Client.fires Client.skipping 2000
                    (Client.now Client.showing_lion))).
  { eexists. split; reflexivity. }
  split; [exact H1 |]. split; [exact H2 |].
  pose proof (@X26_regenerating_with_preview_skipped_loses_the_card
                Client.skipping "card-1" Client.showing_lion H1 H2) as H.
  cbn zeta in H. destruct H as [_ [Hp [Ho [Hr Hd]]]].
  destruct (Client.store (snd (Client.regenerateCard Client.skipping "card-1"
                                 Client.showing_lion)))
    as [p o g d r] eqn:E.
  cbn in Hp, Ho, Hr, Hd. subst.
  assert (Hg : Client.isGenerating
                 (Client.store (snd (Client.regenerateCard Client.skipping
                                       "card-1" Client.showing_lion)))
               = false) by reflexivity.
  rewrite E in Hg. cbn in Hg. subst. reflexivity.
Defined.

(** X27. Approving in the client takes the card under preview to
    downloaded.  When the card under preview is approved, the action
    resolves; the components are rendered four times, with the download
    flag raised, with the card approved, with the card downloaded, and
    with the flag lowered; the card ends downloaded, stamped with the
    instant the timer fired, and is otherwise the card that was shown;
    the preview stays as it was.  When another card is named, or none
    is under preview, nothing changes. *)
Theorem X27_client_approval_ends_downloaded
  (outside : Client.Outside) (cardId : string) (u : Client.Ui) :
  let u' := snd (Client.approveCard outside cardId u) in
  fst (Client.approveCard outside cardId u) = Resolved tt
  /\ (~ Client.previews cardId (Client.store u) -> u' = u)
  /\ (forall card,
        Client.previewCard (Client.store u) = Some card ->
        Client.Card.id card = cardId ->
        exists final,
          Client.previewCard (Client.store u') = Some final
          /\ Client.Card.status final = downloaded
          /\ Client.Card.updated_at final
             = Client.fires outside 1000 (Client.now u)
          /\ Client.same_but_status card final
          /\ Client.isDownloading (Client.store u') = false
          /\ Client.isPreviewOpen (Client.store u')
             = Client.isPreviewOpen (Client.store u)
          /\ map (fun s => (Client.isDownloading s,
                            option_map Client.Card.status (Client.previewCard s)))
                 (firstn 4 (Client.rendered u'))
             = [(false, Some downloaded); (true, Some downloaded);
                (true, Some approved);
                (true, Some (Client.Card.status card))]).
Proof.
  cbn zeta.
  destruct (Client.previewCard (Client.store u)) as [card |] eqn:Hcard.
  - destruct (String.eqb_spec (Client.Card.id card) cardId) as [Hid | Hne].
    + rewrite (@client_approveCard_run outside cardId card u Hcard Hid).
      cbn zeta. cbn [fst snd Client.store Client.rendered].
      split; [reflexivity |]. split.
      * intros Hnot. exfalso. apply Hnot. exists card. auto.
      * intros card' Hcard' _. injection Hcard' as <-.
        eexists. split; [reflexivity |].
        cbn. rewrite Hcard. cbn. repeat split.
    + assert (Hnot : ~ Client.previews cardId (Client.store u)).
      { intros [c [Hc Hcid]]. rewrite Hcard in Hc. injection Hc as <-.
        contradiction. }
      rewrite (@client_approveCard_elsewhere outside cardId u Hnot).
      split; [reflexivity |]. split; [reflexivity |].
      intros card' Hcard' Hid'. injection Hcard' as <-. contradiction.
  - assert (Hnot : ~ Client.previews cardId (Client.store u)).
    { intros [c [Hc _]]. rewrite Hcard in Hc. discriminate. }
    rewrite (@client_approveCard_elsewhere outside cardId u Hnot).
    split; [reflexivity |]. split; [reflexivity |].
    intros card' Hcard'. discriminate.
Qed.

(** X28. Regenerating shows a new card with the content of the old one.
    When the card under preview is regenerated and the preferences say
    to show the preview, or cannot be read, the action resolves with
    the preview open on a new card: its id is the instant the timer
    fired, written in decimal, its status is preview, and its user,
    title, type, content and generation parameters are those of the card
    that was shown; the regeneration flag is lowered. *)
Theorem X28_regenerating_shows_a_card_with_the_same_content
  (outside : Client.Outside) (cardId : string) (card : Client.Card.t)
  (u : Client.Ui) :
  Client.previewCard (Client.store u) = Some card ->
  Client.Card.id card = cardId ->
  Client.shows_preview outside (Client.fires outside 2000 (Client.now u)) ->
  let u' := snd (Client.regenerateCard outside cardId u) in
  let later := Client.fires outside 2000 (Client.now u) in
  fst (Client.regenerateCard outside cardId u) = Resolved tt
  /\ exists newCard,
       Client.previewCard (Client.store u') = Some newCard
       /\ Client.Card.id newCard = String_of_Z later
       /\ Client.Card.status newCard = preview
       /\ Client.Card.created_at newCard = later
       /\ Client.Card.user_id newCard = Client.Card.user_id card
       /\ Client.Card.title newCard = Client.Card.title card
       /\ Client.Card.card_type newCard = Client.Card.card_type card
       /\ Client.Card.content newCard = Client.Card.content card
       /\ Client.Card.generation_params newCard
          = Client.Card.generation_params card
       /\ Client.isPreviewOpen (Client.store u') = true
       /\ Client.isRegenerating (Client.store u') = false.
Proof.
  intros Hcard Hid Hshow. cbn zeta.
  rewrite (@client_regenerateCard_run outside cardId card u Hcard Hid).
  cbn zeta. unfold Client.finally.
  rewrite client_completion_shown by exact Hshow.
  cbn. split; [reflexivity |]. eexists. split; [reflexivity |]. cbn.
  repeat split.
Qed.

Lemma X28_witness :
  Client.previewCard (Client.store Client.showing_lion) = Some Client.lion
  /\ Client.shows_preview Client.showing
       (Client.fires Client.showing 2000 (Client.now Client.showing_lion))
  /\ exists newCard,
       Client.previewCard
         (Client.store (snd (Client.regenerateCard Client.showing "card-1"
                               Client.showing_lion)))
       = Some newCard
       /\ Client.Card.id newCard = "7000"
       /\ Client.Card.content newCard = Client.Card.content Client.lion.
Proof.
  assert (H : Client.shows_preview Client.showing
                (Client.fires Client.showing 2000
                   (Client.now Client.showing_lion))) by reflexivity.
  split; [reflexivity |]. split; [exact H |].
  destruct (proj2 (@X28_regenerating_shows_a_card_with_the_same_content
                     Client.showing "card-1" Client.lion Client.showing_lion
                     eq_refl eq_refl H))
    as [newCard [H1 [H2 [_ [_ [_ [_ [_ [H3 _]]]]]]]]].
  exists newCard. split; [exact H1 |]. split; [exact H2 | exact H3].
Defined.


(* ================================================================== *)
(** * 35. What is sent to OpenAI *)
(* ================================================================== *)

Section Requests.

Variable env : Env.

(** The requests of content generation. *)
Lemma generateCardContent_requests data w :
  exists calls,
    api_calls (snd (generateCardContent env (GenerateCard.input_prompt data)
                      (GenerateCard.card_type data)
                      (GenerateCard.generation_params data) w))
    = (api_calls w ++ calls)%list
    /\ openai_requests data calls.
Proof.
  destruct (moderated_content env data) as [[[parsed raw] usage] |] eqn:Hmod.
  { destruct (moderated_content_some env data Hmod) as [Htext Hpass].
    rewrite (generateCardContent_run _ Htext Hpass). cbn zeta.
    cbn [snd with_api_calls api_calls].
    exists ([chat_call data; moderation_call raw]
            ++ map (image_call (GenerateCard.generation_params data)) raw)%list.
    split; [rewrite <- app_assoc; reflexivity |].
    right. right. exists raw. right. reflexivity. }
  revert Hmod. unfold moderated_content.
  unfold generateCardContent, try_catch. unfold bind at 1.
  unfold generateTextContent. unfold bind at 1. rewrite issue_run.
  fold (chat_call data).
  assert (Hone : openai_requests data [chat_call data])
    by (right; left; reflexivity).
  destruct (chat_completions_create env _ _ _) as [[[answer |] u] | m];
    cbn [message_content usage_total_tokens falsy_string] in *.
  2,3: intros _; eexists; split; [reflexivity | exact Hone].
  destruct (String.eqb answer "") eqn:Hne.
  { intros _; eexists; split; [reflexivity | exact Hone]. }
  destruct (JSON_parse env answer) as [p |] eqn:Hparse.
  2:{ intros _; eexists; split; [reflexivity | exact Hone]. }
  cbn [ret fst snd]. unfold bind at 1.
  destruct (TextContent.scenes p) as [r |] eqn:Hscenes.
  2:{ intros _; eexists; split; [reflexivity | exact Hone]. }
  cbn [ret]. unfold bind at 1. unfold moderateContent. unfold bind at 1.
  rewrite issue_run. fold (moderated_text r). fold (moderation_call r).
  assert (Htwo : openai_requests data [chat_call data; moderation_call r]).
  { right. right. exists r. left. reflexivity. }
  destruct (moderations_create env (moderated_text r)) as [[result |] | m];
    try discriminate.
  - destruct (flagged result); try discriminate. intros _.
    eexists; split; [| exact Htwo].
    cbn [snd with_api_calls api_calls throw]. rewrite <- app_assoc. reflexivity.
  - intros _. eexists; split; [| exact Htwo].
    cbn [snd with_api_calls api_calls throw]. rewrite <- app_assoc. reflexivity.
Qed.

(** The requests of the detached pipeline. *)
Lemma detached_requests sid data uid w :
  exists calls,
    api_calls (snd (detached env sid data uid w)) = (api_calls w ++ calls)%list
    /\ openai_requests data calls.
Proof.
  set (Q := fun w0 => exists calls,
              api_calls w0 = (api_calls w ++ calls)%list
              /\ openai_requests data calls).
  pose proof (@detached_triple env sid (fun w0 => api_calls w0 = api_calls w) Q
                data uid) as T.
  assert (HT : triple (fun w0 => api_calls w0 = api_calls w)
                      (detached env sid data uid)
                      (fun _ => Q) (fun _ _ => False)).
  { apply T.
    - intros w0 H0. exists []. rewrite app_nil_r. split; [exact H0 | left; reflexivity].
    - intros w0 H0. exact H0.
    - intros w0 H0.
      destruct (generateCardContent_requests data w0) as [calls [Hc Hs]].
      rewrite H0 in Hc.
      destruct (generateCardContent env _ _ _ w0) as [[g | e] w1];
        exists calls; auto.
    - constructor; intros; assumption. }
  specialize (HT w eq_refl).
  destruct (detached env sid data uid w) as [[[] | e] w']; [exact HT | contradiction].
Qed.

End Requests.

(** X29. What a generation request sends to OpenAI.  Whatever the
    replies and the faults of the store, a request adds to the log of
    OpenAI requests nothing; or the chat request of its prompt; or that
    and one moderation request on the descriptions of the scenes of the
    answer; or these two and the image requests of those scenes, one
    per scene, in their order.  There is never a second chat or
    moderation request, and no request is sent for a body that does not
    pass validation. *)
Theorem X29_requests_sent_to_OpenAI
  (env : Env) (request : Request) (w : World) :
  exists calls,
    api_calls (snd (POST env request w)) = (api_calls w ++ calls)%list
    /\ (calls = []
        \/ exists data,
             GenerateCardSchema_parse (body request) = Some data
             /\ openai_requests data calls)
    /\ (List.length (filter is_chat_call calls) <= 1)%nat
    /\ (List.length (filter is_moderation_call calls) <= 1)%nat.
Proof.
  assert (Hcount : forall data calls, openai_requests data calls ->
            (List.length (filter is_chat_call calls) <= 1)%nat
            /\ (List.length (filter is_moderation_call calls) <= 1)%nat).
  { intros data calls [-> | [-> | [raw [-> | ->]]]]; cbn; try lia.
    assert (H : forall (f : ApiCall -> bool),
              (forall p s, f (ImageGeneration p s) = false) ->
              filter f (map (image_call (GenerateCard.generation_params data)) raw)
              = []).
    { intros f Hf. induction raw as [| sc rest IH]; [reflexivity |].
      cbn [map filter]. unfold image_call at 1. rewrite Hf. exact IH. }
    rewrite !H by reflexivity. cbn. lia. }
  destruct (POST_cases env request w)
    as [[status [code [msg Hpost]]] | [data [uid [Hparse [_ [_ [_ Hpost]]]]]]];
    rewrite Hpost; cbn [snd].
  - exists []. rewrite app_nil_r. cbn. auto.
  - destruct (detached_requests env (next_uuid w) data uid
                (pending_store uid data w)) as [calls [Hc Hs]].
    exists calls. split; [exact Hc |].
    split; [right; exists data; auto |].
    apply (Hcount data). exact Hs.
Qed.

(* ================================================================== *)
(** * 36. The session and its card *)
(* ================================================================== *)

Section Session_and_card.

Variable env : Env.
Variable sid uid : Uuid.
Variable cards : list FlashCard.t.

Lemma no_card_yet_update patch w :
  (forall s, Session.id (patch s) = Session.id s) ->
  (forall s, Session.status (patch s) <> completed) ->
  no_card_yet cards sid w ->
  no_card_yet cards sid (snd (update_session sid patch w)).
Proof.
  intros Hid Hst [Hc Hs]. split; [exact Hc |].
  rewrite sessions_with_id_update by exact Hid.
  apply Forall_forall. intros s Hin. apply in_map_iff in Hin.
  destruct Hin as [s0 [<- _]]. apply Hst.
Qed.

Lemma card_stored_update patch w :
  card_stored cards sid uid w ->
  card_stored cards sid uid (snd (update_session sid patch w)).
Proof. intros H. exact H. Qed.

(** The detached pipeline ends with no card and the session not
    completed, or with the card stored. *)
Lemma detached_card data :
  triple (no_card_yet cards sid)
         (detached env sid data uid)
         (fun _ w => no_card_yet cards sid w \/ card_stored cards sid uid w)
         (fun _ _ => False).
Proof.
  set (A := no_card_yet cards sid).
  set (B := card_stored cards sid uid).
  unfold detached.
  apply triple_try_catch with (E' := fun _ w => A w \/ B w).
  2:{ intros e.
      apply triple_try_catch with (E' := fun _ w => A w \/ B w);
        [| intros _; apply triple_ret; auto].
      apply triple_bind with (R := fun _ w => A w \/ B w);
        [apply stable_new_Date |]. intros now.
      apply triple_bind with (R := fun _ w => A w \/ B w);
        [| intros _; apply triple_ret; auto].
      apply stable_statement. intros w [Ha | Hb]; [left | right; exact Hb].
      apply no_card_yet_update; [reflexivity | discriminate | exact Ha]. }
  unfold generateCardAsync.
  apply triple_bind with (R := fun _ => A).
  { unfold OpenAIService_new. destruct (falsy_string _);
      [apply triple_throw | apply triple_ret]; auto. }
  intros _.
  apply triple_try_catch with (E' := fun _ w => A w \/ B w).
  2:{ intros e.
      apply triple_bind with (R := fun _ w => A w \/ B w);
        [apply stable_new_Date |]. intros now.
      apply triple_bind with (R := fun _ w => A w \/ B w);
        [| intros _; apply triple_throw; auto].
      apply stable_statement. intros w [Ha | Hb]; [left | right; exact Hb].
      apply no_card_yet_update; [reflexivity | discriminate | exact Ha]. }
  apply triple_bind with (R := fun _ => A).
  { apply stable_rejecting; [| auto].
    apply stable_statement. intros w Ha.
    apply no_card_yet_update; [reflexivity | discriminate | exact Ha]. }
  intros _.
  apply triple_bind with (R := fun _ => A).
  { apply stable_rejecting; [| auto].
    apply stable_generateCardContent. intros w c Ha. exact Ha. }
  intros cardContent.
  apply triple_bind
    with (R := fun inserted w =>
                 match inserted with
                 | PgData _ => B w
                 | PgError _ => A w
                 end).
  { unfold statement. apply triple_supabase.
    - intros w [Hc _]. cbn [insert_card fst snd].
      eexists. cbn [flash_cards]. rewrite Hc. repeat split.
    - intros m w Ha. exact Ha.
    - intros m w Ha. left. exact Ha. }
  intros inserted.
  apply triple_bind with (R := fun _ => B).
  { destruct inserted; [apply triple_ret | apply triple_throw]; auto. }
  intros card.
  apply triple_bind with (R := fun _ => B).
  { apply stable_rejecting; [| auto].
    destruct (0 <? _); [| apply stable_ret].
    apply stable_bind; [| intros _; apply stable_ret].
    apply stable_statement. intros w H. exact H. }
  intros _.
  apply triple_bind with (R := fun _ => B).
  { apply stable_rejecting; [apply stable_new_Date | auto]. }
  intros now.
  apply triple_bind with (R := fun _ => B).
  { apply stable_rejecting; [| auto].
    apply stable_statement. intros w H. exact H. }
  intros _.
  intros w Hb.
  destruct (updateUserUsage_run env uid (costs cardContent) w)
    as [Hres [_ [Hcards _]]].
  destruct (updateUserUsage env uid (costs cardContent) w) as [[[] | e] w'];
    [| discriminate].
  cbn [snd] in Hcards. right.
  destruct Hb as [stored [Hc Hrest]]. exists stored. rewrite Hcards. auto.
Qed.

End Session_and_card.

(** X30. A completed session has its card.  From a store in which the
    session is not completed, the pipeline the route starts ends either
    with no card added and the session not completed, or with exactly
    one card added after those that were there, a card of the user and
    of that session, to preview.  So a session that is seen completed
    always has its card in the store. *)
Theorem X30_completed_session_has_its_card
  (env : Env) (sid : Uuid) (data : GenerateCard.t) (uid : Uuid) (w : World) :
  Forall (fun s => Session.status s <> completed) (sessions_with_id sid w) ->
  let w' := snd (detached env sid data uid w) in
  (no_card_yet (flash_cards w) sid w' \/ card_stored (flash_cards w) sid uid w')
  /\ ((exists s, In s (sessions_with_id sid w')
                 /\ Session.status s = completed) ->
      card_stored (flash_cards w) sid uid w').
Proof.
  intros Hopen. cbn zeta.
  pose proof (@detached_card env sid uid (flash_cards w) data w
                (conj eq_refl Hopen)) as T.
  destruct (detached env sid data uid w) as [[[] | e] w']; [| contradiction].
  cbn [snd]. split; [exact T |].
  intros [s [Hin Hst]]. destruct T as [[_ Hnone] | Hb]; [| exact Hb].
  rewrite Forall_forall in Hnone. exfalso. apply (Hnone s Hin Hst).
Qed.

Lemma X30_witness :
  Forall (fun s => Session.status s <> completed)
         (sessions_with_id 100 elephant_pending)
  /\ (exists s,
        In s (sessions_with_id 100
                (snd (detached all_well 100 elephant_data 7 elephant_pending)))
        /\ Session.status s = completed)
  /\ card_stored (flash_cards elephant_pending) 100 7
       (snd (detached all_well 100 elephant_data 7 elephant_pending)).
Proof.
  assert (H1 : Forall (fun s => Session.status s <> completed)
                      (sessions_with_id 100 elephant_pending)).
  { constructor; [discriminate | constructor]. }
  assert (H2 : exists s,
             In s (sessions_with_id 100
                     (snd (detached all_well 100 elephant_data 7
                                    elephant_pending)))
             /\ Session.status s = completed).
  { assert (Hm : map Session.status
                   (sessions_with_id 100
                      (snd (detached all_well 100 elephant_data 7
                                     elephant_pending)))
                 = [completed]) by (vm_compute; reflexivity).
    destruct (sessions_with_id 100
                (snd (detached all_well 100 elephant_data 7 elephant_pending)))
      as [| s [| s' rest]]; try discriminate.
    exists s. split; [left; reflexivity |]. injection Hm as Hm. exact Hm. }
  split; [exact H1 |]. split; [exact H2 |].
  exact (proj2 (@X30_completed_session_has_its_card all_well 100 elephant_data 7
                  elephant_pending H1) H2).
Defined.
